(** * Class_Diagram API: Book / Author / Library with two join tables

    A shallow embedding of [backend/pydantic_classes.py],
    [backend/sql_alchemy.py] and the endpoints of [backend/main_api.py],
    followed by the properties of the relationship bookkeeping.

    The SQLAlchemy session is modelled by explicit state passing: a
    [Session] holds the committed database, the working copy of the open
    transaction and the list of Core statements executed through
    [database.execute].  An endpoint is a computation in the monad [M];
    [run_request] plays the role of [get_db] and of the exception
    handlers registered on [app]. *)

From Stdlib Require Import PrimFloat.
From stdpp Require Import gmap strings list fin_maps pretty sorting.

Local Open Scope string_scope.
Local Open Scope list_scope.
Local Open Scope Z_scope.

(** ** pydantic_classes.py *)

Definition date : Type := Z * Z * Z.
Definition time : Type := Z * Z * Z.

(** Exceptions that travel through the endpoints.  The [detail] of an
    [HTTPException] is a string, or for the bulk endpoints the dict
    [{"message": ..., "errors": [{"index": ..., "error": ...}]}]. *)
Inductive Detail :=
| DetailStr (s : string)
| DetailBulk (message : string) (errors : list (nat * string)).

Inductive Exn :=
| HTTPException (status_code : Z) (detail : Detail)
| IntegrityError (orig : string)
| ValueError (msg : string)
| OtherError (name msg : string).

Module BookCreate.
Record t := mk {
  pages : Z;
  time : time;
  stock : Z;
  price : float;
  release : date;
  title : string;
  authors : list Z;
  library : list Z
}.

(** [@field_validator('pages')], OCL constraint constraint_Book_0_1. *)
Definition validate_pages_1 (v : Z) : Z + Exn :=
  if negb (bool_decide (v > 10)) then inr (ValueError "pages must be > 10")
  else inl v.

(** Validation of a body against the model: the field validators run on
    the parsed fields; the errors carry the field name. *)
Definition model_validate (raw : t) : t + list (string * Exn) :=
  match validate_pages_1 (pages raw) with
  | inl v => inl (mk v (time raw) (stock raw) (price raw) (release raw)
                     (title raw) (authors raw) (library raw))
  | inr e => inr [("pages", e)]
  end.
End BookCreate.

Module AuthorCreate.
Record t := mk { name : string; books : list Z }.
Definition model_validate (raw : t) : t + list (string * Exn) := inl raw.
End AuthorCreate.

Module LibraryCreate.
Record t := mk { name : string; books : list Z }.
Definition model_validate (raw : t) : t + list (string * Exn) := inl raw.
End LibraryCreate.

(** ** sql_alchemy.py *)

Module Book.
Record t := mk {
  title : string;
  pages : Z;
  stock : Z;
  price : float;
  release : date;
  time : time
}.
End Book.

Module Author.
Record t := mk { name : string }.
End Author.

Module Library.
Record t := mk { name : string }.
End Library.

(** The entity tables are keyed by their primary key [id].  The two
    association tables keep their rows in column order:
    [books_1] rows are [(authors, books)], [books] rows are
    [(books, library)]; both columns together are the primary key. *)
Record Database := mkDatabase {
  book : gmap Z Book.t;
  author : gmap Z Author.t;
  library : gmap Z Library.t;
  books_1 : list (Z * Z);
  books : list (Z * Z)
}.

Inductive Entity := EBook | EAuthor | ELibrary.
Inductive JoinTable := Books_1 | Books.
Inductive Side := SLeft | SRight.

Definition has_row (e : Entity) (id : Z) (db : Database) : bool :=
  match e with
  | EBook => bool_decide (is_Some (book db !! id))
  | EAuthor => bool_decide (is_Some (author db !! id))
  | ELibrary => bool_decide (is_Some (library db !! id))
  end.

Definition rows (t : JoinTable) (db : Database) : list (Z * Z) :=
  match t with Books_1 => books_1 db | Books => books db end.

Definition set_rows (t : JoinTable) (rs : list (Z * Z)) (db : Database) : Database :=
  match t with
  | Books_1 => mkDatabase (book db) (author db) (library db) rs (books db)
  | Books => mkDatabase (book db) (author db) (library db) (books_1 db) rs
  end.

(** [relationship(target, secondary=..., back_populates=...)]: the
    association table, the column that holds the owner's id, and the
    entity on the other side. *)
Record Relationship := mkRel {
  secondary : JoinTable;
  owner_col : Side;
  owner : Entity;
  target : Entity
}.

Definition Book_authors : Relationship := mkRel Books_1 SRight EBook EAuthor.
Definition Book_library : Relationship := mkRel Books SLeft EBook ELibrary.
Definition Author_books : Relationship := mkRel Books_1 SLeft EAuthor EBook.
Definition Library_books : Relationship := mkRel Books SRight ELibrary EBook.

Definition owner_of (r : Relationship) (row : Z * Z) : Z :=
  match owner_col r with SLeft => row.1 | SRight => row.2 end.
Definition other_of (r : Relationship) (row : Z * Z) : Z :=
  match owner_col r with SLeft => row.2 | SRight => row.1 end.
Definition mk_row (r : Relationship) (owner_id other_id : Z) : Z * Z :=
  match owner_col r with
  | SLeft => (owner_id, other_id)
  | SRight => (other_id, owner_id)
  end.

(** The other ids of the rows of [rs] that belong to [o], in row order. *)
Definition linked_in (r : Relationship) (o : Z) (rs : list (Z * Z)) : list Z :=
  other_of r <$> filter (λ row, owner_of r row = o) rs.

(** The order in which [SELECT other FROM t WHERE owner = ?] lists the
    ids; the query has no ORDER BY.  When the owner's column leads the
    composite primary key ([Book.library] on books, [Author.books] on
    books_1) the store answers from the index of the key, so the ids come
    in ascending order; otherwise ([Book.authors], [Library.books]) it
    scans the table by rowid, so they come in the order of insertion. *)
Definition select_order (r : Relationship) (ids : list Z) : list Z :=
  match owner_col r with
  | SLeft => merge_sort Z.le ids
  | SRight => ids
  end.

(** Ids linked to [owner_id], as the store lists them. *)
Definition linked (r : Relationship) (owner_id : Z) (db : Database) : list Z :=
  select_order r (linked_in r owner_id (rows (secondary r) db)).

(** An INTEGER PRIMARY KEY column without AUTOINCREMENT: the next rowid is
    one more than the largest one in the table, 1 for an empty table. *)
Definition max_id (ids : list Z) : Z := foldr Z.max 0 ids.
Definition next_id {V} (tbl : gmap Z V) : Z := max_id (elements (dom tbl)) + 1.

(** ** The session *)

Inductive Stmt :=
| StInsert (t : JoinTable) (row : Z * Z)
| StDelete (t : JoinTable) (row : Z * Z).

Record Session := mkSession {
  committed : Database;
  working : Database;
  executed : list Stmt
}.

Definition M (A : Type) : Type := Session → (A + Exn) * Session.

Global Instance M_ret : MRet M := λ A a s, (inl a, s).
Global Instance M_bind : MBind M := λ A B f m s,
  match m s with
  | (inl a, s') => f a s'
  | (inr e, s') => (inr e, s')
  end.

Definition raise {A} (e : Exn) : M A := λ s, (inr e, s).

(** [try: body except Exception as e: handler(e)] *)
Definition try_except {A} (body : M A) (handler : Exn → M A) : M A := λ s,
  match body s with
  | (inl a, s') => (inl a, s')
  | (inr e, s') => handler e s'
  end.

Fixpoint for_each {A} (xs : list A) (body : A → M unit) : M unit :=
  match xs with
  | [] => mret tt
  | x :: xs' => body x ;; for_each xs' body
  end.

(** [database.commit()] and [database.rollback()]. *)
Definition commit : M unit := λ s,
  (inl tt, mkSession (working s) (working s) (executed s)).
Definition rollback : M unit := λ s,
  (inl tt, mkSession (committed s) (committed s) (executed s)).

(** [database.query(E).filter(E.id == id).first()] *)
Definition query_book (id : Z) : M (option Book.t) := λ s,
  (inl (book (working s) !! id), s).
Definition query_author (id : Z) : M (option Author.t) := λ s,
  (inl (author (working s) !! id), s).
Definition query_library (id : Z) : M (option Library.t) := λ s,
  (inl (library (working s) !! id), s).
Definition query_exists (e : Entity) (id : Z) : M bool := λ s,
  (inl (has_row e id (working s)), s).

(** [database.query(t.c.other).filter(t.c.owner == owner_id).all()] and
    [database.execute(t.select().where(t.c.owner == owner_id))]. *)
Definition select_linked (r : Relationship) (owner_id : Z) : M (list Z) := λ s,
  (inl (linked r owner_id (working s)), s).

(** [database.query(t).filter((owner == a) & (other == b)).first()] *)
Definition query_link (r : Relationship) (owner_id other_id : Z) : M bool := λ s,
  (inl (bool_decide (mk_row r owner_id other_id ∈ rows (secondary r) (working s))), s).

(** The text of the [sqlite3.IntegrityError] for a pair that is already
    stored: the columns of the composite primary key, in key order. *)
Definition unique_failed (t : JoinTable) : string :=
  match t with
  | Books_1 => "UNIQUE constraint failed: books_1.authors, books_1.books"
  | Books => "UNIQUE constraint failed: books.books, books.library"
  end.

(** [database.execute(t.insert().values(...))]: the composite primary key
    rejects a pair that is already stored. *)
Definition execute_insert (r : Relationship) (owner_id other_id : Z) : M unit := λ s,
  let row := mk_row r owner_id other_id in
  let t := secondary r in
  if bool_decide (row ∈ rows t (working s))
  then (inr (IntegrityError (unique_failed t)), s)
  else (inl tt, mkSession (committed s)
                  (set_rows t (rows t (working s) ++ [row]) (working s))
                  (executed s ++ [StInsert t row])).

(** [database.execute(t.delete().where((owner == a) & (other == b)))] *)
Definition execute_delete (r : Relationship) (owner_id other_id : Z) : M unit := λ s,
  let row := mk_row r owner_id other_id in
  let t := secondary r in
  (inl tt, mkSession (committed s)
             (set_rows t (filter (λ x, x ≠ row) (rows t (working s))) (working s))
             (executed s ++ [StDelete t row])).

(** [database.add(obj)] with the flush that assigns the primary key (the
    explicit [database.flush()] of the bulk endpoints, or the one
    [database.commit()] starts with). *)
Definition add_book (b : Book.t) : M Z := λ s,
  let db := working s in
  let id := next_id (book db) in
  (inl id, mkSession (committed s)
             (mkDatabase (<[id := b]> (book db)) (author db) (library db)
                (books_1 db) (books db))
             (executed s)).
Definition add_author (a : Author.t) : M Z := λ s,
  let db := working s in
  let id := next_id (author db) in
  (inl id, mkSession (committed s)
             (mkDatabase (book db) (<[id := a]> (author db)) (library db)
                (books_1 db) (books db))
             (executed s)).
Definition add_library (l : Library.t) : M Z := λ s,
  let db := working s in
  let id := next_id (library db) in
  (inl id, mkSession (committed s)
             (mkDatabase (book db) (author db) (<[id := l]> (library db))
                (books_1 db) (books db))
             (executed s)).

(** [setattr(obj, field, value)] on a loaded row. *)
Definition setattr_book (id : Z) (b : Book.t) : M unit := λ s,
  let db := working s in
  (inl tt, mkSession (committed s)
             (mkDatabase (<[id := b]> (book db)) (author db) (library db)
                (books_1 db) (books db))
             (executed s)).
Definition setattr_author (id : Z) (a : Author.t) : M unit := λ s,
  let db := working s in
  (inl tt, mkSession (committed s)
             (mkDatabase (book db) (<[id := a]> (author db)) (library db)
                (books_1 db) (books db))
             (executed s)).
Definition setattr_library (id : Z) (l : Library.t) : M unit := λ s,
  let db := working s in
  (inl tt, mkSession (committed s)
             (mkDatabase (book db) (author db) (<[id := l]> (library db))
                (books_1 db) (books db))
             (executed s)).

(** The relationships declared on each mapped class (sql_alchemy.py,
    "Relationships of the ... table"). *)
Definition relationships (e : Entity) : list Relationship :=
  match e with
  | EBook => [Book_authors; Book_library]
  | EAuthor => [Author_books]
  | ELibrary => [Library_books]
  end.

(** What the unit of work does to the association table of one
    [relationship(..., secondary=t)] when its owner is deleted: the
    collection is loaded (a join of [t] with the target's table) and the
    association row of every loaded member is deleted. *)
Definition unlink_deleted (r : Relationship) (owner_id : Z) (db : Database) : Database :=
  set_rows (secondary r)
    (filter (λ row, ¬ (owner_of r row = owner_id ∧ has_row (target r) (other_of r row) db))
       (rows (secondary r) db))
    db.

Definition delete_row (e : Entity) (id : Z) (db : Database) : Database :=
  match e with
  | EBook => mkDatabase (delete id (book db)) (author db) (library db) (books_1 db) (books db)
  | EAuthor => mkDatabase (book db) (delete id (author db)) (library db) (books_1 db) (books db)
  | ELibrary => mkDatabase (book db) (author db) (delete id (library db)) (books_1 db) (books db)
  end.

(** [database.delete(obj)], as flushed by the commit that follows it. *)
Definition session_delete (e : Entity) (id : Z) : M unit := λ s,
  (inl tt, mkSession (committed s)
             (delete_row e id
                (foldl (λ db r, unlink_deleted r id db) (working s) (relationships e)))
             (executed s)).

(** ** Responses, exception handlers and [get_db] *)

Record ErrorBody := mkErrorBody {
  error : string;
  message : Detail;
  detail : string
}.

Record JSONResponse := mkJSONResponse {
  status_code : Z;
  content : ErrorBody
}.

Inductive LocItem := LocStr (s : string) | LocIdx (i : nat).

Inductive HttpResult (A : Type) :=
| Returned (body : A)
| Failed (resp : JSONResponse)
| RequestValidationError (errors : list (list LocItem * Exn)).
Arguments Returned {A} body.
Arguments Failed {A} resp.
Arguments RequestValidationError {A} errors.

Definition str (e : Exn) : string :=
  match e with
  | HTTPException c (DetailStr d) => pretty c +:+ ": " +:+ d
  | HTTPException c (DetailBulk m _) => pretty c +:+ ": " +:+ m
  | IntegrityError orig => orig
  | ValueError msg => msg
  | OtherError _ msg => msg
  end.

(** The handlers registered with [@app.exception_handler]; an exception
    with no handler is the server's 500. *)
Definition exception_handler (e : Exn) : JSONResponse :=
  match e with
  | ValueError msg =>
      mkJSONResponse 400
        (mkErrorBody "Bad Request" (DetailStr msg) "Invalid input data provided")
  | IntegrityError orig =>
      mkJSONResponse 409
        (mkErrorBody "Conflict" (DetailStr "Data conflict occurred") orig)
  | HTTPException c d =>
      mkJSONResponse c
        (mkErrorBody (match d with DetailStr x => x | _ => "HTTP Error" end) d
           ("HTTP " +:+ pretty c +:+ " error occurred"))
  | OtherError _ msg =>
      mkJSONResponse 500
        (mkErrorBody "Internal Server Error" (DetailStr msg) "")
  end.

Record Outcome (A : Type) := mkOutcome {
  response : HttpResult A;
  database : Database;
  statements : list Stmt
}.
Arguments mkOutcome {A} _ _ _.
Arguments response {A} _.
Arguments database {A} _.
Arguments statements {A} _.

(** One request: [get_db] opens a session on the stored database, the
    endpoint runs, an exception rolls the open transaction back and goes
    to its handler, and [db.close()] drops whatever was not committed. *)
Definition run_request {A} (endpoint : M A) (db : Database) : Outcome A :=
  match endpoint (mkSession db db []) with
  | (inl a, s) => mkOutcome (Returned a) (committed s) (executed s)
  | (inr e, s) => mkOutcome (Failed (exception_handler e)) (committed s) (executed s)
  end.

(** A request whose body is validated against a model before the
    endpoint is entered. *)
Definition with_body {Raw T A} (validate : Raw → T + list (list LocItem * Exn))
    (endpoint : T → M A) (raw : Raw) (db : Database) : Outcome A :=
  match validate raw with
  | inl v => run_request (endpoint v) db
  | inr errs => mkOutcome (RequestValidationError errs) db []
  end.

Definition body_model {T} (model_validate : T → T + list (string * Exn))
    (raw : T) : T + list (list LocItem * Exn) :=
  match model_validate raw with
  | inl v => inl v
  | inr errs => inr ((λ fe, ([LocStr "body"; LocStr fe.1], fe.2)) <$> errs)
  end.

(** A body of type [list[Model]]: every item is validated and the errors
    of all items are reported, each under the item's index. *)
Fixpoint body_list_from {T} (model_validate : T → T + list (string * Exn))
    (idx : nat) (raw : list T) : list T * list (list LocItem * Exn) :=
  match raw with
  | [] => ([], [])
  | x :: rest =>
      let '(vs, errs) := body_list_from model_validate (S idx) rest in
      match model_validate x with
      | inl v => (v :: vs, errs)
      | inr es =>
          (vs, (((λ fe, ([LocStr "body"; LocIdx idx; LocStr fe.1], fe.2)) <$> es) ++ errs)%list)
      end
  end.

Definition body_list {T} (model_validate : T → T + list (string * Exn))
    (raw : list T) : list T + list (list LocItem * Exn) :=
  match body_list_from model_validate 0 raw with
  | (vs, []) => inl vs
  | (_, errs) => inr errs
  end.

(** ** main_api.py: shared blocks

    The endpoints of the three entities repeat the same blocks with
    another table, column and entity name; each block is written once
    here, with the relationship as its argument. *)

Definition not_found (name : string) (id : Z) : Exn :=
  HTTPException 404 (DetailStr (name +:+ " with ID " +:+ pretty id +:+ " not found")).

(** [for id in ids: if not query(E).filter(E.id == id).first(): raise 404]
    (the [if ids:] guard around the loop only skips an empty loop). *)
Definition require_all (e : Entity) (name : string) (ids : list Z) : M unit :=
  for_each ids (λ id,
    found ← query_exists e id;
    if negb found then raise (not_found name id) else mret tt).

(** [for id in ids: obj = query(E)...first(); execute(insert(owner, obj.id));
    commit()] of the create endpoints. *)
Definition link_all (r : Relationship) (owner_id : Z) (ids : list Z) : M unit :=
  for_each ids (λ id,
    found ← query_exists (target r) id;
    if negb found then raise (OtherError "AttributeError" "'NoneType' object has no attribute 'id'")
    else execute_insert r owner_id id ;; commit).

(** The reconcile block of the update endpoints.  [set(a) - set(b)] is a
    finite set, and the [for] loop visits it in the order of its
    [elements]; like the iteration order of a Python set this order is
    fixed but unspecified, and no statement below depends on it. *)
Definition ids_to_remove (existing target_ids : list Z) : gset Z :=
  list_to_set existing ∖ list_to_set target_ids.
Definition ids_to_add (existing target_ids : list Z) : gset Z :=
  list_to_set target_ids ∖ list_to_set existing.

Definition reconcile (r : Relationship) (name : string) (owner_id : Z)
    (target_ids : list Z) : M unit :=
  existing_ids ← select_linked r owner_id;
  for_each (elements (ids_to_remove existing_ids target_ids)) (λ other_id,
    execute_delete r owner_id other_id) ;;
  for_each (elements (ids_to_add existing_ids target_ids)) (λ other_id,
    found ← query_exists (target r) other_id;
    if negb found then raise (not_found name other_id)
    else execute_insert r owner_id other_id).

(** [add_<relation>_to_<entity>] *)
Definition add_link (r : Relationship) (owner_name other_name relation : string)
    (owner_id other_id : Z) : M string :=
  db_owner ← query_exists (owner r) owner_id;
  if negb db_owner then raise (HTTPException 404 (DetailStr (owner_name +:+ " not found")))
  else
    db_other ← query_exists (target r) other_id;
    if negb db_other then raise (HTTPException 404 (DetailStr (other_name +:+ " not found")))
    else
      existing ← query_link r owner_id other_id;
      if (existing : bool) then raise (HTTPException 400 (DetailStr "Relationship already exists"))
      else
        execute_insert r owner_id other_id ;;
        commit ;;
        mret (other_name +:+ " added to " +:+ relation +:+ " successfully").

(** [remove_<relation>_from_<entity>] *)
Definition remove_link (r : Relationship) (owner_name other_name relation : string)
    (owner_id other_id : Z) : M string :=
  db_owner ← query_exists (owner r) owner_id;
  if negb db_owner then raise (HTTPException 404 (DetailStr (owner_name +:+ " not found")))
  else
    existing ← query_link r owner_id other_id;
    if negb existing then raise (HTTPException 404 (DetailStr "Relationship not found"))
    else
      execute_delete r owner_id other_id ;;
      commit ;;
      mret (other_name +:+ " removed from " +:+ relation +:+ " successfully").

(** [delete_<entity>] *)
Definition delete_entity (e : Entity) (name : string) (id : Z) : M Z :=
  found ← query_exists e id;
  if negb found then raise (HTTPException 404 (DetailStr (name +:+ " not found")))
  else
    session_delete e id ;;
    commit ;;
    mret id.

Record BulkResponse := mkBulkResponse {
  created_count : nat;
  created_ids : list Z;
  bulk_message : string
}.

Section BulkCreate.
(** [raised idx]: the exception, if any, that the body of the [try] in
    iteration [idx] of a bulk loop ends with. *)
Variable raised : nat → option Exn.

Definition flush (idx : nat) : M unit := λ s,
  match raised idx with
  | Some e => (inr e, s)
  | None => (inl tt, s)
  end.

(** [for idx, item_data in enumerate(items): try: ... except Exception as e: ...] *)
Fixpoint bulk_loop {Item} (add : Item → M Z) (idx : nat) (items : list Item)
    (created_items : list Z) (errors : list (nat * string))
    : M (list Z * list (nat * string)) :=
  match items with
  | [] => mret (created_items, errors)
  | item_data :: rest =>
      r ← try_except
            (flush idx ;; id ← add item_data; mret (inl id))
            (λ e, mret (inr (idx, str e)));
      match r with
      | inl id => bulk_loop add (S idx) rest (created_items ++ [id]) errors
      | inr err => bulk_loop add (S idx) rest created_items (errors ++ [err])
      end
  end.

Definition bulk_create {Item} (add : Item → M Z) (name : string)
    (items : list Item) : M BulkResponse :=
  '(created_items, errors) ← bulk_loop add 0 items [] [];
  match errors with
  | _ :: _ =>
      rollback ;;
      raise (HTTPException 400 (DetailBulk "Bulk creation failed" errors))
  | [] =>
      commit ;;
      mret (mkBulkResponse (length created_items) created_items
              ("Successfully created " +:+ pretty (length created_items)
                 +:+ " " +:+ name +:+ " entities"))
  end.

(** *** Book *)

Definition Book_of (d : BookCreate.t) : Book.t :=
  Book.mk (BookCreate.title d) (BookCreate.pages d) (BookCreate.stock d)
    (BookCreate.price d) (BookCreate.release d) (BookCreate.time d).

Definition bulk_create_book (items : list BookCreate.t) : M BulkResponse :=
  bulk_create (λ item_data, add_book (Book_of item_data)) "Book" items.

Definition bulk_create_author (items : list AuthorCreate.t) : M BulkResponse :=
  bulk_create (λ item_data, add_author (Author.mk (AuthorCreate.name item_data)))
    "Author" items.

Definition bulk_create_library (items : list LibraryCreate.t) : M BulkResponse :=
  bulk_create (λ item_data, add_library (Library.mk (LibraryCreate.name item_data)))
    "Library" items.

End BulkCreate.

Module BookResponse.
Record t := mk {
  book : Z * Book.t;
  author_ids : list Z;
  library_ids : list Z
}.
End BookResponse.

Module AuthorResponse.
Record t := mk { author : Z * Author.t; book_ids : list Z }.
End AuthorResponse.

Module LibraryResponse.
Record t := mk { library : Z * Library.t; book_ids : list Z }.
End LibraryResponse.

(** [database.refresh(obj)] *)
Definition refresh_book (id : Z) : M (Z * Book.t) := λ s,
  match book (working s) !! id with
  | Some b => (inl (id, b), s)
  | None => (inr (OtherError "InvalidRequestError" "Could not refresh instance"), s)
  end.
Definition refresh_author (id : Z) : M (Z * Author.t) := λ s,
  match author (working s) !! id with
  | Some a => (inl (id, a), s)
  | None => (inr (OtherError "InvalidRequestError" "Could not refresh instance"), s)
  end.
Definition refresh_library (id : Z) : M (Z * Library.t) := λ s,
  match library (working s) !! id with
  | Some l => (inl (id, l), s)
  | None => (inr (OtherError "InvalidRequestError" "Could not refresh instance"), s)
  end.

Definition book_response (db_book : Z * Book.t) : M BookResponse.t :=
  author_ids ← select_linked Book_authors db_book.1;
  library_ids ← select_linked Book_library db_book.1;
  mret (BookResponse.mk db_book author_ids library_ids).

Definition create_book (book_data : BookCreate.t) : M BookResponse.t :=
  require_all EAuthor "Author" (BookCreate.authors book_data) ;;
  require_all ELibrary "Library" (BookCreate.library book_data) ;;
  id ← add_book (Book_of book_data);
  commit ;;
  db_book ← refresh_book id;
  link_all Book_authors db_book.1 (BookCreate.authors book_data) ;;
  link_all Book_library db_book.1 (BookCreate.library book_data) ;;
  book_response db_book.

Definition update_book (book_id : Z) (book_data : BookCreate.t) : M BookResponse.t :=
  db_book ← query_book book_id;
  match db_book with
  | None => raise (HTTPException 404 (DetailStr "Book not found"))
  | Some _ =>
      setattr_book book_id (Book_of book_data) ;;
      reconcile Book_authors "Author" book_id (BookCreate.authors book_data) ;;
      reconcile Book_library "Library" book_id (BookCreate.library book_data) ;;
      commit ;;
      db_book ← refresh_book book_id;
      book_response db_book
  end.

Definition delete_book (book_id : Z) : M Z := delete_entity EBook "Book" book_id.

Definition add_authors_to_book (book_id author_id : Z) : M string :=
  add_link Book_authors "Book" "Author" "authors" book_id author_id.
Definition remove_authors_from_book (book_id author_id : Z) : M string :=
  remove_link Book_authors "Book" "Author" "authors" book_id author_id.
Definition add_library_to_book (book_id library_id : Z) : M string :=
  add_link Book_library "Book" "Library" "library" book_id library_id.
Definition remove_library_from_book (book_id library_id : Z) : M string :=
  remove_link Book_library "Book" "Library" "library" book_id library_id.

Record MethodResponse := mkMethodResponse {
  method_book_id : Z;
  method : string;
  status : string;
  result : option string;
  output : option string
}.

Definition set_stock (id : Z) (b : Book.t) (v : Z) : M unit :=
  setattr_book id
    (Book.mk (Book.title b) (Book.pages b) v (Book.price b) (Book.release b) (Book.time b)).

(** [params.get('qty')] is taken to be an integer. *)
Definition execute_book_decrease_stock (book_id : Z) (qty : Z) : M MethodResponse :=
  _book_object ← query_book book_id;
  match _book_object with
  | None => raise (HTTPException 404 (DetailStr "Book not found"))
  | Some b =>
      try_except
        (if bool_decide (qty ≤ 0) then
           raise (ValueError "Quantity must be a positive integer")
         else if bool_decide (qty > Book.stock b) then
           raise (ValueError ("Cannot decrease stock by " +:+ pretty qty +:+ ". Only "
                                +:+ pretty (Book.stock b) +:+ " items available."))
         else
           set_stock book_id b (Book.stock b - qty) ;;
           commit ;;
           mret (mkMethodResponse book_id "decrease_stock" "executed" None None))
        (λ e, raise (HTTPException 500
                       (DetailStr ("Method execution failed: " +:+ str e))))
  end.

(** *** Author *)

Definition author_response (db_author : Z * Author.t) : M AuthorResponse.t :=
  book_ids ← select_linked Author_books db_author.1;
  mret (AuthorResponse.mk db_author book_ids).

Definition create_author (author_data : AuthorCreate.t) : M AuthorResponse.t :=
  if bool_decide (AuthorCreate.books author_data = [])
     || bool_decide (length (AuthorCreate.books author_data) < 1)%nat
  then raise (HTTPException 400 (DetailStr "At least 1 Book(s) required"))
  else
    require_all EBook "Book" (AuthorCreate.books author_data) ;;
    id ← add_author (Author.mk (AuthorCreate.name author_data));
    commit ;;
    db_author ← refresh_author id;
    link_all Author_books db_author.1 (AuthorCreate.books author_data) ;;
    author_response db_author.

Definition update_author (author_id : Z) (author_data : AuthorCreate.t) : M AuthorResponse.t :=
  db_author ← query_author author_id;
  match db_author with
  | None => raise (HTTPException 404 (DetailStr "Author not found"))
  | Some _ =>
      setattr_author author_id (Author.mk (AuthorCreate.name author_data)) ;;
      reconcile Author_books "Book" author_id (AuthorCreate.books author_data) ;;
      commit ;;
      db_author ← refresh_author author_id;
      author_response db_author
  end.

Definition delete_author (author_id : Z) : M Z := delete_entity EAuthor "Author" author_id.

Definition add_books_to_author (author_id book_id : Z) : M string :=
  add_link Author_books "Author" "Book" "books" author_id book_id.

(** *** Library *)

Definition library_response (db_library : Z * Library.t) : M LibraryResponse.t :=
  book_ids ← select_linked Library_books db_library.1;
  mret (LibraryResponse.mk db_library book_ids).

Definition create_library (library_data : LibraryCreate.t) : M LibraryResponse.t :=
  require_all EBook "Book" (LibraryCreate.books library_data) ;;
  id ← add_library (Library.mk (LibraryCreate.name library_data));
  commit ;;
  db_library ← refresh_library id;
  link_all Library_books db_library.1 (LibraryCreate.books library_data) ;;
  library_response db_library.

Definition update_library (library_id : Z) (library_data : LibraryCreate.t) : M LibraryResponse.t :=
  db_library ← query_library library_id;
  match db_library with
  | None => raise (HTTPException 404 (DetailStr "Library not found"))
  | Some _ =>
      setattr_library library_id (Library.mk (LibraryCreate.name library_data)) ;;
      reconcile Library_books "Book" library_id (LibraryCreate.books library_data) ;;
      commit ;;
      db_library ← refresh_library library_id;
      library_response db_library
  end.

Definition delete_library (library_id : Z) : M Z :=
  delete_entity ELibrary "Library" library_id.

Definition add_books_to_library (library_id book_id : Z) : M string :=
  add_link Library_books "Library" "Book" "books" library_id book_id.

(** *** The requests, body validation included *)

Definition post_book : BookCreate.t → Database → Outcome BookResponse.t :=
  with_body (body_model BookCreate.model_validate) create_book.
Definition put_book (book_id : Z) : BookCreate.t → Database → Outcome BookResponse.t :=
  with_body (body_model BookCreate.model_validate) (update_book book_id).
Definition post_book_bulk (raised : nat → option Exn)
    : list BookCreate.t → Database → Outcome BulkResponse :=
  with_body (body_list BookCreate.model_validate) (bulk_create_book raised).
Definition post_author : AuthorCreate.t → Database → Outcome AuthorResponse.t :=
  with_body (body_model AuthorCreate.model_validate) create_author.
Definition post_author_bulk (raised : nat → option Exn)
    : list AuthorCreate.t → Database → Outcome BulkResponse :=
  with_body (body_list AuthorCreate.model_validate) (bulk_create_author raised).
Definition post_library_bulk (raised : nat → option Exn)
    : list LibraryCreate.t → Database → Outcome BulkResponse :=
  with_body (body_list LibraryCreate.model_validate) (bulk_create_library raised).

(** ** main_api.py: the remaining endpoints *)

(** [get_book], [get_author], [get_library] *)
Definition get_book (book_id : Z) : M BookResponse.t :=
  db_book ← query_book book_id;
  match db_book with
  | None => raise (HTTPException 404 (DetailStr "Book not found"))
  | Some b => book_response (book_id, b)
  end.

Definition get_author (author_id : Z) : M AuthorResponse.t :=
  db_author ← query_author author_id;
  match db_author with
  | None => raise (HTTPException 404 (DetailStr "Author not found"))
  | Some a => author_response (author_id, a)
  end.

Definition get_library (library_id : Z) : M LibraryResponse.t :=
  db_library ← query_library library_id;
  match db_library with
  | None => raise (HTTPException 404 (DetailStr "Library not found"))
  | Some l => library_response (library_id, l)
  end.

(** The rows of an entity table as a query without ORDER BY lists them:
    the store walks the table by rowid, that is by ascending [id]. *)
Definition id_le {V} (x y : Z * V) : Prop := x.1 ≤ y.1.
Global Instance id_le_dec {V} (x y : Z * V) : Decision (id_le x y) :=
  decide (x.1 ≤ y.1).
Definition table_rows {V} (tbl : gmap Z V) : list (Z * V) :=
  merge_sort id_le (map_to_list tbl).

(** [database.query(Book).all()] *)
Definition query_all_book : M (list (Z * Book.t)) := λ s,
  (inl (table_rows (book (working s))), s).

(** [database.query(Book).count()] *)
Definition query_count_book : M nat := λ s, (inl (size (book (working s))), s).

Definition get_count_book : M nat := query_count_book.

(** [LIMIT limit OFFSET skip] as SQLite evaluates it: a negative offset
    counts as 0, a negative limit as no limit. *)
Definition offset_limit {A} (skip limit : Z) (l : list A) : list A :=
  let rest := drop (Z.to_nat skip) l in
  if bool_decide (limit < 0) then rest else take (Z.to_nat limit) rest.

(** [database.query(Book).offset(skip).limit(limit).all()] *)
Definition query_page_book (skip limit : Z) : M (list (Z * Book.t)) := λ s,
  (inl (offset_limit skip limit (table_rows (book (working s)))), s).

Inductive PageData :=
| Flat (rows : list (Z * Book.t))
| Detailed (items : list BookResponse.t).

Record Page := mkPage {
  total : nat;
  page_skip : Z;
  page_limit : Z;
  data : PageData
}.

Fixpoint map_M {A B} (f : A → M B) (xs : list A) : M (list B) :=
  match xs with
  | [] => mret []
  | x :: xs' => y ← f x; ys ← map_M f xs'; mret (y :: ys)
  end.

Definition get_paginated_book (skip limit : Z) (detailed : bool) : M Page :=
  total ← query_count_book;
  book_list ← query_page_book skip limit;
  if negb detailed then mret (mkPage total skip limit (Flat book_list))
  else
    result ← map_M book_response book_list;
    mret (mkPage total skip limit (Detailed result)).

Record AuthorsOfBook := mkAuthorsOfBook {
  of_book_id : Z;
  authors_count : nat;
  authors_of_book : list (Z * Author.t)
}.

(** [database.query(Author).filter(Author.id.in_(ids)).all()] *)
Definition query_author_in (ids : list Z) : M (list (Z * Author.t)) := λ s,
  (inl (filter (λ row, row.1 ∈ ids) (table_rows (author (working s)))), s).

Definition get_authors_of_book (book_id : Z) : M AuthorsOfBook :=
  db_book ← query_exists EBook book_id;
  if negb db_book then raise (HTTPException 404 (DetailStr "Book not found"))
  else
    author_ids ← select_linked Book_authors book_id;
    author_list ← query_author_in author_ids;
    mret (mkAuthorsOfBook book_id (length author_list) author_list).

Definition remove_books_from_author (author_id book_id : Z) : M string :=
  remove_link Author_books "Author" "Book" "books" author_id book_id.
Definition remove_books_from_library (library_id book_id : Z) : M string :=
  remove_link Library_books "Library" "Book" "books" library_id book_id.

Record BulkDeleteResponse := mkBulkDeleteResponse {
  deleted_count : nat;
  not_found_ids : list Z;
  bulk_delete_message : string
}.

(** The loop of [bulk_delete_<entity>].  [database.delete(obj)] only marks
    the object: the session is made with [autoflush=False], so the queries
    of the later iterations still find its row; [marked] is the list of the
    objects marked so far. *)
Fixpoint bulk_delete_loop (e : Entity) (ids : list Z) (deleted_count : nat)
    (not_found marked : list Z) : M (nat * list Z * list Z) :=
  match ids with
  | [] => mret (deleted_count, not_found, marked)
  | item_id :: rest =>
      found ← query_exists e item_id;
      if (found : bool)
      then bulk_delete_loop e rest (S deleted_count) not_found (marked ++ [item_id])
      else bulk_delete_loop e rest deleted_count (not_found ++ [item_id]) marked
  end.

(** [database.commit()] flushes the marked objects, then commits. *)
Definition bulk_delete (e : Entity) (name : string) (ids : list Z) : M BulkDeleteResponse :=
  '(deleted_count, not_found, marked) ← bulk_delete_loop e ids 0 [] [];
  for_each marked (session_delete e) ;;
  commit ;;
  mret (mkBulkDeleteResponse deleted_count not_found
          ("Successfully deleted " +:+ pretty deleted_count +:+ " " +:+ name +:+ " entities")).

Definition bulk_delete_book (ids : list Z) : M BulkDeleteResponse :=
  bulk_delete EBook "Book" ids.
Definition bulk_delete_author (ids : list Z) : M BulkDeleteResponse :=
  bulk_delete EAuthor "Author" ids.
Definition bulk_delete_library (ids : list Z) : M BulkDeleteResponse :=
  bulk_delete ELibrary "Library" ids.

Definition post_library : LibraryCreate.t → Database → Outcome LibraryResponse.t :=
  with_body (body_model LibraryCreate.model_validate) create_library.

(** ** Definitions used by the statements *)

(** A session whose open transaction has changed one association table. *)
Definition with_rows (t : JoinTable) (f : list (Z * Z) → list (Z * Z))
    (stmts : list Stmt) (s : Session) : Session :=
  mkSession (committed s) (set_rows t (f (rows t (working s))) (working s))
    (executed s ++ stmts).

(** The rows left after the rows [dels] have been deleted. *)
Definition delete_rows (dels : list (Z * Z)) (rs : list (Z * Z)) : list (Z * Z) :=
  filter (λ x, x ∉ dels) rs.

(** The association table and the statement list a reconcile block ends
    with. *)
Definition reconcile_rows (r : Relationship) (o : Z) (target_ids : list Z)
    (rs : list (Z * Z)) : list (Z * Z) :=
  delete_rows (mk_row r o <$> elements (ids_to_remove (linked_in r o rs) target_ids)) rs
  ++ (mk_row r o <$> elements (ids_to_add (linked_in r o rs) target_ids)).

Definition reconcile_stmts (r : Relationship) (o : Z) (target_ids : list Z)
    (rs : list (Z * Z)) : list Stmt :=
  ((StDelete (secondary r) ∘ mk_row r o) <$> elements (ids_to_remove (linked_in r o rs) target_ids))
  ++ ((StInsert (secondary r) ∘ mk_row r o) <$> elements (ids_to_add (linked_in r o rs) target_ids)).

Definition store_book (id : Z) (b : Book.t) (db : Database) : Database :=
  mkDatabase (<[id := b]> (book db)) (author db) (library db) (books_1 db) (books db).

(** The database an accepted update of a Book commits. *)
Definition updated_book (book_id : Z) (d : BookCreate.t) (db : Database) : Database :=
  set_rows Books (reconcile_rows Book_library book_id (BookCreate.library d) (books db))
    (set_rows Books_1 (reconcile_rows Book_authors book_id (BookCreate.authors d) (books_1 db))
       (store_book book_id (Book_of d) db)).

Definition update_book_stmts (book_id : Z) (d : BookCreate.t) (db : Database) : list Stmt :=
  reconcile_stmts Book_authors book_id (BookCreate.authors d) (books_1 db)
  ++ reconcile_stmts Book_library book_id (BookCreate.library d) (books db).

(** Every target id is already linked or names a stored row. *)
Definition targets_ok (r : Relationship) (owner_id : Z) (target_ids : list Z)
    (db : Database) : bool :=
  forallb (λ id, bool_decide (id ∈ linked r owner_id db) || has_row (target r) id db)
    target_ids.

Definition store_author (id : Z) (a : Author.t) (db : Database) : Database :=
  mkDatabase (book db) (<[id := a]> (author db)) (library db) (books_1 db) (books db).
Definition store_library (id : Z) (l : Library.t) (db : Database) : Database :=
  mkDatabase (book db) (author db) (<[id := l]> (library db)) (books_1 db) (books db).

Definition updated_author (author_id : Z) (d : AuthorCreate.t) (db : Database) : Database :=
  set_rows Books_1 (reconcile_rows Author_books author_id (AuthorCreate.books d) (books_1 db))
    (store_author author_id (Author.mk (AuthorCreate.name d)) db).

Definition updated_library (library_id : Z) (d : LibraryCreate.t) (db : Database) : Database :=
  set_rows Books (reconcile_rows Library_books library_id (LibraryCreate.books d) (books db))
    (store_library library_id (Library.mk (LibraryCreate.name d)) db).

Definition link_rows (r : Relationship) (owner_id : Z) (ids : list Z) (db : Database)
    : Database :=
  set_rows (secondary r) (rows (secondary r) db ++ (mk_row r owner_id <$> ids)) db.

(** Referential integrity of the association tables: every row names a
    stored row on both sides. *)
Definition fk_ok (db : Database) : bool :=
  forallb (λ row, has_row EAuthor row.1 db && has_row EBook row.2 db) (books_1 db)
  && forallb (λ row, has_row EBook row.1 db && has_row ELibrary row.2 db) (books db).

(** The database an accepted creation of a Book ends with. *)
Definition created_book (d : BookCreate.t) (db : Database) : Database :=
  let id := next_id (book db) in
  link_rows Book_library id (BookCreate.library d)
    (link_rows Book_authors id (BookCreate.authors d) (store_book id (Book_of d) db)).

(** Sample data for the examples. *)
Definition sample_book : Book.t := Book.mk "Dune" 412 5 9.5%float (1965, 8, 1) (9, 0, 0).

(** Book 1 is linked to authors 1 and 2 and to library 1. *)
Definition sample_db : Database :=
  mkDatabase {[1 := sample_book]}
    {[1 := Author.mk "A"; 2 := Author.mk "B"; 3 := Author.mk "C"]}
    {[1 := Library.mk "L"]}
    [(1, 1); (2, 1)] [(1, 1)].

Definition sample_payload (pages : Z) (authors library : list Z) : BookCreate.t :=
  BookCreate.mk pages (9, 0, 0) 5 9.5%float (1965, 8, 1) "Dune" authors library.

(** The response [http_exception_handler] builds for a string detail. *)
Definition http_error (code : Z) (d : string) : JSONResponse :=
  mkJSONResponse code (mkErrorBody d (DetailStr d) ("HTTP " +:+ pretty code +:+ " error occurred")).

Definition with_stock (b : Book.t) (v : Z) : Book.t :=
  Book.mk (Book.title b) (Book.pages b) v (Book.price b) (Book.release b) (Book.time b).

(** The database an accepted delete commits. *)
Definition deleted (e : Entity) (id : Z) (db : Database) : Database :=
  delete_row e id (foldl (λ db r, unlink_deleted r id db) db (relationships e)).

(** The errors a bulk loop collects over [n] items starting at [idx]. *)
Definition bulk_errors (raised : nat → option Exn) (idx n : nat) : list (nat * string) :=
  omap (λ i, (λ e, (i, str e)) <$> raised i) (seq idx n).

(** What the three [add_*] have in common: a row with an unused id is
    stored in the open transaction and nothing else changes. *)
Definition adds_row {Item} (e : Entity) (add : Item → M Z) : Prop :=
  ∀ item s, ∃ id s',
    add item s = (inl id, s') ∧
    committed s' = committed s ∧ executed s' = executed s ∧
    books_1 (working s') = books_1 (working s) ∧
    books (working s') = books (working s) ∧
    has_row e id (working s) = false ∧ has_row e id (working s') = true ∧
    (∀ id', has_row e id' (working s) = true → has_row e id' (working s') = true).

(** The indices of the items of a bulk body of Books that the [pages]
    validator refuses. *)
Fixpoint invalid_indices (idx : nat) (raw : list BookCreate.t) : list nat :=
  match raw with
  | [] => []
  | x :: rest =>
      if bool_decide (BookCreate.pages x ≤ 10)
      then idx :: invalid_indices (S idx) rest
      else invalid_indices (S idx) rest
  end.

Definition pages_error (i : nat) : list LocItem * Exn :=
  ([LocStr "body"; LocIdx i; LocStr "pages"], ValueError "pages must be > 10").

(** The rows of a page, detailed or not. *)
Definition page_rows (d : PageData) : list (Z * Book.t) :=
  match d with
  | Flat rows => rows
  | Detailed items => BookResponse.book <$> items
  end.

(** What [get_book] answers for a stored row. *)
Definition book_view (db : Database) (row : Z * Book.t) : BookResponse.t :=
  BookResponse.mk row (linked Book_authors row.1 db) (linked Book_library row.1 db).

(** The databases accepted creations of an Author and a Library end with. *)
Definition created_author (d : AuthorCreate.t) (db : Database) : Database :=
  let id := next_id (author db) in
  link_rows Author_books id (AuthorCreate.books d)
    (store_author id (Author.mk (AuthorCreate.name d)) db).

Definition created_library (d : LibraryCreate.t) (db : Database) : Database :=
  let id := next_id (library db) in
  link_rows Library_books id (LibraryCreate.books d)
    (store_library id (Library.mk (LibraryCreate.name d)) db).

(** The database after the flush of the deletes of the objects [ids]. *)
Definition deleted_all (e : Entity) (ids : list Z) (db : Database) : Database :=
  foldl (λ db id, deleted e id db) db ids.

(** The integrity of the association tables: no row twice (the composite
    primary key) and every row names stored rows ([fk_ok]). *)
Definition good (db : Database) : Prop :=
  NoDup (books_1 db) ∧ NoDup (books db) ∧ fk_ok db = true.

(** What a row of an association table refers to. *)
Definition refs_ok (t : JoinTable) (row : Z * Z) (db : Database) : Prop :=
  match t with
  | Books_1 => has_row EAuthor row.1 db = true ∧ has_row EBook row.2 db = true
  | Books => has_row EBook row.1 db = true ∧ has_row ELibrary row.2 db = true
  end.

(** The requests of the API; a bulk creation comes with the exceptions
    its [try] bodies end with. *)
Inductive Request :=
| PostBook (d : BookCreate.t)
| PostBookBulk (raised : nat → option Exn) (raw : list BookCreate.t)
| PutBook (book_id : Z) (d : BookCreate.t)
| DeleteBook (book_id : Z)
| DeleteBookBulk (ids : list Z)
| AddAuthorsToBook (book_id author_id : Z)
| RemoveAuthorsFromBook (book_id author_id : Z)
| AddLibraryToBook (book_id library_id : Z)
| RemoveLibraryFromBook (book_id library_id : Z)
| DecreaseStock (book_id qty : Z)
| GetBook (book_id : Z)
| GetPaginatedBook (skip limit : Z) (detailed : bool)
| GetAuthorsOfBook (book_id : Z)
| PostAuthor (d : AuthorCreate.t)
| PostAuthorBulk (raised : nat → option Exn) (raw : list AuthorCreate.t)
| PutAuthor (author_id : Z) (d : AuthorCreate.t)
| DeleteAuthor (author_id : Z)
| DeleteAuthorBulk (ids : list Z)
| AddBooksToAuthor (author_id book_id : Z)
| RemoveBooksFromAuthor (author_id book_id : Z)
| PostLibrary (d : LibraryCreate.t)
| PostLibraryBulk (raised : nat → option Exn) (raw : list LibraryCreate.t)
| PutLibrary (library_id : Z) (d : LibraryCreate.t)
| DeleteLibrary (library_id : Z)
| DeleteLibraryBulk (ids : list Z)
| AddBooksToLibrary (library_id book_id : Z)
| RemoveBooksFromLibrary (library_id book_id : Z).

(** The database a request leaves behind. *)
Definition serve (req : Request) (db : Database) : Database :=
  match req with
  | PostBook d => database (post_book d db)
  | PostBookBulk raised raw => database (post_book_bulk raised raw db)
  | PutBook id d => database (put_book id d db)
  | DeleteBook id => database (run_request (delete_book id) db)
  | DeleteBookBulk ids => database (run_request (bulk_delete_book ids) db)
  | AddAuthorsToBook b a => database (run_request (add_authors_to_book b a) db)
  | RemoveAuthorsFromBook b a => database (run_request (remove_authors_from_book b a) db)
  | AddLibraryToBook b l => database (run_request (add_library_to_book b l) db)
  | RemoveLibraryFromBook b l => database (run_request (remove_library_from_book b l) db)
  | DecreaseStock id qty => database (run_request (execute_book_decrease_stock id qty) db)
  | GetBook id => database (run_request (get_book id) db)
  | GetPaginatedBook skip limit detailed =>
      database (run_request (get_paginated_book skip limit detailed) db)
  | GetAuthorsOfBook id => database (run_request (get_authors_of_book id) db)
  | PostAuthor d => database (post_author d db)
  | PostAuthorBulk raised raw => database (post_author_bulk raised raw db)
  | PutAuthor id d =>
      database (with_body (body_model AuthorCreate.model_validate) (update_author id) d db)
  | DeleteAuthor id => database (run_request (delete_author id) db)
  | DeleteAuthorBulk ids => database (run_request (bulk_delete_author ids) db)
  | AddBooksToAuthor a b => database (run_request (add_books_to_author a b) db)
  | RemoveBooksFromAuthor a b => database (run_request (remove_books_from_author a b) db)
  | PostLibrary d => database (post_library d db)
  | PostLibraryBulk raised raw => database (post_library_bulk raised raw db)
  | PutLibrary id d =>
      database (with_body (body_model LibraryCreate.model_validate) (update_library id) d db)
  | DeleteLibrary id => database (run_request (delete_library id) db)
  | DeleteLibraryBulk ids => database (run_request (bulk_delete_library ids) db)
  | AddBooksToLibrary l b => database (run_request (add_books_to_library l b) db)
  | RemoveBooksFromLibrary l b => database (run_request (remove_books_from_library l b) db)
  end.

(** The database [Base.metadata.create_all] starts from. *)
Definition empty_db : Database := mkDatabase ∅ ∅ ∅ [] [].

(** ** Association rows *)

Lemma owner_of_mk_row r o x : owner_of r (mk_row r o x) = o.
Proof. unfold owner_of, mk_row. by destruct (owner_col r). Qed.

Lemma other_of_mk_row r o x : other_of r (mk_row r o x) = x.
Proof. unfold other_of, mk_row. by destruct (owner_col r). Qed.

Lemma mk_row_eta r row : mk_row r (owner_of r row) (other_of r row) = row.
Proof. unfold owner_of, other_of, mk_row. by destruct (owner_col r), row. Qed.

Lemma mk_row_inj r o x y : mk_row r o x = mk_row r o y → x = y.
Proof. intros H. apply (f_equal (other_of r)) in H. by rewrite !other_of_mk_row in H. Qed.

Lemma elem_of_linked_in r o rs x : x ∈ linked_in r o rs ↔ mk_row r o x ∈ rs.
Proof.
  unfold linked_in. rewrite list_elem_of_fmap. split.
  - intros (row & -> & Hrow). apply list_elem_of_filter in Hrow as [<- Hin].
    by rewrite mk_row_eta.
  - intros Hin. exists (mk_row r o x). rewrite other_of_mk_row. split; [done|].
    apply list_elem_of_filter. by rewrite owner_of_mk_row.
Qed.

Lemma select_order_Permutation r ids : select_order r ids ≡ₚ ids.
Proof. unfold select_order. destruct (owner_col r); [apply merge_sort_Permutation|done]. Qed.

Lemma linked_Permutation r o db :
  linked r o db ≡ₚ linked_in r o (rows (secondary r) db).
Proof. apply select_order_Permutation. Qed.

Lemma elem_of_linked r o db x :
  x ∈ linked r o db ↔ mk_row r o x ∈ rows (secondary r) db.
Proof. by rewrite linked_Permutation, elem_of_linked_in. Qed.

Lemma elem_of_linked_rows r o db x :
  x ∈ linked r o db ↔ x ∈ linked_in r o (rows (secondary r) db).
Proof. by rewrite linked_Permutation. Qed.

Lemma ids_to_remove_linked r o db target_ids :
  ids_to_remove (linked r o db) target_ids
  = ids_to_remove (linked_in r o (rows (secondary r) db)) target_ids.
Proof. unfold ids_to_remove. by rewrite (list_to_set_perm_L _ _ (linked_Permutation r o db)). Qed.

Lemma ids_to_add_linked r o db target_ids :
  ids_to_add (linked r o db) target_ids
  = ids_to_add (linked_in r o (rows (secondary r) db)) target_ids.
Proof. unfold ids_to_add. by rewrite (list_to_set_perm_L _ _ (linked_Permutation r o db)). Qed.

Lemma rows_set_rows t rs db : rows t (set_rows t rs db) = rs.
Proof. by destruct t. Qed.

Lemma rows_set_rows_ne t t' rs db : t ≠ t' → rows t (set_rows t' rs db) = rows t db.
Proof. by destruct t, t'. Qed.

Lemma set_rows_set_rows t rs rs' db : set_rows t rs' (set_rows t rs db) = set_rows t rs' db.
Proof. by destruct t. Qed.

Lemma set_rows_id t db : set_rows t (rows t db) db = db.
Proof. by destruct t, db. Qed.

Lemma has_row_set_rows e id t rs db : has_row e id (set_rows t rs db) = has_row e id db.
Proof. by destruct e, t. Qed.

Lemma with_rows_id t s : with_rows t (λ rs, rs) [] s = s.
Proof. unfold with_rows. rewrite set_rows_id, app_nil_r. by destruct s. Qed.

Lemma with_rows_with_rows t f g st1 st2 s :
  with_rows t g st2 (with_rows t f st1 s) = with_rows t (λ rs, g (f rs)) (st1 ++ st2) s.
Proof.
  unfold with_rows; simpl. by rewrite rows_set_rows, set_rows_set_rows, app_assoc.
Qed.

Lemma with_rows_ext t f g st s :
  f (rows t (working s)) = g (rows t (working s)) → with_rows t f st s = with_rows t g st s.
Proof. unfold with_rows. by intros ->. Qed.

Lemma delete_rows_nil rs : delete_rows [] rs = rs.
Proof.
  unfold delete_rows. induction rs as [|x rs IH]; [done|].
  rewrite filter_cons_True by set_solver. by rewrite IH.
Qed.

Lemma delete_rows_cons d dels rs :
  delete_rows dels (filter (λ x, x ≠ d) rs) = delete_rows (d :: dels) rs.
Proof.
  unfold delete_rows. rewrite list_filter_filter.
  apply list_filter_iff. intros x. rewrite not_elem_of_cons. tauto.
Qed.

Lemma for_each_delete r o ids s :
  for_each ids (execute_delete r o) s =
  (inl tt, with_rows (secondary r) (delete_rows (mk_row r o <$> ids))
             ((StDelete (secondary r) ∘ mk_row r o) <$> ids) s).
Proof.
  revert s. induction ids as [|id ids IH]; intros s.
  - simpl. unfold mret, M_ret. f_equal. rewrite <- (with_rows_id (secondary r) s) at 1.
    apply with_rows_ext. by rewrite delete_rows_nil.
  - simpl. unfold mbind, M_bind. unfold execute_delete at 1. simpl.
    rewrite IH. f_equal.
    change (mkSession _ _ _) with
      (with_rows (secondary r) (filter (λ x, x ≠ mk_row r o id))
         [StDelete (secondary r) (mk_row r o id)] s).
    rewrite with_rows_with_rows. simpl. apply with_rows_ext.
    apply delete_rows_cons.
Qed.

Lemma forallb_ext {A} (f g : A → bool) (l : list A) :
  (∀ x, f x = g x) → forallb f l = forallb g l.
Proof. intros H. induction l as [|x l IH]; simpl; [done|]. by rewrite H, IH. Qed.

Lemma working_with_rows t f st s :
  working (with_rows t f st s) = set_rows t (f (rows t (working s))) (working s).
Proof. done. Qed.

Lemma for_each_insert r name o ids s :
  NoDup ids →
  (∀ id, id ∈ ids → mk_row r o id ∉ rows (secondary r) (working s)) →
  match for_each ids (λ other_id,
          found ← query_exists (target r) other_id;
          if negb found then raise (not_found name other_id)
          else execute_insert r o other_id) s with
  | (inl _, s') =>
      forallb (λ id, has_row (target r) id (working s)) ids = true ∧
      s' = with_rows (secondary r) (λ rs, rs ++ (mk_row r o <$> ids))
             ((StInsert (secondary r) ∘ mk_row r o) <$> ids) s
  | (inr e, s') =>
      ∃ id, id ∈ ids ∧ has_row (target r) id (working s) = false ∧
            e = not_found name id ∧ committed s' = committed s
  end.
Proof.
  revert s. induction ids as [|id ids IH]; intros s Hnd Hfresh.
  - simpl. split; [done|]. rewrite <- (with_rows_id (secondary r) s) at 1.
    apply with_rows_ext. by rewrite app_nil_r.
  - apply NoDup_cons in Hnd as [Hid Hnd].
    cbn [for_each]. unfold mbind at 1, M_bind at 1.
    unfold mbind at 1, M_bind at 1. unfold query_exists at 1.
    destruct (has_row (target r) id (working s)) eqn:Hrow; simpl.
    + unfold execute_insert at 1. simpl.
      rewrite bool_decide_eq_false_2 by (apply Hfresh; left).
      change (mkSession _ _ _) with
        (with_rows (secondary r) (λ rs, rs ++ [mk_row r o id])
           [StInsert (secondary r) (mk_row r o id)] s).
      set (s1 := with_rows _ _ _ s).
      specialize (IH s1 Hnd).
      destruct (for_each ids _ s1) as [[[]|e] s'].
      * destruct IH as [Hall ->].
        { intros id' Hid'. subst s1. rewrite working_with_rows, rows_set_rows.
          rewrite elem_of_app, list_elem_of_singleton.
          intros [Hin|Heq]; [by apply (Hfresh id'); [right|]|].
          apply mk_row_inj in Heq. by subst. }
        split.
        { rewrite Hrow. simpl. rewrite <- Hall. apply forallb_ext; intros x.
          subst s1. by rewrite working_with_rows, has_row_set_rows. }
        subst s1. rewrite with_rows_with_rows. simpl.
        apply with_rows_ext. by rewrite <- app_assoc.
      * destruct IH as (id' & Hin & Hno & -> & Hc).
        { intros id' Hid'. subst s1. rewrite working_with_rows, rows_set_rows.
          rewrite elem_of_app, list_elem_of_singleton.
          intros [Hin|Heq]; [by apply (Hfresh id'); [right|]|].
          apply mk_row_inj in Heq. by subst. }
        exists id'. split; [by right|]. split; [|done].
        subst s1. by rewrite working_with_rows, has_row_set_rows in Hno.
    + exists id. split; [by left|]. done.
Qed.

Lemma elem_of_delete_rows dels rs x : x ∈ delete_rows dels rs ↔ (x ∉ dels) ∧ x ∈ rs.
Proof. unfold delete_rows. by rewrite list_elem_of_filter. Qed.

Lemma elem_of_ids_to_remove existing target_ids x :
  x ∈ ids_to_remove existing target_ids ↔ x ∈ existing ∧ x ∉ target_ids.
Proof. unfold ids_to_remove. set_solver. Qed.

Lemma elem_of_ids_to_add existing target_ids x :
  x ∈ ids_to_add existing target_ids ↔ x ∈ target_ids ∧ x ∉ existing.
Proof. unfold ids_to_add. set_solver. Qed.

Lemma elem_of_mk_rows r o (ids : list Z) row :
  row ∈ mk_row r o <$> ids ↔ owner_of r row = o ∧ other_of r row ∈ ids.
Proof.
  rewrite list_elem_of_fmap. split.
  - intros (x & -> & Hx). by rewrite owner_of_mk_row, other_of_mk_row.
  - intros [<- Hx]. exists (other_of r row). by rewrite mk_row_eta.
Qed.

Lemma elem_of_reconcile_rows r o target_ids rs row :
  row ∈ reconcile_rows r o target_ids rs ↔
  (owner_of r row ≠ o ∧ row ∈ rs) ∨ (owner_of r row = o ∧ other_of r row ∈ target_ids).
Proof.
  unfold reconcile_rows. rewrite elem_of_app, elem_of_delete_rows, !elem_of_mk_rows.
  rewrite !elem_of_elements, elem_of_ids_to_remove, elem_of_ids_to_add.
  rewrite !elem_of_linked_in.
  destruct (decide (owner_of r row = o)) as [Ho|Ho].
  - rewrite <- Ho at 2 4. rewrite mk_row_eta.
    destruct (decide (other_of r row ∈ target_ids)); destruct (decide (row ∈ rs)); tauto.
  - tauto.
Qed.

Lemma reconcile_spec r name o target_ids s :
  match reconcile r name o target_ids s with
  | (inl _, s') =>
      forallb (λ id, has_row (target r) id (working s))
        (elements (ids_to_add (linked r o (working s)) target_ids)) = true ∧
      s' = with_rows (secondary r) (reconcile_rows r o target_ids)
             (reconcile_stmts r o target_ids (rows (secondary r) (working s))) s
  | (inr e, s') =>
      ∃ id, id ∈ ids_to_add (linked r o (working s)) target_ids ∧
            has_row (target r) id (working s) = false ∧
            e = not_found name id ∧ committed s' = committed s
  end.
Proof.
  unfold reconcile. unfold mbind at 1, M_bind at 1. unfold select_linked at 1.
  rewrite !ids_to_remove_linked, !ids_to_add_linked.
  unfold mbind at 1, M_bind at 1. rewrite for_each_delete.
  set (existing := linked_in r o (rows (secondary r) (working s))).
  set (s1 := with_rows _ _ _ s).
  pose proof (for_each_insert r name o (elements (ids_to_add existing target_ids)) s1
                (NoDup_elements _)) as Hins.
  destruct (for_each _ _ s1) as [[[]|e] s'].
  - destruct Hins as [Hall ->].
    { intros id Hid. subst s1. rewrite working_with_rows, rows_set_rows.
      rewrite elem_of_delete_rows. intros [_ Hin].
      apply elem_of_elements, elem_of_ids_to_add in Hid as [_ Hid].
      apply Hid. by apply elem_of_linked_in. }
    split.
    { rewrite <- Hall. apply forallb_ext; intros x.
      subst s1. by rewrite working_with_rows, has_row_set_rows. }
    subst s1. by rewrite with_rows_with_rows.
  - destruct Hins as (id & Hin & Hno & -> & Hc).
    { intros id Hid. subst s1. rewrite working_with_rows, rows_set_rows.
      rewrite elem_of_delete_rows. intros [_ Hin].
      apply elem_of_elements, elem_of_ids_to_add in Hid as [_ Hid].
      apply Hid. by apply elem_of_linked_in. }
    exists id. split; [by apply elem_of_elements|]. split; [|done].
    subst s1. by rewrite working_with_rows, has_row_set_rows in Hno.
Qed.

(** ** update_book *)

Lemma targets_ok_to_add r o target_ids db :
  targets_ok r o target_ids db = true ↔
  forallb (λ id, has_row (target r) id db)
    (elements (ids_to_add (linked r o db) target_ids)) = true.
Proof.
  unfold targets_ok. rewrite !forallb_forall. split.
  - intros H x Hx. apply list_elem_of_In, elem_of_elements, elem_of_ids_to_add in Hx as [Hx Hn].
    apply list_elem_of_In, H in Hx. apply orb_true_iff in Hx as [Hx|Hx]; [|done].
    by apply bool_decide_eq_true in Hx.
  - intros H x Hx. apply orb_true_iff.
    destruct (decide (x ∈ linked r o db)) as [Hl|Hl]; [left; by apply bool_decide_eq_true|].
    right. apply H, list_elem_of_In, elem_of_elements, elem_of_ids_to_add.
    split; [by apply list_elem_of_In|done].
Qed.

Lemma update_book_session book_id d db b :
  book db !! book_id = Some b →
  match update_book book_id d (mkSession db db []) with
  | (inl resp, s') =>
      targets_ok Book_authors book_id (BookCreate.authors d) db = true ∧
      targets_ok Book_library book_id (BookCreate.library d) db = true ∧
      resp = BookResponse.mk (book_id, Book_of d)
               (linked Book_authors book_id (updated_book book_id d db))
               (linked Book_library book_id (updated_book book_id d db)) ∧
      s' = mkSession (updated_book book_id d db) (updated_book book_id d db)
             (update_book_stmts book_id d db)
  | (inr e, s') =>
      (targets_ok Book_authors book_id (BookCreate.authors d) db = false ∨
       targets_ok Book_library book_id (BookCreate.library d) db = false) ∧
      (∃ name id, e = not_found name id) ∧ committed s' = db
  end.
Proof.
  intros Hb.
  unfold update_book.
  unfold mbind at 1, M_bind at 1. unfold query_book at 1. cbn [working].
  rewrite Hb.
  unfold mbind at 1, M_bind at 1. unfold setattr_book at 1. cbn [working committed executed].
  fold (store_book book_id (Book_of d) db).
  set (s1 := mkSession db (store_book book_id (Book_of d) db) []).
  unfold mbind at 1, M_bind at 1.
  pose proof (reconcile_spec Book_authors "Author" book_id (BookCreate.authors d) s1) as H1.
  destruct (reconcile Book_authors _ _ _ s1) as [[[]|e1] s2].
  - destruct H1 as [Ha ->].
    unfold mbind at 1, M_bind at 1.
    set (s2 := with_rows _ _ _ s1).
    pose proof (reconcile_spec Book_library "Library" book_id (BookCreate.library d) s2) as H2.
    destruct (reconcile Book_library _ _ _ s2) as [[[]|e2] s3].
    + destruct H2 as [Hl ->].
      change (with_rows _ _ _ s2) with
        (mkSession db (updated_book book_id d db) (update_book_stmts book_id d db)).
      unfold mbind at 1, M_bind at 1. unfold commit at 1. cbn [working committed executed].
      unfold mbind at 1, M_bind at 1. unfold refresh_book at 1. cbn [working].
      replace (book (updated_book book_id d db) !! book_id) with (Some (Book_of d))
        by (symmetry; apply lookup_insert_eq).
      unfold book_response, mbind, M_bind, select_linked, mret, M_ret. cbn [working fst].
      apply targets_ok_to_add in Ha, Hl. done.
    + destruct H2 as (id & Hid & Hno & -> & Hc).
      split; [|split; [by eexists _, _|done]].
      right. apply not_true_is_false. intros Hok.
      apply targets_ok_to_add in Hok. rewrite forallb_forall in Hok.
      apply elem_of_elements, list_elem_of_In, Hok in Hid.
      change (has_row (target Book_library) id (working s2)) with
        (has_row (target Book_library) id db) in Hno. congruence.
  - destruct H1 as (id & Hid & Hno & -> & Hc).
    split; [|split; [by eexists _, _|done]].
    left. apply not_true_is_false. intros Hok.
    apply targets_ok_to_add in Hok. rewrite forallb_forall in Hok.
    apply elem_of_elements, list_elem_of_In, Hok in Hid.
    change (has_row (target Book_authors) id (working s1)) with
      (has_row (target Book_authors) id db) in Hno. congruence.
Qed.

Lemma update_book_run book_id d db :
  has_row EBook book_id db = true →
  targets_ok Book_authors book_id (BookCreate.authors d) db = true →
  targets_ok Book_library book_id (BookCreate.library d) db = true →
  run_request (update_book book_id d) db =
  mkOutcome
    (Returned (BookResponse.mk (book_id, Book_of d)
                 (linked Book_authors book_id (updated_book book_id d db))
                 (linked Book_library book_id (updated_book book_id d db))))
    (updated_book book_id d db) (update_book_stmts book_id d db).
Proof.
  intros Hb Ha Hl. apply bool_decide_eq_true in Hb as [b Hb].
  pose proof (update_book_session book_id d db b Hb) as H.
  unfold run_request. destruct (update_book book_id d _) as [[resp|e] s'].
  - by destruct H as (_ & _ & -> & ->).
  - destruct H as ([H|H] & _); congruence.
Qed.

Lemma update_book_rejected book_id d db :
  has_row EBook book_id db = true →
  targets_ok Book_authors book_id (BookCreate.authors d) db = false ∨
  targets_ok Book_library book_id (BookCreate.library d) db = false →
  ∃ name id,
    response (run_request (update_book book_id d) db)
      = Failed (exception_handler (not_found name id)) ∧
    database (run_request (update_book book_id d) db) = db.
Proof.
  intros Hb Hbad. apply bool_decide_eq_true in Hb as [b Hb].
  pose proof (update_book_session book_id d db b Hb) as H.
  unfold run_request. destruct (update_book book_id d _) as [[resp|e] s'].
  - destruct H as (? & ? & _). destruct Hbad; congruence.
  - destruct H as (_ & (name & id & ->) & Hc). by exists name, id.
Qed.

Lemma elem_of_reconcile_stmts r o target_ids rs st :
  st ∈ reconcile_stmts r o target_ids rs ↔
  (∃ x, st = StDelete (secondary r) (mk_row r o x) ∧ mk_row r o x ∈ rs ∧ x ∉ target_ids) ∨
  (∃ x, st = StInsert (secondary r) (mk_row r o x) ∧ x ∈ target_ids ∧ mk_row r o x ∉ rs).
Proof.
  unfold reconcile_stmts. rewrite elem_of_app, !list_elem_of_fmap.
  split; intros [(x & Hst & Hx)|(x & Hst & Hx)]; [left|right|left|right]; exists x.
  - apply elem_of_elements, elem_of_ids_to_remove in Hx as [Hx ?].
    by apply elem_of_linked_in in Hx.
  - apply elem_of_elements, elem_of_ids_to_add in Hx as [? Hx].
    by rewrite elem_of_linked_in in Hx.
  - split; [done|]. apply elem_of_elements, elem_of_ids_to_remove.
    by rewrite elem_of_linked_in.
  - split; [done|]. apply elem_of_elements, elem_of_ids_to_add.
    by rewrite elem_of_linked_in.
Qed.

Lemma NoDup_reconcile_stmts r o target_ids rs :
  NoDup (reconcile_stmts r o target_ids rs).
Proof.
  unfold reconcile_stmts. apply NoDup_app. split; [|split].
  - apply NoDup_fmap_2; [|apply NoDup_elements].
    intros x y Hxy. simpl in Hxy. injection Hxy as Hxy. by apply mk_row_inj in Hxy.
  - intros st H1 H2. apply list_elem_of_fmap in H1 as (x & -> & _).
    apply list_elem_of_fmap in H2 as (y & Hy & _). done.
  - apply NoDup_fmap_2; [|apply NoDup_elements].
    intros x y Hxy. simpl in Hxy. injection Hxy as Hxy. by apply mk_row_inj in Hxy.
Qed.

(** C1. An accepted update of a Book executes exactly the minimal delta of
    each association: one DELETE for every linked id that is not a target,
    one INSERT for every target that is not linked (it names a stored row),
    no statement for an id that is both; afterwards the book is linked to
    exactly the target ids and the rows of other books are as before. *)
Theorem update_book_minimal_delta book_id book_data db :
  has_row EBook book_id db = true →
  targets_ok Book_authors book_id (BookCreate.authors book_data) db = true →
  targets_ok Book_library book_id (BookCreate.library book_data) db = true →
  let o := run_request (update_book book_id book_data) db in
  (∃ resp, response o = Returned resp) ∧
  NoDup (statements o) ∧
  (∀ st, st ∈ statements o ↔
     (∃ a, st = StDelete Books_1 (a, book_id) ∧
           (a, book_id) ∈ books_1 db ∧ a ∉ BookCreate.authors book_data) ∨
     (∃ a, st = StInsert Books_1 (a, book_id) ∧
           a ∈ BookCreate.authors book_data ∧ (a, book_id) ∉ books_1 db) ∨
     (∃ l, st = StDelete Books (book_id, l) ∧
           (book_id, l) ∈ books db ∧ l ∉ BookCreate.library book_data) ∨
     (∃ l, st = StInsert Books (book_id, l) ∧
           l ∈ BookCreate.library book_data ∧ (book_id, l) ∉ books db)) ∧
  (∀ a b, (a, b) ∈ books_1 (database o) ↔
     (b ≠ book_id ∧ (a, b) ∈ books_1 db) ∨
     (b = book_id ∧ a ∈ BookCreate.authors book_data)) ∧
  (∀ b l, (b, l) ∈ books (database o) ↔
     (b ≠ book_id ∧ (b, l) ∈ books db) ∨
     (b = book_id ∧ l ∈ BookCreate.library book_data)).
Proof.
  intros Hb Ha Hl o. subst o. rewrite update_book_run by done.
  cbn [response statements database].
  split; [by eexists|]. split; [|split; [|split]].
  - unfold update_book_stmts. apply NoDup_app. split; [|split].
    + apply NoDup_reconcile_stmts.
    + intros st H1 H2.
      apply elem_of_reconcile_stmts in H1 as [(x & -> & _)|(x & -> & _)];
        apply elem_of_reconcile_stmts in H2 as [(y & Hy & _)|(y & Hy & _)]; done.
    + apply NoDup_reconcile_stmts.
  - intros st. unfold update_book_stmts.
    rewrite elem_of_app, !elem_of_reconcile_stmts. cbn. tauto.
  - intros a b.
    change (books_1 (updated_book book_id book_data db)) with
      (reconcile_rows Book_authors book_id (BookCreate.authors book_data) (books_1 db)).
    by rewrite elem_of_reconcile_rows.
  - intros b l.
    change (books (updated_book book_id book_data db)) with
      (reconcile_rows Book_library book_id (BookCreate.library book_data) (books db)).
    by rewrite elem_of_reconcile_rows.
Qed.

(** ** update_author, update_library *)

Lemma update_author_session author_id d db a :
  author db !! author_id = Some a →
  match update_author author_id d (mkSession db db []) with
  | (inl resp, s') =>
      targets_ok Author_books author_id (AuthorCreate.books d) db = true ∧
      resp = AuthorResponse.mk (author_id, Author.mk (AuthorCreate.name d))
               (linked Author_books author_id (updated_author author_id d db)) ∧
      s' = mkSession (updated_author author_id d db) (updated_author author_id d db)
             (reconcile_stmts Author_books author_id (AuthorCreate.books d) (books_1 db))
  | (inr e, s') =>
      targets_ok Author_books author_id (AuthorCreate.books d) db = false ∧
      (∃ name id, e = not_found name id) ∧ committed s' = db
  end.
Proof.
  intros Hb.
  unfold update_author.
  unfold mbind at 1, M_bind at 1. unfold query_author at 1. cbn [working].
  rewrite Hb.
  unfold mbind at 1, M_bind at 1. unfold setattr_author at 1. cbn [working committed executed].
  fold (store_author author_id (Author.mk (AuthorCreate.name d)) db).
  set (s1 := mkSession db (store_author author_id _ db) []).
  unfold mbind at 1, M_bind at 1.
  pose proof (reconcile_spec Author_books "Book" author_id (AuthorCreate.books d) s1) as H1.
  destruct (reconcile Author_books _ _ _ s1) as [[[]|e1] s2].
  - destruct H1 as [Ha ->].
    change (with_rows _ _ _ s1) with
      (mkSession db (updated_author author_id d db)
         (reconcile_stmts Author_books author_id (AuthorCreate.books d) (books_1 db))).
    unfold mbind at 1, M_bind at 1. unfold commit at 1. cbn [working committed executed].
    unfold mbind at 1, M_bind at 1. unfold refresh_author at 1. cbn [working].
    replace (author (updated_author author_id d db) !! author_id)
      with (Some (Author.mk (AuthorCreate.name d)))
      by (symmetry; apply lookup_insert_eq).
    unfold author_response, mbind, M_bind, select_linked, mret, M_ret. cbn [working fst].
    apply targets_ok_to_add in Ha. done.
  - destruct H1 as (id & Hid & Hno & -> & Hc).
    split; [|split; [by eexists _, _|done]].
    apply not_true_is_false. intros Hok.
    apply targets_ok_to_add in Hok. rewrite forallb_forall in Hok.
    apply elem_of_elements, list_elem_of_In, Hok in Hid.
    change (has_row (target Author_books) id (working s1)) with
      (has_row (target Author_books) id db) in Hno. congruence.
Qed.

Lemma update_library_session library_id d db l :
  library db !! library_id = Some l →
  match update_library library_id d (mkSession db db []) with
  | (inl resp, s') =>
      targets_ok Library_books library_id (LibraryCreate.books d) db = true ∧
      resp = LibraryResponse.mk (library_id, Library.mk (LibraryCreate.name d))
               (linked Library_books library_id (updated_library library_id d db)) ∧
      s' = mkSession (updated_library library_id d db) (updated_library library_id d db)
             (reconcile_stmts Library_books library_id (LibraryCreate.books d) (books db))
  | (inr e, s') =>
      targets_ok Library_books library_id (LibraryCreate.books d) db = false ∧
      (∃ name id, e = not_found name id) ∧ committed s' = db
  end.
Proof.
  intros Hb.
  unfold update_library.
  unfold mbind at 1, M_bind at 1. unfold query_library at 1. cbn [working].
  rewrite Hb.
  unfold mbind at 1, M_bind at 1. unfold setattr_library at 1. cbn [working committed executed].
  fold (store_library library_id (Library.mk (LibraryCreate.name d)) db).
  set (s1 := mkSession db (store_library library_id _ db) []).
  unfold mbind at 1, M_bind at 1.
  pose proof (reconcile_spec Library_books "Book" library_id (LibraryCreate.books d) s1) as H1.
  destruct (reconcile Library_books _ _ _ s1) as [[[]|e1] s2].
  - destruct H1 as [Ha ->].
    change (with_rows _ _ _ s1) with
      (mkSession db (updated_library library_id d db)
         (reconcile_stmts Library_books library_id (LibraryCreate.books d) (books db))).
    unfold mbind at 1, M_bind at 1. unfold commit at 1. cbn [working committed executed].
    unfold mbind at 1, M_bind at 1. unfold refresh_library at 1. cbn [working].
    replace (library (updated_library library_id d db) !! library_id)
      with (Some (Library.mk (LibraryCreate.name d)))
      by (symmetry; apply lookup_insert_eq).
    unfold library_response, mbind, M_bind, select_linked, mret, M_ret. cbn [working fst].
    apply targets_ok_to_add in Ha. done.
  - destruct H1 as (id & Hid & Hno & -> & Hc).
    split; [|split; [by eexists _, _|done]].
    apply not_true_is_false. intros Hok.
    apply targets_ok_to_add in Hok. rewrite forallb_forall in Hok.
    apply elem_of_elements, list_elem_of_In, Hok in Hid.
    change (has_row (target Library_books) id (working s1)) with
      (has_row (target Library_books) id db) in Hno. congruence.
Qed.

(** ** A reconciled table is a fixed point of reconcile *)

Lemma linked_in_reconcile_rows r o target_ids rs x :
  x ∈ linked_in r o (reconcile_rows r o target_ids rs) ↔ x ∈ target_ids.
Proof.
  rewrite elem_of_linked_in, elem_of_reconcile_rows, owner_of_mk_row, other_of_mk_row.
  tauto.
Qed.

Lemma ids_to_remove_reconciled r o target_ids rs :
  ids_to_remove (linked_in r o (reconcile_rows r o target_ids rs)) target_ids = ∅.
Proof.
  apply set_eq. intros x. rewrite elem_of_ids_to_remove, linked_in_reconcile_rows.
  rewrite elem_of_empty. tauto.
Qed.

Lemma ids_to_add_reconciled r o target_ids rs :
  ids_to_add (linked_in r o (reconcile_rows r o target_ids rs)) target_ids = ∅.
Proof.
  apply set_eq. intros x. rewrite elem_of_ids_to_add, linked_in_reconcile_rows.
  rewrite elem_of_empty. tauto.
Qed.

Lemma reconcile_rows_idem r o target_ids rs :
  reconcile_rows r o target_ids (reconcile_rows r o target_ids rs)
  = reconcile_rows r o target_ids rs.
Proof.
  unfold reconcile_rows at 1.
  rewrite ids_to_remove_reconciled, ids_to_add_reconciled, elements_empty.
  simpl. by rewrite delete_rows_nil, app_nil_r.
Qed.

Lemma reconcile_stmts_idem r o target_ids rs :
  reconcile_stmts r o target_ids (reconcile_rows r o target_ids rs) = [].
Proof.
  unfold reconcile_stmts.
  by rewrite ids_to_remove_reconciled, ids_to_add_reconciled, elements_empty.
Qed.

Lemma targets_ok_linked r o target_ids db :
  (∀ x, x ∈ target_ids → x ∈ linked r o db) → targets_ok r o target_ids db = true.
Proof.
  intros H. unfold targets_ok. apply forallb_forall. intros x Hx.
  apply list_elem_of_In, H in Hx. apply orb_true_iff. left. by apply bool_decide_eq_true.
Qed.

Lemma NoDup_reconcile_rows r o target_ids rs :
  NoDup rs → NoDup (reconcile_rows r o target_ids rs).
Proof.
  intros Hnd. unfold reconcile_rows. apply NoDup_app. split; [|split].
  - unfold delete_rows. by apply NoDup_filter.
  - intros row H1 H2. apply elem_of_delete_rows in H1 as [_ H1].
    apply list_elem_of_fmap in H2 as (x & -> & Hx).
    apply elem_of_elements, elem_of_ids_to_add in Hx as [_ Hx].
    by rewrite elem_of_linked_in in Hx.
  - apply NoDup_fmap_2; [|apply NoDup_elements].
    intros x y Hxy. by apply mk_row_inj in Hxy.
Qed.

Lemma updated_book_idem book_id d db :
  updated_book book_id d (updated_book book_id d db) = updated_book book_id d db.
Proof.
  change (updated_book book_id d (updated_book book_id d db)) with
    (mkDatabase (<[book_id := Book_of d]> (<[book_id := Book_of d]> (book db)))
       (author db) (library db)
       (reconcile_rows Book_authors book_id (BookCreate.authors d)
          (reconcile_rows Book_authors book_id (BookCreate.authors d) (books_1 db)))
       (reconcile_rows Book_library book_id (BookCreate.library d)
          (reconcile_rows Book_library book_id (BookCreate.library d) (books db)))).
  by rewrite insert_insert_eq, !reconcile_rows_idem.
Qed.

Lemma updated_author_idem author_id d db :
  updated_author author_id d (updated_author author_id d db) = updated_author author_id d db.
Proof.
  change (updated_author author_id d (updated_author author_id d db)) with
    (mkDatabase (book db)
       (<[author_id := Author.mk (AuthorCreate.name d)]>
          (<[author_id := Author.mk (AuthorCreate.name d)]> (author db)))
       (library db)
       (reconcile_rows Author_books author_id (AuthorCreate.books d)
          (reconcile_rows Author_books author_id (AuthorCreate.books d) (books_1 db)))
       (books db)).
  by rewrite insert_insert_eq, !reconcile_rows_idem.
Qed.

Lemma updated_library_idem library_id d db :
  updated_library library_id d (updated_library library_id d db)
  = updated_library library_id d db.
Proof.
  change (updated_library library_id d (updated_library library_id d db)) with
    (mkDatabase (book db) (author db)
       (<[library_id := Library.mk (LibraryCreate.name d)]>
          (<[library_id := Library.mk (LibraryCreate.name d)]> (library db)))
       (books_1 db)
       (reconcile_rows Library_books library_id (LibraryCreate.books d)
          (reconcile_rows Library_books library_id (LibraryCreate.books d) (books db)))).
  by rewrite insert_insert_eq, !reconcile_rows_idem.
Qed.

Lemma update_book_returned book_id d db resp :
  response (run_request (update_book book_id d) db) = Returned resp →
  resp = BookResponse.mk (book_id, Book_of d)
           (linked Book_authors book_id (updated_book book_id d db))
           (linked Book_library book_id (updated_book book_id d db)) ∧
  run_request (update_book book_id d) db =
  mkOutcome (Returned resp) (updated_book book_id d db) (update_book_stmts book_id d db).
Proof.
  destruct (book db !! book_id) as [b|] eqn:Hb.
  - pose proof (update_book_session book_id d db b Hb) as H.
    unfold run_request.
    destruct (update_book book_id d {| committed := db |}) as [[r|e] s']; [|done].
    destruct H as (_ & _ & -> & ->). cbn [response database committed].
    by intros [= <-].
  - unfold run_request, update_book.
    unfold mbind at 1, M_bind at 1. unfold query_book at 1. cbn [working].
    by rewrite Hb.
Qed.

Lemma update_book_twice book_id d db resp :
  response (run_request (update_book book_id d) db) = Returned resp →
  let db1 := database (run_request (update_book book_id d) db) in
  run_request (update_book book_id d) db1 = mkOutcome (Returned resp) db1 [] ∧
  (NoDup (books_1 db) → NoDup (books_1 db1)) ∧
  (NoDup (books db) → NoDup (books db1)).
Proof.
  intros Hresp db1. subst db1.
  apply update_book_returned in Hresp as [Hr Hrun]. rewrite Hrun.
  cbn [database].
  split; [|split; intros ?; by apply NoDup_reconcile_rows].
  rewrite update_book_run.
  - rewrite updated_book_idem, <- Hr. f_equal.
    unfold update_book_stmts.
    change (books_1 (updated_book book_id d db)) with
      (reconcile_rows Book_authors book_id (BookCreate.authors d) (books_1 db)).
    change (books (updated_book book_id d db)) with
      (reconcile_rows Book_library book_id (BookCreate.library d) (books db)).
    by rewrite !reconcile_stmts_idem.
  - apply bool_decide_eq_true. eexists. apply lookup_insert_eq.
  - apply targets_ok_linked. intros x Hx.
    apply elem_of_linked_rows.
    by apply (linked_in_reconcile_rows Book_authors book_id _ (books_1 db)).
  - apply targets_ok_linked. intros x Hx.
    apply elem_of_linked_rows.
    by apply (linked_in_reconcile_rows Book_library book_id _ (books db)).
Qed.

Lemma update_author_returned author_id d db resp :
  response (run_request (update_author author_id d) db) = Returned resp →
  resp = AuthorResponse.mk (author_id, Author.mk (AuthorCreate.name d))
           (linked Author_books author_id (updated_author author_id d db)) ∧
  run_request (update_author author_id d) db =
  mkOutcome (Returned resp) (updated_author author_id d db)
    (reconcile_stmts Author_books author_id (AuthorCreate.books d) (books_1 db)).
Proof.
  destruct (author db !! author_id) as [b|] eqn:Hb.
  - pose proof (update_author_session author_id d db b Hb) as H.
    unfold run_request.
    destruct (update_author author_id d {| committed := db |}) as [[r|e] s']; [|done].
    destruct H as (_ & -> & ->). cbn [response database committed].
    by intros [= <-].
  - unfold run_request, update_author.
    unfold mbind at 1, M_bind at 1. unfold query_author at 1. cbn [working].
    by rewrite Hb.
Qed.

Lemma update_library_returned library_id d db resp :
  response (run_request (update_library library_id d) db) = Returned resp →
  resp = LibraryResponse.mk (library_id, Library.mk (LibraryCreate.name d))
           (linked Library_books library_id (updated_library library_id d db)) ∧
  run_request (update_library library_id d) db =
  mkOutcome (Returned resp) (updated_library library_id d db)
    (reconcile_stmts Library_books library_id (LibraryCreate.books d) (books db)).
Proof.
  destruct (library db !! library_id) as [b|] eqn:Hb.
  - pose proof (update_library_session library_id d db b Hb) as H.
    unfold run_request.
    destruct (update_library library_id d {| committed := db |}) as [[r|e] s']; [|done].
    destruct H as (_ & -> & ->). cbn [response database committed].
    by intros [= <-].
  - unfold run_request, update_library.
    unfold mbind at 1, M_bind at 1. unfold query_library at 1. cbn [working].
    by rewrite Hb.
Qed.

Lemma update_author_twice author_id d db resp :
  response (run_request (update_author author_id d) db) = Returned resp →
  let db1 := database (run_request (update_author author_id d) db) in
  run_request (update_author author_id d) db1 = mkOutcome (Returned resp) db1 [] ∧
  (NoDup (books_1 db) → NoDup (books_1 db1)).
Proof.
  intros Hresp db1. subst db1.
  apply update_author_returned in Hresp as [Hr Hrun]. rewrite Hrun.
  cbn [database].
  split; [|intros ?; by apply NoDup_reconcile_rows].
  assert (Hok : targets_ok Author_books author_id (AuthorCreate.books d)
                  (updated_author author_id d db) = true).
  { apply targets_ok_linked. intros x Hx.
    apply elem_of_linked_rows.
    by apply (linked_in_reconcile_rows Author_books author_id _ (books_1 db)). }
  pose proof (update_author_session author_id d (updated_author author_id d db)
                (Author.mk (AuthorCreate.name d)) (lookup_insert_eq _ _ _)) as H.
  unfold run_request.
  destruct (update_author author_id d {| committed := updated_author author_id d db |})
    as [[r|e] s'].
  - destruct H as (_ & -> & ->). rewrite updated_author_idem, <- Hr.
    cbn [committed executed]. f_equal.
    change (books_1 (updated_author author_id d db)) with
      (reconcile_rows Author_books author_id (AuthorCreate.books d) (books_1 db)).
    by rewrite reconcile_stmts_idem.
  - destruct H as (H & _). congruence.
Qed.

Lemma update_library_twice library_id d db resp :
  response (run_request (update_library library_id d) db) = Returned resp →
  let db1 := database (run_request (update_library library_id d) db) in
  run_request (update_library library_id d) db1 = mkOutcome (Returned resp) db1 [] ∧
  (NoDup (books db) → NoDup (books db1)).
Proof.
  intros Hresp db1. subst db1.
  apply update_library_returned in Hresp as [Hr Hrun]. rewrite Hrun.
  cbn [database].
  split; [|intros ?; by apply NoDup_reconcile_rows].
  assert (Hok : targets_ok Library_books library_id (LibraryCreate.books d)
                  (updated_library library_id d db) = true).
  { apply targets_ok_linked. intros x Hx.
    apply elem_of_linked_rows.
    by apply (linked_in_reconcile_rows Library_books library_id _ (books db)). }
  pose proof (update_library_session library_id d (updated_library library_id d db)
                (Library.mk (LibraryCreate.name d)) (lookup_insert_eq _ _ _)) as H.
  unfold run_request.
  destruct (update_library library_id d {| committed := updated_library library_id d db |})
    as [[r|e] s'].
  - destruct H as (_ & -> & ->). rewrite updated_library_idem, <- Hr.
    cbn [committed executed]. f_equal.
    change (books (updated_library library_id d db)) with
      (reconcile_rows Library_books library_id (LibraryCreate.books d) (books db)).
    by rewrite reconcile_stmts_idem.
  - destruct H as (H & _). congruence.
Qed.

(** C2. Reconcile is idempotent: when an update of a Book, an Author or a
    Library has been accepted, the same update run again on the resulting
    database is accepted too, returns the same response, leaves the
    database (hence every linked id set) as it is, executes no INSERT and
    no DELETE, and a table without duplicate rows still has none. *)
Theorem reconcile_idempotent :
  (∀ book_id d db resp,
     response (run_request (update_book book_id d) db) = Returned resp →
     let db1 := database (run_request (update_book book_id d) db) in
     run_request (update_book book_id d) db1 = mkOutcome (Returned resp) db1 [] ∧
     (NoDup (books_1 db) → NoDup (books_1 db1)) ∧
     (NoDup (books db) → NoDup (books db1))) ∧
  (∀ author_id d db resp,
     response (run_request (update_author author_id d) db) = Returned resp →
     let db1 := database (run_request (update_author author_id d) db) in
     run_request (update_author author_id d) db1 = mkOutcome (Returned resp) db1 [] ∧
     (NoDup (books_1 db) → NoDup (books_1 db1))) ∧
  (∀ library_id d db resp,
     response (run_request (update_library library_id d) db) = Returned resp →
     let db1 := database (run_request (update_library library_id d) db) in
     run_request (update_library library_id d) db1 = mkOutcome (Returned resp) db1 [] ∧
     (NoDup (books db) → NoDup (books db1))).
Proof.
  split; [|split].
  - apply update_book_twice.
  - apply update_author_twice.
  - apply update_library_twice.
Qed.

(** ** Creation *)

Lemma require_all_spec e name ids s :
  match require_all e name ids s with
  | (inl _, s') => forallb (λ id, has_row e id (working s)) ids = true ∧ s' = s
  | (inr ex, s') =>
      ∃ id, id ∈ ids ∧ has_row e id (working s) = false ∧ ex = not_found name id ∧ s' = s
  end.
Proof.
  unfold require_all. induction ids as [|id ids IH]; [done|].
  cbn [for_each]. unfold mbind at 1, M_bind at 1.
  unfold mbind at 1, M_bind at 1. unfold query_exists at 1.
  destruct (has_row e id (working s)) eqn:Hrow; simpl.
  - destruct (for_each ids _ s) as [[[]|ex] s'].
    + by rewrite Hrow.
    + destruct IH as (id' & ? & ? & ? & ?). exists id'. split; [by right|done].
  - exists id. split; [by left|done].
Qed.

Lemma link_all_ok r o ids db st :
  NoDup ids →
  forallb (λ id, has_row (target r) id db) ids = true →
  (∀ id, id ∈ ids → mk_row r o id ∉ rows (secondary r) db) →
  link_all r o ids (mkSession db db st) =
  (inl tt, mkSession (link_rows r o ids db) (link_rows r o ids db)
             (st ++ ((StInsert (secondary r) ∘ mk_row r o) <$> ids))).
Proof.
  unfold link_all. revert db st. induction ids as [|id ids IH]; intros db st Hnd Hall Hfresh.
  - simpl. unfold link_rows. simpl. by rewrite !app_nil_r, set_rows_id.
  - apply NoDup_cons in Hnd as [Hid Hnd].
    simpl in Hall. apply andb_true_iff in Hall as [Hrow Hall].
    cbn [for_each]. unfold mbind at 1, M_bind at 1.
    unfold mbind at 1, M_bind at 1. unfold query_exists at 1. cbn [working].
    rewrite Hrow. cbn [negb].
    unfold mbind at 1, M_bind at 1. unfold execute_insert at 1. cbn [working committed executed].
    rewrite bool_decide_eq_false_2 by (apply Hfresh; left).
    unfold commit at 1. cbn [working committed executed].
    rewrite IH; [|done| |].
    + unfold link_rows. rewrite rows_set_rows, set_rows_set_rows.
      by rewrite <- !app_assoc.
    + rewrite <- Hall. apply forallb_ext. intros x. by rewrite has_row_set_rows.
    + intros id' Hid'. rewrite rows_set_rows, elem_of_app, list_elem_of_singleton.
      intros [Hin|Heq]; [by apply (Hfresh id'); [right|]|].
      apply mk_row_inj in Heq. by subst.
Qed.

Lemma max_id_ge ids x : x ∈ ids → x ≤ max_id ids.
Proof.
  induction ids as [|y ids IH]; [by intros ?%elem_of_nil|].
  intros [->|Hx]%elem_of_cons; simpl; [lia|]. specialize (IH Hx). lia.
Qed.

Lemma next_id_fresh {V} (tbl : gmap Z V) : tbl !! next_id tbl = None.
Proof.
  apply not_elem_of_dom. intros Hin%elem_of_elements%max_id_ge.
  unfold next_id in Hin. lia.
Qed.

Lemma fk_ok_owner db e r row :
  fk_ok db = true → r ∈ relationships e → row ∈ rows (secondary r) db →
  has_row e (owner_of r row) db = true.
Proof.
  unfold fk_ok. rewrite andb_true_iff, !forallb_forall.
  intros [H1 H2] Hr Hrow. apply list_elem_of_In in Hrow.
  destruct e; simpl in Hr.
  - apply elem_of_cons in Hr as [->|Hr]; [|apply list_elem_of_singleton in Hr as ->].
    + apply H1, andb_true_iff in Hrow. tauto.
    + apply H2, andb_true_iff in Hrow. tauto.
  - apply list_elem_of_singleton in Hr as ->. apply H1, andb_true_iff in Hrow. tauto.
  - apply list_elem_of_singleton in Hr as ->. apply H2, andb_true_iff in Hrow. tauto.
Qed.

Lemma no_rows_of_missing db e r o x :
  fk_ok db = true → r ∈ relationships e → has_row e o db = false →
  mk_row r o x ∉ rows (secondary r) db.
Proof.
  intros Hfk Hr Hno Hin. pose proof (fk_ok_owner db e r _ Hfk Hr Hin) as H.
  rewrite owner_of_mk_row in H. congruence.
Qed.

Lemma linked_missing db e r o :
  fk_ok db = true → r ∈ relationships e → has_row e o db = false → linked r o db = [].
Proof.
  intros Hfk Hr Hno. destruct (linked r o db) as [|x l] eqn:Hl; [done|].
  assert (Hx : x ∈ linked r o db) by (rewrite Hl; left).
  apply elem_of_linked in Hx. by eapply no_rows_of_missing in Hx.
Qed.

Lemma linked_in_mk_rows r o ids : linked_in r o (mk_row r o <$> ids) = ids.
Proof.
  unfold linked_in. induction ids as [|id ids IH]; [done|].
  rewrite fmap_cons, filter_cons_True by apply owner_of_mk_row.
  by rewrite fmap_cons, other_of_mk_row, IH.
Qed.

Lemma linked_in_missing db e r o :
  fk_ok db = true → r ∈ relationships e → has_row e o db = false →
  linked_in r o (rows (secondary r) db) = [].
Proof.
  intros Hfk Hr Hno. destruct (linked_in r o _) as [|x l] eqn:Hl; [done|].
  assert (Hx : x ∈ linked_in r o (rows (secondary r) db)) by (rewrite Hl; left).
  apply elem_of_linked_in in Hx. by eapply no_rows_of_missing in Hx.
Qed.

Lemma linked_link_rows r o ids db :
  linked_in r o (rows (secondary r) db) = [] →
  linked r o (link_rows r o ids db) = select_order r ids.
Proof.
  intros Hnil. unfold linked, link_rows, linked_in in *.
  rewrite rows_set_rows, filter_app, fmap_app, Hnil. cbn [app]. f_equal.
  apply linked_in_mk_rows.
Qed.

Lemma linked_link_rows_ne r r' o o' ids db :
  secondary r ≠ secondary r' → linked r o (link_rows r' o' ids db) = linked r o db.
Proof. intros Hne. unfold linked, link_rows. by rewrite rows_set_rows_ne. Qed.

Lemma create_book_run d db :
  forallb (λ id, has_row EAuthor id db) (BookCreate.authors d) = true →
  forallb (λ id, has_row ELibrary id db) (BookCreate.library d) = true →
  NoDup (BookCreate.authors d) →
  NoDup (BookCreate.library d) →
  fk_ok db = true →
  run_request (create_book d) db =
  mkOutcome
    (Returned (BookResponse.mk (next_id (book db), Book_of d)
                 (BookCreate.authors d) (merge_sort Z.le (BookCreate.library d))))
    (created_book d db)
    (((StInsert Books_1 ∘ mk_row Book_authors (next_id (book db))) <$> BookCreate.authors d)
     ++ ((StInsert Books ∘ mk_row Book_library (next_id (book db))) <$> BookCreate.library d)).
Proof.
  intros Ha Hl Hnda Hndl Hfk.
  assert (Hfresh : has_row EBook (next_id (book db)) db = false).
  { apply bool_decide_eq_false. rewrite next_id_fresh. by intros [? ?]. }
  unfold run_request, create_book.
  set (s0 := mkSession db db []).
  unfold mbind at 1, M_bind at 1.
  pose proof (require_all_spec EAuthor "Author" (BookCreate.authors d) s0) as H1.
  destruct (require_all EAuthor _ _ s0) as [[[]|e] s'].
  2:{ destruct H1 as (id & Hin & Hno & _). rewrite forallb_forall in Ha.
      apply list_elem_of_In, Ha in Hin. unfold s0 in Hno. cbn [working] in Hno.
      congruence. }
  destruct H1 as [_ ->].
  unfold mbind at 1, M_bind at 1.
  pose proof (require_all_spec ELibrary "Library" (BookCreate.library d) s0) as H2.
  destruct (require_all ELibrary _ _ s0) as [[[]|e] s'].
  2:{ destruct H2 as (id & Hin & Hno & _). rewrite forallb_forall in Hl.
      apply list_elem_of_In, Hl in Hin. unfold s0 in Hno. cbn [working] in Hno.
      congruence. }
  destruct H2 as [_ ->].
  unfold mbind at 1, M_bind at 1. unfold add_book at 1. cbn [working committed executed s0].
  fold (store_book (next_id (book db)) (Book_of d) db).
  set (nid := next_id (book db)) in *.
  unfold mbind at 1, M_bind at 1. unfold commit at 1. cbn [working committed executed].
  unfold mbind at 1, M_bind at 1. unfold refresh_book at 1. cbn [working].
  replace (book (store_book nid (Book_of d) db) !! nid) with (Some (Book_of d))
    by (symmetry; apply lookup_insert_eq).
  cbn [fst].
  unfold mbind at 1, M_bind at 1.
  rewrite link_all_ok; [|done| |].
  2:{ rewrite <- Ha. by apply forallb_ext. }
  2:{ intros id _. change (rows (secondary Book_authors) (store_book nid (Book_of d) db))
        with (rows (secondary Book_authors) db).
      eapply no_rows_of_missing; [done| |done]. simpl. left. }
  unfold mbind at 1, M_bind at 1.
  rewrite link_all_ok; [|done| |].
  2:{ rewrite <- Hl. by apply forallb_ext. }
  2:{ intros id _.
      change (rows (secondary Book_library) (link_rows _ _ _ _))
        with (rows (secondary Book_library) db).
      eapply no_rows_of_missing; [done| |done]. simpl. right. left. }
  unfold book_response, mbind, M_bind, select_linked, mret, M_ret.
  cbn [working committed executed fst app].
  fold (created_book d db).
  f_equal. f_equal. f_equal.
  - unfold created_book. fold nid.
    rewrite linked_link_rows_ne by done.
    apply (linked_link_rows Book_authors nid (BookCreate.authors d)).
    apply (linked_in_missing db EBook); [done| |done]. simpl. left.
  - unfold created_book. fold nid.
    apply (linked_link_rows Book_library nid (BookCreate.library d)).
    apply (linked_in_missing db EBook); [done| |done]. simpl. right. left.
Qed.

Lemma model_validate_accepts d :
  BookCreate.pages d > 10 → BookCreate.model_validate d = inl d.
Proof.
  intros H. unfold BookCreate.model_validate, BookCreate.validate_pages_1.
  rewrite bool_decide_eq_true_2 by done. by destruct d.
Qed.

Lemma model_validate_rejects d :
  BookCreate.pages d ≤ 10 →
  BookCreate.model_validate d = inr [("pages", ValueError "pages must be > 10")].
Proof.
  intros H. unfold BookCreate.model_validate, BookCreate.validate_pages_1.
  by rewrite bool_decide_eq_false_2 by lia.
Qed.

(** C8. The bound on [pages] is exclusive: the validator rejects 10 with
    the message 'pages must be > 10' and returns 11; a Book payload with
    pages <= 10 is refused before the endpoint runs and nothing is stored;
    a payload with pages > 10 (so pages = 11) whose author and library ids
    are stored and listed once is accepted: the Book is stored under a new
    id and the response lists exactly the submitted author and library
    ids, each once, in the order the store returns them (in a database
    whose association rows name stored rows only, so that the new id has
    no rows yet). *)
Theorem pages_boundary_exclusive :
  BookCreate.validate_pages_1 10 = inr (ValueError "pages must be > 10") ∧
  BookCreate.validate_pages_1 11 = inl 11 ∧
  (∀ d db,
     BookCreate.pages d ≤ 10 →
     post_book d db =
     mkOutcome
       (RequestValidationError
          [([LocStr "body"; LocStr "pages"], ValueError "pages must be > 10")])
       db []) ∧
  (∀ d db,
     BookCreate.pages d > 10 →
     forallb (λ id, has_row EAuthor id db) (BookCreate.authors d) = true →
     forallb (λ id, has_row ELibrary id db) (BookCreate.library d) = true →
     NoDup (BookCreate.authors d) →
     NoDup (BookCreate.library d) →
     fk_ok db = true →
     ∃ resp,
       response (post_book d db) = Returned resp ∧
       BookResponse.book resp = (next_id (book db), Book_of d) ∧
       BookResponse.author_ids resp ≡ₚ BookCreate.authors d ∧
       BookResponse.library_ids resp ≡ₚ BookCreate.library d ∧
       book (database (post_book d db)) !! next_id (book db) = Some (Book_of d)).
Proof.
  split; [done|]. split; [done|]. split.
  - intros d db H. unfold post_book, with_body, body_model.
    by rewrite model_validate_rejects.
  - intros d db H Ha Hl Hnda Hndl Hfk. unfold post_book, with_body, body_model.
    rewrite model_validate_accepts by done.
    rewrite create_book_run by done. cbn [response database].
    eexists. split; [done|]. cbn [BookResponse.book BookResponse.author_ids
                                    BookResponse.library_ids].
    split; [done|]. split; [done|]. split; [apply merge_sort_Permutation|].
    apply lookup_insert_eq.
Qed.

(** ** create_author *)

(** C6. Creating an Author with an empty [books] list fails with status
    400 and the detail "At least 1 Book(s) required"; with a non-empty
    list that names an id with no Book row it fails with status 404 and
    the detail "Book with ID <id> not found" for such an id.  In both
    cases no statement is executed and the database, so the author table,
    is as before. *)
Theorem create_author_requires_books :
  (∀ d db,
     AuthorCreate.books d = [] →
     post_author d db =
     mkOutcome
       (Failed (mkJSONResponse 400
                  (mkErrorBody "At least 1 Book(s) required"
                     (DetailStr "At least 1 Book(s) required")
                     "HTTP 400 error occurred")))
       db []) ∧
  (∀ d db,
     AuthorCreate.books d ≠ [] →
     forallb (λ id, has_row EBook id db) (AuthorCreate.books d) = false →
     ∃ id,
       id ∈ AuthorCreate.books d ∧ has_row EBook id db = false ∧
       post_author d db =
       mkOutcome
         (Failed (mkJSONResponse 404
                    (mkErrorBody ("Book with ID " +:+ pretty id +:+ " not found")
                       (DetailStr ("Book with ID " +:+ pretty id +:+ " not found"))
                       "HTTP 404 error occurred")))
         db []).
Proof.
  split.
  - intros d db H. unfold post_author, with_body, body_model. simpl.
    unfold run_request, create_author. by rewrite H.
  - intros d db Hne Hbad. unfold post_author, with_body, body_model. simpl.
    unfold run_request, create_author.
    destruct (AuthorCreate.books d) as [|b bs] eqn:Hbooks; [done|].
    rewrite bool_decide_eq_false_2 by done.
    rewrite bool_decide_eq_false_2 by (simpl; lia).
    cbn [orb]. unfold mbind at 1, M_bind at 1.
    pose proof (require_all_spec EBook "Book" (b :: bs) (mkSession db db [])) as H.
    destruct (require_all EBook _ _ _) as [[[]|e] s'].
    + destruct H as [H _]. cbn [working] in H. congruence.
    + destruct H as (id & Hin & Hno & -> & ->). exists id. done.
Qed.

(** ** Examples *)

(** Replacing the authors {1, 2} of book 1 by {2, 3}: one DELETE for 1, one
    INSERT for 3, the row of 2 stays where it is. *)
Example update_book_AB_to_BC :
  let o := run_request (update_book 1 (sample_payload 412 [2; 3] [1])) sample_db in
  statements o = [StDelete Books_1 (1, 1); StInsert Books_1 (3, 1)] ∧
  books_1 (database o) = [(2, 1); (3, 1)] ∧
  books (database o) = [(1, 1)].
Proof. vm_compute. done. Qed.

Lemma update_book_minimal_delta_witness :
  has_row EBook 1 sample_db = true ∧
  targets_ok Book_authors 1 [2; 3] sample_db = true ∧
  targets_ok Book_library 1 [1] sample_db = true ∧
  (∃ resp, response (run_request (update_book 1 (sample_payload 412 [2; 3] [1])) sample_db)
           = Returned resp).
Proof.
  split; [reflexivity|]. split; [reflexivity|]. split; [reflexivity|].
  apply (update_book_minimal_delta 1 (sample_payload 412 [2; 3] [1]) sample_db);
    reflexivity.
Defined.

Lemma reconcile_idempotent_witness :
  run_request (update_book 1 (sample_payload 412 [2; 3] [1]))
    (database (run_request (update_book 1 (sample_payload 412 [2; 3] [1])) sample_db))
  = mkOutcome
      (Returned (BookResponse.mk (1, Book_of (sample_payload 412 [2; 3] [1])) [2; 3] [1]))
      (database (run_request (update_book 1 (sample_payload 412 [2; 3] [1])) sample_db))
      [].
Proof.
  apply (proj1 reconcile_idempotent 1 (sample_payload 412 [2; 3] [1]) sample_db).
  vm_compute. reflexivity.
Defined.

Lemma pages_boundary_exclusive_witness :
  BookCreate.pages (sample_payload 11 [1; 2] [1]) > 10 ∧
  ∃ resp,
    response (post_book (sample_payload 11 [1; 2] [1]) sample_db) = Returned resp ∧
    BookResponse.book resp = (2, Book_of (sample_payload 11 [1; 2] [1])) ∧
    BookResponse.author_ids resp ≡ₚ [1; 2] ∧
    BookResponse.library_ids resp ≡ₚ [1] ∧
    book (database (post_book (sample_payload 11 [1; 2] [1]) sample_db)) !! 2
      = Some (Book_of (sample_payload 11 [1; 2] [1])).
Proof.
  split; [reflexivity|].
  apply (proj2 (proj2 (proj2 pages_boundary_exclusive))
           (sample_payload 11 [1; 2] [1]) sample_db).
  - reflexivity.
  - reflexivity.
  - reflexivity.
  - refine (bool_decide_unpack _ _). vm_compute. exact I.
  - refine (bool_decide_unpack _ _). vm_compute. exact I.
  - reflexivity.
Defined.

Lemma create_author_requires_books_witness :
  ∃ id, id ∈ [1; 7] ∧ has_row EBook id sample_db = false ∧
        post_author (AuthorCreate.mk "N" [1; 7]) sample_db =
        mkOutcome
          (Failed (mkJSONResponse 404
                     (mkErrorBody ("Book with ID " +:+ pretty id +:+ " not found")
                        (DetailStr ("Book with ID " +:+ pretty id +:+ " not found"))
                        "HTTP 404 error occurred")))
          sample_db [].
Proof.
  apply (proj2 create_author_requires_books (AuthorCreate.mk "N" [1; 7]) sample_db).
  - discriminate.
  - reflexivity.
Defined.

(** ** Single links *)

Lemma add_link_run r owner_name other_name relation o x db :
  run_request (add_link r owner_name other_name relation o x) db =
  if negb (has_row (owner r) o db) then
    mkOutcome (Failed (http_error 404 (owner_name +:+ " not found"))) db []
  else if negb (has_row (target r) x db) then
    mkOutcome (Failed (http_error 404 (other_name +:+ " not found"))) db []
  else if bool_decide (mk_row r o x ∈ rows (secondary r) db) then
    mkOutcome (Failed (http_error 400 "Relationship already exists")) db []
  else
    mkOutcome (Returned (other_name +:+ " added to " +:+ relation +:+ " successfully"))
      (link_rows r o [x] db) [StInsert (secondary r) (mk_row r o x)].
Proof.
  unfold run_request, add_link.
  unfold mbind at 1, M_bind at 1. unfold query_exists at 1. cbn [working].
  destruct (has_row (owner r) o db); [|done]. cbn [negb].
  unfold mbind at 1, M_bind at 1. unfold query_exists at 1. cbn [working].
  destruct (has_row (target r) x db); [|done]. cbn [negb].
  unfold mbind at 1, M_bind at 1. unfold query_link at 1. cbn [working].
  destruct (bool_decide (mk_row r o x ∈ rows (secondary r) db)) eqn:Hex; [done|].
  unfold mbind at 1, M_bind at 1. unfold execute_insert at 1. cbn [working committed executed].
  rewrite Hex. done.
Qed.

(** C3 (as the code has it). Adding a link whose join row is already
    stored always fails, executes no statement and leaves the database as
    it is; the status is 404 when the book or the author is not stored and
    otherwise 400 with the detail "Relationship already exists" (the 409
    of the integrity handler is never used here).  So a second
    [add_authors_to_book] with the same pair fails with this 400. *)
Theorem add_existing_link_rejected :
  (∀ book_id author_id db,
     (author_id, book_id) ∈ books_1 db →
     let o := run_request (add_authors_to_book book_id author_id) db in
     database o = db ∧ statements o = [] ∧
     response o =
       Failed (if negb (has_row EBook book_id db) then http_error 404 "Book not found"
               else if negb (has_row EAuthor author_id db) then http_error 404 "Author not found"
               else http_error 400 "Relationship already exists")) ∧
  (∀ book_id author_id db msg,
     response (run_request (add_authors_to_book book_id author_id) db) = Returned msg →
     let db1 := database (run_request (add_authors_to_book book_id author_id) db) in
     run_request (add_authors_to_book book_id author_id) db1 =
     mkOutcome (Failed (http_error 400 "Relationship already exists")) db1 []).
Proof.
  split.
  - intros book_id author_id db Hin o. subst o. unfold add_authors_to_book.
    rewrite add_link_run. cbn [owner target secondary Book_authors rows].
    destruct (has_row EBook book_id db); [|done]. cbn [negb].
    destruct (has_row EAuthor author_id db); [|done]. cbn [negb].
    by rewrite bool_decide_eq_true_2.
  - intros book_id author_id db msg. unfold add_authors_to_book.
    rewrite !add_link_run. cbn [owner target secondary Book_authors rows].
    destruct (has_row EBook book_id db) eqn:Hb; [|done]. cbn [negb].
    destruct (has_row EAuthor author_id db) eqn:Ha; [|done]. cbn [negb].
    destruct (bool_decide _); [done|]. intros _. cbn [database].
    change (has_row EBook book_id (link_rows _ _ _ _)) with (has_row EBook book_id db).
    change (has_row EAuthor author_id (link_rows _ _ _ _)) with (has_row EAuthor author_id db).
    rewrite Hb, Ha. cbn [negb].
    rewrite bool_decide_eq_true_2; [done|].
    unfold link_rows. cbn. rewrite elem_of_app, list_elem_of_singleton. by right.
Qed.

Lemma add_existing_link_rejected_witness :
  (1, 1) ∈ books_1 sample_db ∧
  response (run_request (add_authors_to_book 1 1) sample_db) =
    Failed (http_error 400 "Relationship already exists").
Proof.
  split; [by left|].
  apply (proj1 add_existing_link_rejected 1 1 sample_db). by left.
Defined.

(** C3 as stated does not hold: book 1 and author 1 of [sample_db] are
    linked, and adding the link again answers 400, not 409. *)
Lemma add_existing_link_conflict_counterexample :
  ¬ (∀ book_id author_id db,
       (author_id, book_id) ∈ books_1 db →
       ∃ resp,
         response (run_request (add_authors_to_book book_id author_id) db) = Failed resp ∧
         status_code resp = 409).
Proof.
  intros H. destruct (H 1 1 sample_db) as (resp & Hresp & Hcode); [by left|].
  vm_compute in Hresp. injection Hresp as <-. discriminate Hcode.
Qed.

(** ** decrease_stock *)

Lemma decrease_stock_run book_id qty db b :
  book db !! book_id = Some b →
  run_request (execute_book_decrease_stock book_id qty) db =
  if bool_decide (qty ≤ 0) then
    mkOutcome
      (Failed (http_error 500 "Method execution failed: Quantity must be a positive integer"))
      db []
  else if bool_decide (qty > Book.stock b) then
    mkOutcome
      (Failed (http_error 500
                 ("Method execution failed: " +:+
                  ("Cannot decrease stock by " +:+ pretty qty +:+ ". Only "
                     +:+ pretty (Book.stock b) +:+ " items available."))))
      db []
  else
    mkOutcome (Returned (mkMethodResponse book_id "decrease_stock" "executed" None None))
      (store_book book_id (with_stock b (Book.stock b - qty)) db) [].
Proof.
  intros Hb. unfold run_request, execute_book_decrease_stock.
  unfold mbind at 1, M_bind at 1. unfold query_book at 1. cbn [working]. rewrite Hb.
  unfold try_except.
  destruct (bool_decide (qty ≤ 0)); [done|].
  destruct (bool_decide (qty > Book.stock b)); done.
Qed.

(** C5 (as the code has it). For a stored Book, [decrease_stock] with
    qty <= 0 or qty > stock fails and leaves the database, so the stock,
    as it is; the [ValueError] is caught by the endpoint and answered with
    status 500, "Method execution failed: ...".  With 0 < qty <= stock it
    succeeds and the stock becomes stock - qty, which is 0 for a positive
    qty equal to the stock. *)
Theorem decrease_stock_checked book_id qty db b :
  book db !! book_id = Some b →
  let o := run_request (execute_book_decrease_stock book_id qty) db in
  (qty ≤ 0 ∨ qty > Book.stock b →
     database o = db ∧
     ∃ msg, response o = Failed (http_error 500 ("Method execution failed: " +:+ msg))) ∧
  (0 < qty ≤ Book.stock b →
     response o = Returned (mkMethodResponse book_id "decrease_stock" "executed" None None) ∧
     book (database o) !! book_id = Some (with_stock b (Book.stock b - qty)) ∧
     (qty = Book.stock b → Book.stock <$> book (database o) !! book_id = Some 0)).
Proof.
  intros Hb o. subst o. rewrite (decrease_stock_run _ _ _ b Hb). split.
  - intros Hbad. destruct (bool_decide (qty ≤ 0)) eqn:H0.
    + split; [done|]. by eexists.
    + apply bool_decide_eq_false in H0.
      rewrite bool_decide_eq_true_2 by lia. split; [done|]. by eexists.
  - intros [Hpos Hle].
    rewrite bool_decide_eq_false_2 by lia.
    rewrite bool_decide_eq_false_2 by lia.
    cbn [response database]. split; [done|].
    unfold store_book. cbn [book]. rewrite lookup_insert_eq. split; [done|].
    intros ->. cbn. by rewrite Z.sub_diag.
Qed.

Lemma decrease_stock_checked_witness :
  book sample_db !! 1 = Some sample_book ∧
  Book.stock <$> book (database (run_request (execute_book_decrease_stock 1 5) sample_db)) !! 1
  = Some 0.
Proof.
  split; [reflexivity|].
  apply (decrease_stock_checked 1 5 sample_db sample_book); [reflexivity| |reflexivity].
  split; [reflexivity|]. intros H. discriminate H.
Defined.

(** C5 as stated does not hold: asking book 1 of [sample_db] (stock 5)
    for 6 items is answered with status 500, which is not a client error. *)
Lemma decrease_stock_client_error_counterexample :
  ¬ (∀ book_id qty db b,
       book db !! book_id = Some b →
       qty ≤ 0 ∨ qty > Book.stock b →
       ∃ resp,
         response (run_request (execute_book_decrease_stock book_id qty) db) = Failed resp ∧
         400 ≤ status_code resp < 500).
Proof.
  intros H. destruct (H 1 6 sample_db sample_book) as (resp & Hresp & Hcode).
  - reflexivity.
  - right. reflexivity.
  - vm_compute in Hresp. injection Hresp as <-. simpl in Hcode. lia.
Qed.

(** ** Deletion *)

Lemma delete_entity_run e name id db :
  run_request (delete_entity e name id) db =
  if negb (has_row e id db) then
    mkOutcome (Failed (http_error 404 (name +:+ " not found"))) db []
  else mkOutcome (Returned id) (deleted e id db) [].
Proof.
  unfold run_request, delete_entity.
  unfold mbind at 1, M_bind at 1. unfold query_exists at 1. cbn [working].
  by destruct (has_row e id db).
Qed.

Lemma elem_of_unlinked (P : Z * Z → Prop) `{!∀ x, Decision (P x)} (b : Z * Z → bool)
    (rs : list (Z * Z)) row :
  row ∈ filter (λ x, ¬ (P x ∧ b x)) rs ↔ row ∈ rs ∧ ¬ (P row ∧ b row = true).
Proof.
  rewrite list_elem_of_filter. rewrite Is_true_true. tauto.
Qed.

(** C7 (as the code has it). A delete endpoint executes no statement on
    the association tables itself, but the entity is deleted through the
    session, and the relationships declared with [secondary=] make the
    flush delete the association rows that link the deleted entity to a
    stored entity on the other side; every other association row stays. *)
Theorem delete_unlinks_entity :
  (∀ book_id db,
     has_row EBook book_id db = true →
     let o := run_request (delete_book book_id) db in
     response o = Returned book_id ∧ statements o = [] ∧
     book (database o) !! book_id = None ∧
     (∀ a b, (a, b) ∈ books_1 (database o) ↔
        (a, b) ∈ books_1 db ∧ ¬ (b = book_id ∧ has_row EAuthor a db = true)) ∧
     (∀ b l, (b, l) ∈ books (database o) ↔
        (b, l) ∈ books db ∧ ¬ (b = book_id ∧ has_row ELibrary l db = true))) ∧
  (∀ author_id db,
     has_row EAuthor author_id db = true →
     let o := run_request (delete_author author_id) db in
     response o = Returned author_id ∧ statements o = [] ∧
     author (database o) !! author_id = None ∧
     (∀ a b, (a, b) ∈ books_1 (database o) ↔
        (a, b) ∈ books_1 db ∧ ¬ (a = author_id ∧ has_row EBook b db = true)) ∧
     books (database o) = books db) ∧
  (∀ library_id db,
     has_row ELibrary library_id db = true →
     let o := run_request (delete_library library_id) db in
     response o = Returned library_id ∧ statements o = [] ∧
     library (database o) !! library_id = None ∧
     (∀ b l, (b, l) ∈ books (database o) ↔
        (b, l) ∈ books db ∧ ¬ (l = library_id ∧ has_row EBook b db = true)) ∧
     books_1 (database o) = books_1 db).
Proof.
  split; [|split].
  - intros id db Hrow o. subst o. unfold delete_book.
    rewrite delete_entity_run, Hrow. cbn [negb response statements database].
    split; [done|]. split; [done|]. split; [apply lookup_delete_eq|]. split.
    + intros a b.
      apply (elem_of_unlinked (λ x, x.2 = id) (λ x, has_row EAuthor x.1 db) (books_1 db) (a, b)).
    + intros b l.
      apply (elem_of_unlinked (λ x, x.1 = id) (λ x, has_row ELibrary x.2 db) (books db) (b, l)).
  - intros id db Hrow o. subst o. unfold delete_author.
    rewrite delete_entity_run, Hrow. cbn [negb response statements database].
    split; [done|]. split; [done|]. split; [apply lookup_delete_eq|]. split; [|done].
    intros a b.
    apply (elem_of_unlinked (λ x, x.1 = id) (λ x, has_row EBook x.2 db) (books_1 db) (a, b)).
  - intros id db Hrow o. subst o. unfold delete_library.
    rewrite delete_entity_run, Hrow. cbn [negb response statements database].
    split; [done|]. split; [done|]. split; [apply lookup_delete_eq|]. split; [|done].
    intros b l.
    apply (elem_of_unlinked (λ x, x.2 = id) (λ x, has_row EBook x.1 db) (books db) (b, l)).
Qed.

Lemma delete_unlinks_entity_witness :
  has_row EBook 1 sample_db = true ∧
  response (run_request (delete_book 1) sample_db) = Returned 1.
Proof.
  split; [reflexivity|].
  apply (proj1 delete_unlinks_entity 1 sample_db). reflexivity.
Defined.

(** C7 as stated does not hold: book 1 of [sample_db] is linked to author
    1, and after [delete_book 1] the row (1, 1) is no longer in books_1. *)
Lemma delete_keeps_join_rows_counterexample :
  ¬ (∀ book_id a db,
       response (run_request (delete_book book_id) db) = Returned book_id →
       (a, book_id) ∈ books_1 db →
       (a, book_id) ∈ books_1 (database (run_request (delete_book book_id) db))).
Proof.
  intros H. specialize (H 1 1 sample_db eq_refl). vm_compute in H.
  assert (Hin : (1, 1) ∈ [(1, 1); (2, 1)]) by left.
  apply H in Hin. by apply elem_of_nil in Hin.
Qed.

(** ** create_book is not atomic *)

Lemma create_book_duplicate_run d db a rest :
  BookCreate.authors d = a :: a :: rest →
  forallb (λ id, has_row EAuthor id db) (BookCreate.authors d) = true →
  forallb (λ id, has_row ELibrary id db) (BookCreate.library d) = true →
  fk_ok db = true →
  run_request (create_book d) db =
  mkOutcome (Failed (exception_handler (IntegrityError (unique_failed Books_1))))
    (link_rows Book_authors (next_id (book db)) [a]
       (store_book (next_id (book db)) (Book_of d) db))
    [StInsert Books_1 (a, next_id (book db))].
Proof.
  intros Hd Ha Hl Hfk.
  assert (Hfresh : has_row EBook (next_id (book db)) db = false).
  { apply bool_decide_eq_false. rewrite next_id_fresh. by intros [? ?]. }
  unfold run_request, create_book.
  set (s0 := mkSession db db []).
  unfold mbind at 1, M_bind at 1.
  pose proof (require_all_spec EAuthor "Author" (BookCreate.authors d) s0) as H1.
  destruct (require_all EAuthor _ _ s0) as [[[]|e] s'].
  2:{ destruct H1 as (x & Hin & Hno & _). rewrite forallb_forall in Ha.
      apply list_elem_of_In, Ha in Hin. unfold s0 in Hno. cbn [working] in Hno.
      congruence. }
  destruct H1 as [_ ->].
  unfold mbind at 1, M_bind at 1.
  pose proof (require_all_spec ELibrary "Library" (BookCreate.library d) s0) as H2.
  destruct (require_all ELibrary _ _ s0) as [[[]|e] s'].
  2:{ destruct H2 as (x & Hin & Hno & _). rewrite forallb_forall in Hl.
      apply list_elem_of_In, Hl in Hin. unfold s0 in Hno. cbn [working] in Hno.
      congruence. }
  destruct H2 as [_ ->].
  unfold mbind at 1, M_bind at 1. unfold add_book at 1. cbn [working committed executed s0].
  fold (store_book (next_id (book db)) (Book_of d) db).
  set (nid := next_id (book db)) in *.
  unfold mbind at 1, M_bind at 1. unfold commit at 1. cbn [working committed executed].
  unfold mbind at 1, M_bind at 1. unfold refresh_book at 1. cbn [working].
  replace (book (store_book nid (Book_of d) db) !! nid) with (Some (Book_of d))
    by (symmetry; apply lookup_insert_eq).
  cbn [fst].
  rewrite Hd in *. cbn [forallb] in Ha. apply andb_true_iff in Ha as [Hrow _].
  assert (Hnew : (a, nid) ∉ books_1 db).
  { apply (no_rows_of_missing db EBook Book_authors nid a); [done| |done]. simpl. left. }
  unfold mbind at 1, M_bind at 1. unfold link_all at 1. cbn [for_each].
  unfold mbind at 1, M_bind at 1.
  unfold mbind at 1, M_bind at 1. unfold query_exists at 1.
  cbn [working target Book_authors].
  change (has_row EAuthor a (store_book nid (Book_of d) db)) with (has_row EAuthor a db).
  rewrite Hrow. cbn [negb].
  unfold mbind at 1, M_bind at 1. unfold execute_insert at 1.
  cbn [working committed executed secondary Book_authors rows store_book books_1 mk_row owner_col].
  rewrite bool_decide_eq_false_2 by done.
  unfold commit at 1. cbn [working committed executed set_rows book author library books_1 books].
  unfold mbind at 1, M_bind at 1.
  unfold mbind at 1, M_bind at 1. unfold query_exists at 1.
  cbn [working target Book_authors].
  change (has_row EAuthor a _) with (has_row EAuthor a db).
  rewrite Hrow. cbn [negb].
  unfold mbind at 1, M_bind at 1. unfold execute_insert at 1.
  cbn [working committed executed secondary Book_authors rows books_1 mk_row owner_col].
  rewrite bool_decide_eq_true_2
    by (rewrite elem_of_app, list_elem_of_singleton; by right).
  done.
Qed.

(** C10. [create_book] commits the Book row before any association row
    and commits after every association insert.  When the [authors] list
    starts with the same stored id twice, the second insert violates the
    primary key of books_1: the request fails with the 409 of the
    integrity handler, whose detail is the store's message for the key of
    books_1, and the database keeps the new Book with the first
    link only, none of the remaining author links and no library link.
    ([fk_ok]: the association rows name stored rows only, so the new id
    has no rows before the first insert.) *)
Theorem create_book_partial_commit d db a rest :
  BookCreate.authors d = a :: a :: rest →
  forallb (λ id, has_row EAuthor id db) (BookCreate.authors d) = true →
  forallb (λ id, has_row ELibrary id db) (BookCreate.library d) = true →
  fk_ok db = true →
  let o := run_request (create_book d) db in
  let id := next_id (book db) in
  response o =
    Failed (mkJSONResponse 409
              (mkErrorBody "Conflict" (DetailStr "Data conflict occurred")
                 "UNIQUE constraint failed: books_1.authors, books_1.books")) ∧
  book db !! id = None ∧
  book (database o) !! id = Some (Book_of d) ∧
  books_1 (database o) = books_1 db ++ [(a, id)] ∧
  books (database o) = books db ∧
  statements o = [StInsert Books_1 (a, id)].
Proof.
  intros Hd Ha Hl Hfk o id. subst o id.
  rewrite (create_book_duplicate_run d db a rest) by done.
  cbn [response database statements].
  split; [done|]. split; [apply next_id_fresh|]. split; [apply lookup_insert_eq|]. done.
Qed.

Lemma create_book_partial_commit_witness :
  fk_ok sample_db = true ∧
  books_1 (database (run_request (create_book (sample_payload 20 [3; 3] [1])) sample_db))
  = books_1 sample_db ++ [(3, 2)].
Proof.
  split; [reflexivity|].
  apply (create_book_partial_commit (sample_payload 20 [3; 3] [1]) sample_db 3 []);
    reflexivity.
Defined.

(** ** Bulk creation *)

Lemma has_row_insert_new {V} (tbl : gmap Z V) (v : V) id' :
  is_Some (tbl !! id') → is_Some (<[next_id tbl := v]> tbl !! id').
Proof.
  intros [x Hx]. exists x. rewrite lookup_insert_ne; [done|].
  intros <-. by rewrite next_id_fresh in Hx.
Qed.

Lemma adds_row_book {Item} (f : Item → Book.t) : adds_row EBook (λ item, add_book (f item)).
Proof.
  intros item s. eexists _, _. split; [reflexivity|]. cbn.
  repeat split; try done.
  - apply bool_decide_eq_false. rewrite next_id_fresh. by intros [? ?].
  - apply bool_decide_eq_true. rewrite lookup_insert_eq. by eexists.
  - intros id'. rewrite !bool_decide_eq_true. apply has_row_insert_new.
Qed.

Lemma adds_row_author {Item} (f : Item → Author.t) :
  adds_row EAuthor (λ item, add_author (f item)).
Proof.
  intros item s. eexists _, _. split; [reflexivity|]. cbn.
  repeat split; try done.
  - apply bool_decide_eq_false. rewrite next_id_fresh. by intros [? ?].
  - apply bool_decide_eq_true. rewrite lookup_insert_eq. by eexists.
  - intros id'. rewrite !bool_decide_eq_true. apply has_row_insert_new.
Qed.

Lemma adds_row_library {Item} (f : Item → Library.t) :
  adds_row ELibrary (λ item, add_library (f item)).
Proof.
  intros item s. eexists _, _. split; [reflexivity|]. cbn.
  repeat split; try done.
  - apply bool_decide_eq_false. rewrite next_id_fresh. by intros [? ?].
  - apply bool_decide_eq_true. rewrite lookup_insert_eq. by eexists.
  - intros id'. rewrite !bool_decide_eq_true. apply has_row_insert_new.
Qed.

Lemma bulk_errors_cons raised idx n :
  bulk_errors raised idx (S n) =
  match raised idx with
  | Some e => (idx, str e) :: bulk_errors raised (S idx) n
  | None => bulk_errors raised (S idx) n
  end.
Proof. unfold bulk_errors. simpl. by destruct (raised idx). Qed.

Lemma elem_of_bulk_errors raised n i m :
  (i, m) ∈ bulk_errors raised 0 n ↔ (i < n)%nat ∧ ∃ e, raised i = Some e ∧ m = str e.
Proof.
  unfold bulk_errors. rewrite list_elem_of_omap. split.
  - intros (j & Hj & Hr). apply elem_of_seq in Hj.
    destruct (raised j) as [e|] eqn:He; [|done]. simpl in Hr. injection Hr as <- <-.
    split; [lia|]. by exists e.
  - intros [Hi (e & He & ->)]. exists i. rewrite elem_of_seq, He. split; [lia|done].
Qed.

Lemma bulk_loop_spec {Item} raised e (add : Item → M Z) :
  adds_row e add →
  ∀ items idx created errors s,
  ∃ ids s',
    bulk_loop raised add idx items created errors s =
      (inl (created ++ ids, errors ++ bulk_errors raised idx (length items)), s') ∧
    committed s' = committed s ∧ executed s' = executed s ∧
    books_1 (working s') = books_1 (working s) ∧
    books (working s') = books (working s) ∧
    (length ids + length (bulk_errors raised idx (length items)) = length items)%nat ∧
    (∀ id, id ∈ ids → has_row e id (working s) = false ∧ has_row e id (working s') = true) ∧
    (∀ id', has_row e id' (working s) = true → has_row e id' (working s') = true).
Proof.
  intros Hadd. induction items as [|item items IH]; intros idx created errors s.
  - exists [], s. simpl. rewrite !app_nil_r. split_and!; try done.
    intros id Hid. by apply elem_of_nil in Hid.
  - cbn [bulk_loop length]. rewrite bulk_errors_cons.
    unfold mbind at 1, M_bind at 1. unfold try_except at 1.
    unfold mbind at 1, M_bind at 1. unfold flush at 1.
    destruct (raised idx) as [ex|] eqn:Hr.
    + unfold mret at 1, M_ret at 1.
      destruct (IH (S idx) created (errors ++ [(idx, str ex)]) s)
        as (ids & s' & Hrun & Hc & Hx & H1 & H2 & Hlen & Hids & Hmono).
      exists ids, s'. rewrite Hrun, <- app_assoc. simpl.
      split_and!; try done. lia.
    + destruct (Hadd item s) as (id & s1 & Hrun1 & Hc1 & Hx1 & H11 & H12 & Hf1 & Hs1 & Hm1).
      unfold mbind at 1, M_bind at 1. rewrite Hrun1.
      unfold mret at 1, M_ret at 1.
      destruct (IH (S idx) (created ++ [id]) errors s1)
        as (ids & s' & Hrun & Hc & Hx & H1 & H2 & Hlen & Hids & Hmono).
      exists (id :: ids), s'. rewrite Hrun, <- app_assoc. simpl.
      split_and!; try congruence.
      * intros x [->|Hin]%elem_of_cons.
        { split; [done|]. by apply Hmono. }
        destruct (Hids _ Hin) as [Hno Hyes]. split; [|done].
        destruct (has_row e x (working s)) eqn:Hrow; [|done].
        apply Hm1 in Hrow. congruence.
      * intros id' Hid'. by apply Hmono, Hm1.
Qed.

Lemma bulk_create_run {Item} raised e (add : Item → M Z) name (items : list Item) db :
  adds_row e add →
  match bulk_errors raised 0 (length items) with
  | [] =>
      ∃ ids db',
        run_request (bulk_create raised add name items) db =
          mkOutcome
            (Returned (mkBulkResponse (length ids) ids
                         ("Successfully created " +:+ pretty (length ids)
                            +:+ " " +:+ name +:+ " entities")))
            db' [] ∧
        length ids = length items ∧
        books_1 db' = books_1 db ∧ books db' = books db ∧
        (∀ id, id ∈ ids → has_row e id db = false ∧ has_row e id db' = true)
  | errs =>
      run_request (bulk_create raised add name items) db =
        mkOutcome
          (Failed (exception_handler (HTTPException 400 (DetailBulk "Bulk creation failed" errs))))
          db []
  end.
Proof.
  intros Hadd.
  destruct (bulk_loop_spec raised e add Hadd items 0%nat [] [] (mkSession db db []))
    as (ids & s' & Hrun & Hc & Hx & H1 & H2 & Hlen & Hids & _).
  cbn [working committed executed app] in *.
  destruct (bulk_errors raised 0 (length items)) as [|err errs] eqn:Herrs.
  - exists ids, (working s').
    unfold run_request, bulk_create. unfold mbind at 1, M_bind at 1. rewrite Hrun.
    unfold mbind at 1, M_bind at 1. unfold commit at 1.
    unfold mret, M_ret. cbn [committed executed working response].
    rewrite Hx. simpl in Hlen. split_and!; try done. lia.
  - unfold run_request, bulk_create. unfold mbind at 1, M_bind at 1. rewrite Hrun.
    unfold mbind at 1, M_bind at 1. unfold rollback at 1. unfold raise.
    cbn [committed executed]. by rewrite Hc, Hx.
Qed.

Lemma elem_of_invalid_indices idx raw i :
  i ∈ invalid_indices idx raw ↔
  ∃ k item, i = (idx + k)%nat ∧ raw !! k = Some item ∧ BookCreate.pages item ≤ 10.
Proof.
  revert idx. induction raw as [|x rest IH]; intros idx; simpl.
  - split; [by intros ?%elem_of_nil|]. by intros (k & item & _ & ? & _).
  - case_bool_decide as Hx.
    + rewrite elem_of_cons, IH. split.
      * intros [->|(k & item & -> & Hk & Hp)].
        { exists 0%nat, x. split; [lia|done]. }
        exists (S k), item. split; [lia|done].
      * intros (k & item & -> & Hk & Hp). destruct k as [|k].
        { left. lia. }
        right. exists k, item. split; [lia|done].
    + rewrite IH. split.
      * intros (k & item & -> & Hk & Hp). exists (S k), item. split; [lia|done].
      * intros (k & item & -> & Hk & Hp). destruct k as [|k].
        { simpl in Hk. injection Hk as <-. done. }
        exists k, item. split; [lia|done].
Qed.

Lemma body_list_from_book idx raw :
  body_list_from BookCreate.model_validate idx raw =
  (filter (λ d, BookCreate.pages d > 10) raw, pages_error <$> invalid_indices idx raw).
Proof.
  revert idx. induction raw as [|x rest IH]; intros idx; [done|].
  cbn [body_list_from invalid_indices]. rewrite IH.
  case_bool_decide as Hx.
  - rewrite model_validate_rejects by done.
    rewrite filter_cons_False by lia. done.
  - rewrite model_validate_accepts by lia.
    rewrite filter_cons_True by lia. done.
Qed.

Lemma body_list_from_id {T} (mv : T → T + list (string * Exn)) idx raw :
  (∀ x, mv x = inl x) → body_list_from mv idx raw = (raw, []).
Proof.
  intros Hmv. revert idx. induction raw as [|x rest IH]; intros idx; [done|].
  cbn [body_list_from]. by rewrite IH, Hmv.
Qed.

(** C4. Bulk creation of Books is all-or-nothing.  When an item of the
    body fails validation (pages <= 10), the request is refused, no
    statement is executed, the database is as before, and the errors are
    exactly one error per failing item, under the index of that item in
    the submitted list.  When validation passes and the body of the [try]
    raises for some items, the response is the 400 "Bulk creation failed"
    with exactly one error per raising item under its index, after a
    rollback: the database is as before. *)
Theorem bulk_create_book_all_or_nothing :
  (∀ raised raw db,
     (∃ item, item ∈ raw ∧ BookCreate.pages item ≤ 10) →
     invalid_indices 0 raw ≠ [] ∧
     post_book_bulk raised raw db =
     mkOutcome (RequestValidationError (pages_error <$> invalid_indices 0 raw)) db []) ∧
  (∀ raw i,
     i ∈ invalid_indices 0 raw ↔
     ∃ item, raw !! i = Some item ∧ BookCreate.pages item ≤ 10) ∧
  (∀ raised items db,
     (∃ i e, (i < length items)%nat ∧ raised i = Some e) →
     bulk_errors raised 0 (length items) ≠ [] ∧
     run_request (bulk_create_book raised items) db =
     mkOutcome
       (Failed (mkJSONResponse 400
                  (mkErrorBody "HTTP Error"
                     (DetailBulk "Bulk creation failed"
                        (bulk_errors raised 0 (length items)))
                     "HTTP 400 error occurred")))
       db []) ∧
  (∀ raised n i m,
     (i, m) ∈ bulk_errors raised 0 n ↔ (i < n)%nat ∧ ∃ e, raised i = Some e ∧ m = str e).
Proof.
  split_and!.
  - intros raised raw db (item & Hin & Hp).
    apply list_elem_of_lookup in Hin as [k Hk].
    assert (Hne : invalid_indices 0 raw ≠ []).
    { intros Hnil. assert (Hk' : k ∈ invalid_indices 0 raw).
      { apply elem_of_invalid_indices. by exists k, item. }
      rewrite Hnil in Hk'. by apply elem_of_nil in Hk'. }
    split; [done|].
    unfold post_book_bulk, with_body, body_list. rewrite body_list_from_book.
    destruct (invalid_indices 0 raw); done.
  - intros raw i. rewrite elem_of_invalid_indices. split.
    + intros (k & item & -> & ? & ?). by exists item.
    + intros (item & ? & ?). by exists i, item.
  - intros raised items db (i & e & Hi & He).
    assert (Hne : bulk_errors raised 0 (length items) ≠ []).
    { intros Hnil. assert (Hin : (i, str e) ∈ bulk_errors raised 0 (length items)).
      { apply elem_of_bulk_errors. split; [done|]. by exists e. }
      rewrite Hnil in Hin. by apply elem_of_nil in Hin. }
    split; [done|].
    pose proof (bulk_create_run raised EBook (λ item_data, add_book (Book_of item_data))
                  "Book" items db (adds_row_book _)) as H.
    unfold bulk_create_book.
    destruct (bulk_errors raised 0 (length items)); done.
  - apply elem_of_bulk_errors.
Qed.

Lemma bulk_create_returned {Item} raised e (add : Item → M Z) name (items : list Item) db resp :
  adds_row e add →
  response (run_request (bulk_create raised add name items) db) = Returned resp →
  let o := run_request (bulk_create raised add name items) db in
  statements o = [] ∧
  books_1 (database o) = books_1 db ∧ books (database o) = books db ∧
  created_count resp = length items ∧ length (created_ids resp) = length items ∧
  (∀ id, id ∈ created_ids resp →
     has_row e id db = false ∧ has_row e id (database o) = true).
Proof.
  intros Hadd Hresp o. subst o.
  pose proof (bulk_create_run raised e add name items db Hadd) as H.
  destruct (bulk_errors raised 0 (length items)) as [|err errs].
  - destruct H as (ids & db' & Hrun & Hlen & H1 & H2 & Hids).
    rewrite Hrun in *. cbn [response statements database] in *.
    injection Hresp as <-. cbn [created_count created_ids]. done.
  - rewrite H in Hresp. done.
Qed.

Lemma linked_same_rows r o db db' :
  rows (secondary r) db' = rows (secondary r) db → linked r o db' = linked r o db.
Proof. unfold linked. by intros ->. Qed.

Lemma invalid_indices_nil idx raw :
  invalid_indices idx raw = [] → filter (λ d, BookCreate.pages d > 10) raw = raw.
Proof.
  revert idx. induction raw as [|x rest IH]; intros idx; [done|]. simpl.
  case_bool_decide as Hx; [done|]. intros H.
  rewrite filter_cons_True by lia. f_equal. by eapply IH.
Qed.

Lemma post_book_bulk_returned raised raw db resp :
  response (post_book_bulk raised raw db) = Returned resp →
  post_book_bulk raised raw db = run_request (bulk_create_book raised raw) db.
Proof.
  unfold post_book_bulk, with_body, body_list. rewrite body_list_from_book.
  destruct (invalid_indices 0 raw) eqn:Hinv; [|done].
  by rewrite (invalid_indices_nil 0 raw Hinv).
Qed.

Lemma post_author_bulk_run raised raw db :
  post_author_bulk raised raw db = run_request (bulk_create_author raised raw) db.
Proof.
  unfold post_author_bulk, with_body, body_list. by rewrite body_list_from_id.
Qed.

Lemma post_library_bulk_run raised raw db :
  post_library_bulk raised raw db = run_request (bulk_create_library raised raw) db.
Proof.
  unfold post_library_bulk, with_body, body_list. by rewrite body_list_from_id.
Qed.

(** What a bulk creation stores, for any of the three tables: [tbl] is
    the entity table, [val] the row built from an item. *)
Section BulkStored.
Context {Item V : Type}.
Variable raised : nat → option Exn.
Variable tbl : Database → gmap Z V.
Variable add : Item → M Z.
Variable val : Item → V.
Hypothesis add_stores : ∀ item s, ∃ s',
  add item s = (inl (next_id (tbl (working s))), s') ∧
  tbl (working s') = <[next_id (tbl (working s)) := val item]> (tbl (working s)).

Lemma bulk_loop_stored items :
  ∀ idx created errors s,
  ∃ ids errs s',
    bulk_loop raised add idx items created errors s
      = (inl (created ++ ids, errors ++ errs), s') ∧
    (errs = [] →
       Forall2 (λ id item, tbl (working s') !! id = Some (val item)) ids items ∧
       NoDup ids ∧
       (∀ id, id ∈ ids → tbl (working s) !! id = None) ∧
       (∀ id v, tbl (working s) !! id = Some v → tbl (working s') !! id = Some v)).
Proof.
  induction items as [|item items IH]; intros idx created errors s.
  - exists [], [], s. simpl. rewrite !app_nil_r. split; [done|]. intros _.
    split_and!; try done; [constructor|by intros ? ?%elem_of_nil].
  - cbn [bulk_loop]. unfold mbind at 1, M_bind at 1. unfold try_except at 1.
    unfold mbind at 1, M_bind at 1. unfold flush at 1.
    destruct (raised idx) as [e|].
    + unfold mret at 1, M_ret at 1.
      destruct (IH (S idx) created (errors ++ [(idx, str e)]) s)
        as (ids & errs & s' & Hrun & _).
      exists ids, ((idx, str e) :: errs), s'. rewrite Hrun, <- app_assoc.
      split; [done|]. intros [=].
    + unfold mbind at 1, M_bind at 1.
      destruct (add_stores item s) as (s1 & Hadd & Htbl). rewrite Hadd.
      unfold mret at 1, M_ret at 1.
      set (nid := next_id (tbl (working s))) in *.
      destruct (IH (S idx) (created ++ [nid]) errors s1)
        as (ids & errs & s' & Hrun & Hok).
      exists (nid :: ids), errs, s'. rewrite Hrun, <- app_assoc.
      split; [done|]. intros Herrs.
      destruct (Hok Herrs) as (Hall & Hnd & Hfresh & Hkeep).
      assert (Hnew : tbl (working s1) !! nid = Some (val item))
        by (rewrite Htbl; apply lookup_insert_eq).
      assert (Hnotin : nid ∉ ids).
      { intros Hin. apply Hfresh in Hin. congruence. }
      split_and!.
      * constructor; [|done]. by apply Hkeep.
      * by apply NoDup_cons.
      * intros id [->|Hin]%elem_of_cons; [apply next_id_fresh|].
        apply Hfresh in Hin. rewrite Htbl in Hin.
        destruct (decide (nid = id)) as [->|Hne]; [by rewrite lookup_insert_eq in Hin|].
        by rewrite lookup_insert_ne in Hin.
      * intros id v Hv. apply Hkeep. rewrite Htbl.
        rewrite lookup_insert_ne; [done|]. intros <-. unfold nid in Hv.
        by rewrite next_id_fresh in Hv.
Qed.

Lemma bulk_create_stored name items db resp :
  response (run_request (bulk_create raised add name items) db) = Returned resp →
  let o := run_request (bulk_create raised add name items) db in
  NoDup (created_ids resp) ∧
  Forall2 (λ id item, tbl db !! id = None ∧ tbl (database o) !! id = Some (val item))
    (created_ids resp) items.
Proof.
  intros Hresp o. subst o. revert Hresp.
  destruct (bulk_loop_stored items 0%nat [] [] (mkSession db db []))
    as (ids & errs & s' & Hrun & Hok).
  cbn [working app] in *.
  unfold run_request, bulk_create, mbind, M_bind. rewrite Hrun.
  destruct errs as [|err errs].
  - destruct (Hok eq_refl) as (Hall & Hnd & Hfresh & _).
    unfold commit, mret, M_ret. cbn [response database committed].
    intros [= <-]. cbn [created_ids]. split; [done|].
    apply Forall2_same_length_lookup. split; [by eapply Forall2_length|].
    intros i id item Hid Hitem. split.
    + apply Hfresh. by eapply list_elem_of_lookup_2.
    + exact (Forall2_lookup_lr _ _ _ _ _ _ Hall Hid Hitem).
  - unfold rollback, raise. done.
Qed.
End BulkStored.

Lemma add_book_stores {Item} (f : Item → Book.t) item s :
  ∃ s', add_book (f item) s = (inl (next_id (book (working s))), s') ∧
        book (working s') = <[next_id (book (working s)) := f item]> (book (working s)).
Proof. by eexists. Qed.

Lemma add_author_stores {Item} (f : Item → Author.t) item s :
  ∃ s', add_author (f item) s = (inl (next_id (author (working s))), s') ∧
        author (working s') = <[next_id (author (working s)) := f item]> (author (working s)).
Proof. by eexists. Qed.

Lemma add_library_stores {Item} (f : Item → Library.t) item s :
  ∃ s', add_library (f item) s = (inl (next_id (library (working s))), s') ∧
        library (working s')
        = <[next_id (library (working s)) := f item]> (library (working s)).
Proof. by eexists. Qed.

(** C9. Bulk creation never reads the relation id lists of its items: an
    accepted bulk request stores every item, under the ids it returns (one
    per item, in the order of submission, none of them in use before and
    none returned twice), executes no statement on the association tables
    and leaves both as they are, whatever ids were submitted; so, in a
    database whose association rows name stored rows only, no created
    entity has a linked id.  [bulk_create_author] makes no
    at-least-one-book check: when no [try] body raises it is accepted for
    every list of items, those with an empty [books] list included, and
    stores an Author for each. *)
Theorem bulk_create_ignores_relations :
  (∀ raised raw db resp,
     response (post_book_bulk raised raw db) = Returned resp →
     let o := post_book_bulk raised raw db in
     statements o = [] ∧
     books_1 (database o) = books_1 db ∧ books (database o) = books db ∧
     created_count resp = length raw ∧
     NoDup (created_ids resp) ∧
     Forall2 (λ id item,
                book db !! id = None ∧ book (database o) !! id = Some (Book_of item))
       (created_ids resp) raw ∧
     (∀ id, id ∈ created_ids resp →
        has_row EBook id (database o) = true ∧
        (fk_ok db = true →
           linked Book_authors id (database o) = [] ∧
           linked Book_library id (database o) = []))) ∧
  (∀ raised raw db resp,
     response (post_author_bulk raised raw db) = Returned resp →
     let o := post_author_bulk raised raw db in
     statements o = [] ∧
     books_1 (database o) = books_1 db ∧ books (database o) = books db ∧
     created_count resp = length raw ∧
     NoDup (created_ids resp) ∧
     Forall2 (λ id item,
                author db !! id = None ∧
                author (database o) !! id = Some (Author.mk (AuthorCreate.name item)))
       (created_ids resp) raw ∧
     (∀ id, id ∈ created_ids resp →
        has_row EAuthor id (database o) = true ∧
        (fk_ok db = true → linked Author_books id (database o) = []))) ∧
  (∀ raised raw db resp,
     response (post_library_bulk raised raw db) = Returned resp →
     let o := post_library_bulk raised raw db in
     statements o = [] ∧
     books_1 (database o) = books_1 db ∧ books (database o) = books db ∧
     created_count resp = length raw ∧
     NoDup (created_ids resp) ∧
     Forall2 (λ id item,
                library db !! id = None ∧
                library (database o) !! id = Some (Library.mk (LibraryCreate.name item)))
       (created_ids resp) raw ∧
     (∀ id, id ∈ created_ids resp →
        has_row ELibrary id (database o) = true ∧
        (fk_ok db = true → linked Library_books id (database o) = []))) ∧
  (∀ raised raw db,
     (∀ i, raised i = None) →
     ∃ resp,
       response (post_author_bulk raised raw db) = Returned resp ∧
       created_count resp = length raw ∧
       Forall2 (λ id item,
                  author (database (post_author_bulk raised raw db)) !! id
                  = Some (Author.mk (AuthorCreate.name item)))
         (created_ids resp) raw).
Proof.
  split_and!.
  - intros raised raw db resp Hresp o. subst o.
    pose proof (post_book_bulk_returned _ _ _ _ Hresp) as Heq. rewrite Heq in *.
    clear Heq. unfold bulk_create_book in *.
    destruct (bulk_create_returned raised EBook _ "Book" raw db resp (adds_row_book _) Hresp)
      as (Hst & H1 & H2 & Hcount & _ & Hids).
    destruct (bulk_create_stored raised book _ Book_of (add_book_stores Book_of)
                "Book" raw db resp Hresp) as [Hnd Hall].
    split_and!; try done. intros id Hid. destruct (Hids id Hid) as [Hno Hyes].
    split; [done|]. intros Hfk. split.
    + rewrite (linked_same_rows Book_authors id db) by done.
      apply (linked_missing db EBook); [done| |done]. simpl. left.
    + rewrite (linked_same_rows Book_library id db) by done.
      apply (linked_missing db EBook); [done| |done]. simpl. right. left.
  - intros raised raw db resp Hresp o. subst o.
    rewrite post_author_bulk_run in *. unfold bulk_create_author in *.
    destruct (bulk_create_returned raised EAuthor _ "Author" raw db resp (adds_row_author _) Hresp)
      as (Hst & H1 & H2 & Hcount & _ & Hids).
    destruct (bulk_create_stored raised author _ (λ item, Author.mk (AuthorCreate.name item))
                (add_author_stores _) "Author" raw db resp Hresp) as [Hnd Hall].
    split_and!; try done. intros id Hid. destruct (Hids id Hid) as [Hno Hyes].
    split; [done|]. intros Hfk.
    rewrite (linked_same_rows Author_books id db) by done.
    apply (linked_missing db EAuthor); [done| |done]. simpl. left.
  - intros raised raw db resp Hresp o. subst o.
    rewrite post_library_bulk_run in *. unfold bulk_create_library in *.
    destruct (bulk_create_returned raised ELibrary _ "Library" raw db resp
                (adds_row_library _) Hresp)
      as (Hst & H1 & H2 & Hcount & _ & Hids).
    destruct (bulk_create_stored raised library _
                (λ item, Library.mk (LibraryCreate.name item))
                (add_library_stores _) "Library" raw db resp Hresp) as [Hnd Hall].
    split_and!; try done. intros id Hid. destruct (Hids id Hid) as [Hno Hyes].
    split; [done|]. intros Hfk.
    rewrite (linked_same_rows Library_books id db) by done.
    apply (linked_missing db ELibrary); [done| |done]. simpl. left.
  - intros raised raw db Hnone. rewrite post_author_bulk_run.
    pose proof (bulk_create_run raised EAuthor
                  (λ item_data, add_author (Author.mk (AuthorCreate.name item_data)))
                  "Author" raw db (adds_row_author _)) as H.
    destruct (bulk_errors raised 0 (length raw)) as [|[i m] errs] eqn:Herrs.
    + destruct H as (ids & db' & Hrun & Hlen & _).
      assert (Hresp : response (run_request (bulk_create_author raised raw) db)
                      = Returned (mkBulkResponse (length ids) ids
                                    ("Successfully created " +:+ pretty (length ids)
                                       +:+ " " +:+ "Author" +:+ " entities")))
        by (unfold bulk_create_author; by rewrite Hrun).
      eexists. split; [exact Hresp|]. split; [done|].
      destruct (bulk_create_stored raised author _
                  (λ item, Author.mk (AuthorCreate.name item))
                  (add_author_stores _) "Author" raw db _ Hresp) as [_ Hall].
      cbn [created_ids] in *. eapply Forall2_impl; [exact Hall|]. by intros ? ? [_ ?].
    + assert (Hin : (i, m) ∈ bulk_errors raised 0 (length raw)) by (rewrite Herrs; left).
      apply elem_of_bulk_errors in Hin as (_ & e & He & _). by rewrite Hnone in He.
Qed.

Lemma bulk_create_book_all_or_nothing_witness :
  post_book_bulk (λ _, None)
    [sample_payload 20 [1] [1]; sample_payload 5 [] []; sample_payload 30 [] []] sample_db
  = mkOutcome (RequestValidationError [pages_error 1]) sample_db [].
Proof.
  apply (proj1 bulk_create_book_all_or_nothing (λ _, None)
           [sample_payload 20 [1] [1]; sample_payload 5 [] []; sample_payload 30 [] []]
           sample_db).
  exists (sample_payload 5 [] []). split; [|done]. right. left.
Defined.

Lemma bulk_create_ignores_relations_witness :
  ∃ resp,
    response (post_author_bulk (λ _, None)
                [AuthorCreate.mk "N" []; AuthorCreate.mk "M" [1; 99]] sample_db)
    = Returned resp ∧
    created_count resp = 2%nat ∧
    Forall2 (λ id item,
               author (database (post_author_bulk (λ _, None)
                                   [AuthorCreate.mk "N" []; AuthorCreate.mk "M" [1; 99]]
                                   sample_db)) !! id
               = Some (Author.mk (AuthorCreate.name item)))
      (created_ids resp) [AuthorCreate.mk "N" []; AuthorCreate.mk "M" [1; 99]].
Proof.
  apply (proj2 (proj2 (proj2 bulk_create_ignores_relations)) (λ _, None)
           [AuthorCreate.mk "N" []; AuthorCreate.mk "M" [1; 99]] sample_db).
  reflexivity.
Defined.

(** ** Removing a link *)

Lemma remove_link_run r owner_name other_name relation o x db :
  run_request (remove_link r owner_name other_name relation o x) db =
  if negb (has_row (owner r) o db) then
    mkOutcome (Failed (http_error 404 (owner_name +:+ " not found"))) db []
  else if negb (bool_decide (mk_row r o x ∈ rows (secondary r) db)) then
    mkOutcome (Failed (http_error 404 "Relationship not found")) db []
  else
    mkOutcome (Returned (other_name +:+ " removed from " +:+ relation +:+ " successfully"))
      (set_rows (secondary r) (filter (λ row, row ≠ mk_row r o x) (rows (secondary r) db)) db)
      [StDelete (secondary r) (mk_row r o x)].
Proof.
  unfold run_request, remove_link.
  unfold mbind at 1, M_bind at 1. unfold query_exists at 1. cbn [working].
  destruct (has_row (owner r) o db); [|done]. cbn [negb].
  unfold mbind at 1, M_bind at 1. unfold query_link at 1. cbn [working].
  destruct (bool_decide (mk_row r o x ∈ rows (secondary r) db)); done.
Qed.

Lemma filter_ne_absent (row : Z * Z) (rs : list (Z * Z)) :
  row ∉ rs → filter (λ x, x ≠ row) rs = rs.
Proof.
  induction rs as [|y rs IH]; [done|]. intros [Hne Hrs]%not_elem_of_cons.
  rewrite filter_cons_True by done. by rewrite IH.
Qed.

(** X1. Removing a link: when the pair is not stored the request fails
    with a 404 (the owner's "... not found", else "Relationship not
    found"), executes nothing and leaves the database as it is; when the
    owner and the pair are stored it executes one DELETE, after which the
    pair is gone and every other row of both association tables is as
    before. *)
Theorem remove_link_spec r owner_name other_name relation o x db :
  let out := run_request (remove_link r owner_name other_name relation o x) db in
  (mk_row r o x ∉ rows (secondary r) db →
     database out = db ∧ statements out = [] ∧
     response out =
       Failed (http_error 404 (if has_row (owner r) o db then "Relationship not found"
                               else owner_name +:+ " not found"))) ∧
  (has_row (owner r) o db = true → mk_row r o x ∈ rows (secondary r) db →
     (∃ msg, response out = Returned msg) ∧
     statements out = [StDelete (secondary r) (mk_row r o x)] ∧
     book (database out) = book db ∧ author (database out) = author db ∧
     library (database out) = library db ∧
     (∀ t row, row ∈ rows t (database out) ↔
        row ∈ rows t db ∧ ¬ (t = secondary r ∧ row = mk_row r o x))).
Proof.
  intros out. subst out. rewrite remove_link_run. split.
  - intros Hno. destruct (has_row (owner r) o db); [|done]. cbn [negb].
    by rewrite bool_decide_eq_false_2.
  - intros Ho Hin. rewrite Ho. cbn [negb]. rewrite bool_decide_eq_true_2 by done.
    cbn [negb response statements database].
    split; [by eexists|]. split; [done|].
    split; [by destruct (secondary r)|]. split; [by destruct (secondary r)|].
    split; [by destruct (secondary r)|].
    intros t row.
    assert (t = secondary r ∨ t ≠ secondary r) as [->|Hne]
      by (destruct t, (secondary r); auto).
    + rewrite rows_set_rows, list_elem_of_filter. intuition congruence.
    + rewrite rows_set_rows_ne by done. intuition congruence.
Qed.

Lemma remove_link_spec_witness :
  ∃ msg, response (run_request (remove_authors_from_book 1 2) sample_db) = Returned msg.
Proof.
  apply (proj2 (remove_link_spec Book_authors "Book" "Author" "authors" 1 2 sample_db)).
  - reflexivity.
  - right. left.
Defined.

(** X2. Removing the same link twice: after an accepted removal the same
    request fails with 404 "Relationship not found" and changes nothing. *)
Theorem remove_link_twice r owner_name other_name relation o x db msg :
  response (run_request (remove_link r owner_name other_name relation o x) db)
    = Returned msg →
  let db1 := database (run_request (remove_link r owner_name other_name relation o x) db) in
  run_request (remove_link r owner_name other_name relation o x) db1 =
  mkOutcome (Failed (http_error 404 "Relationship not found")) db1 [].
Proof.
  rewrite !remove_link_run.
  destruct (has_row (owner r) o db) eqn:Ho; [|done]. cbn [negb].
  destruct (bool_decide (mk_row r o x ∈ rows (secondary r) db)); [|done].
  cbn [negb database]. intros _. rewrite remove_link_run, has_row_set_rows, Ho. cbn [negb].
  rewrite rows_set_rows. rewrite bool_decide_eq_false_2; [done|].
  rewrite list_elem_of_filter. tauto.
Qed.

Lemma remove_link_twice_witness :
  run_request (remove_authors_from_book 1 2)
    (database (run_request (remove_authors_from_book 1 2) sample_db))
  = mkOutcome (Failed (http_error 404 "Relationship not found"))
      (database (run_request (remove_authors_from_book 1 2) sample_db)) [].
Proof.
  apply (remove_link_twice Book_authors "Book" "Author" "authors" 1 2 sample_db
           "Author removed from authors successfully").
  reflexivity.
Defined.

(** X3. Adding a link and removing it again is a round trip: when the add
    is accepted, the removal is accepted too and the database is the one
    before the add. *)
Theorem add_then_remove_link r owner_name other_name relation o x db msg :
  response (run_request (add_link r owner_name other_name relation o x) db) = Returned msg →
  let db1 := database (run_request (add_link r owner_name other_name relation o x) db) in
  (∃ msg', response (run_request (remove_link r owner_name other_name relation o x) db1)
           = Returned msg') ∧
  database (run_request (remove_link r owner_name other_name relation o x) db1) = db.
Proof.
  rewrite add_link_run.
  destruct (has_row (owner r) o db) eqn:Ho; [|done]. cbn [negb].
  destruct (has_row (target r) x db) eqn:Hx; [|done]. cbn [negb].
  destruct (bool_decide (mk_row r o x ∈ rows (secondary r) db)) eqn:Hin; [done|].
  apply bool_decide_eq_false in Hin.
  intros _. cbn [database]. unfold link_rows.
  change (mk_row r o <$> [x]) with [mk_row r o x]. rewrite remove_link_run.
  rewrite has_row_set_rows, Ho. cbn [negb]. rewrite rows_set_rows.
  rewrite bool_decide_eq_true_2
    by (rewrite elem_of_app, list_elem_of_singleton; by right).
  cbn [negb response database]. split; [by eexists|].
  rewrite set_rows_set_rows, filter_app, filter_ne_absent by done.
  rewrite filter_cons_False by tauto.
  rewrite filter_nil, app_nil_r. apply set_rows_id.
Qed.

Lemma add_then_remove_link_witness :
  database (run_request (remove_authors_from_book 1 3)
              (database (run_request (add_authors_to_book 1 3) sample_db)))
  = sample_db.
Proof.
  apply (add_then_remove_link Book_authors "Book" "Author" "authors" 1 3 sample_db
           "Author added to authors successfully").
  reflexivity.
Defined.

(** X4. A Book-Author link can be made from either side: for every
    database [add_authors_to_book b a] and [add_books_to_author a b] are
    accepted in the same cases, execute the same statements and end in the
    same database; likewise [add_library_to_book] and
    [add_books_to_library]. *)
Theorem add_link_either_side b x db :
  (database (run_request (add_authors_to_book b x) db)
     = database (run_request (add_books_to_author x b) db) ∧
   statements (run_request (add_authors_to_book b x) db)
     = statements (run_request (add_books_to_author x b) db) ∧
   ((∃ m, response (run_request (add_authors_to_book b x) db) = Returned m) ↔
    (∃ m, response (run_request (add_books_to_author x b) db) = Returned m))) ∧
  (database (run_request (add_library_to_book b x) db)
     = database (run_request (add_books_to_library x b) db) ∧
   statements (run_request (add_library_to_book b x) db)
     = statements (run_request (add_books_to_library x b) db) ∧
   ((∃ m, response (run_request (add_library_to_book b x) db) = Returned m) ↔
    (∃ m, response (run_request (add_books_to_library x b) db) = Returned m))).
Proof.
  unfold add_authors_to_book, add_books_to_author, add_library_to_book, add_books_to_library.
  rewrite !add_link_run.
  cbn [owner target secondary Book_authors Author_books Book_library Library_books].
  split.
  - change (mk_row Author_books x b) with (mk_row Book_authors b x).
    destruct (has_row EBook b db), (has_row EAuthor x db); cbn [negb];
      try (split_and!; [done|done|split; intros [? [=]]]).
    destruct (bool_decide _); cbn [response database statements];
      split_and!; try done; split; intros [? ?]; try done; by eexists.
  - change (mk_row Library_books x b) with (mk_row Book_library b x).
    destruct (has_row EBook b db), (has_row ELibrary x db); cbn [negb];
      try (split_and!; [done|done|split; intros [? [=]]]).
    destruct (bool_decide _); cbn [response database statements];
      split_and!; try done; split; intros [? ?]; try done; by eexists.
Qed.

(** ** Reading *)

Global Instance id_le_total {V} : Total (@id_le V).
Proof. intros x y. unfold id_le. lia. Qed.

Global Instance id_le_trans {V} : Transitive (@id_le V).
Proof. intros x y z. unfold id_le. lia. Qed.

Lemma table_rows_Permutation {V} (tbl : gmap Z V) : table_rows tbl ≡ₚ map_to_list tbl.
Proof. apply merge_sort_Permutation. Qed.

Lemma elem_of_table_rows {V} (tbl : gmap Z V) id v :
  (id, v) ∈ table_rows tbl ↔ tbl !! id = Some v.
Proof. by rewrite table_rows_Permutation, elem_of_map_to_list. Qed.

Lemma length_table_rows {V} (tbl : gmap Z V) : length (table_rows tbl) = size tbl.
Proof. by rewrite table_rows_Permutation, length_map_to_list. Qed.

Lemma NoDup_table_rows {V} (tbl : gmap Z V) : NoDup (table_rows tbl).
Proof. rewrite table_rows_Permutation. apply NoDup_map_to_list. Qed.

Lemma ascending_ids {V} (l : list (Z * V)) :
  StronglySorted id_le l → NoDup l.*1 → StronglySorted (λ x y, x.1 < y.1) l.
Proof.
  induction 1 as [|x l Hl IH Hx]; intros Hnd; constructor.
  - apply IH. by apply NoDup_cons in Hnd as [_ ?].
  - apply NoDup_cons in Hnd as [Hnotin _].
    rewrite Forall_forall in Hx. apply Forall_forall. intros y Hy.
    pose proof (Hx y Hy) as Hle. unfold id_le in Hle.
    assert (x.1 ≠ y.1); [|lia].
    intros Heq. apply Hnotin. rewrite Heq. apply list_elem_of_fmap. by exists y.
Qed.

Lemma table_rows_ascending {V} (tbl : gmap Z V) :
  StronglySorted (λ x y, x.1 < y.1) (table_rows tbl).
Proof.
  apply ascending_ids.
  - apply (StronglySorted_merge_sort id_le).
  - rewrite table_rows_Permutation. apply NoDup_fst_map_to_list.
Qed.

Lemma elem_of_offset_limit {A} skip limit (l : list A) x :
  x ∈ offset_limit skip limit l → x ∈ l.
Proof.
  unfold offset_limit. intros Hin. destruct (bool_decide _).
  - by apply subseteq_drop in Hin.
  - apply elem_of_take in Hin as (i & Hi & _).
    eapply subseteq_drop, list_elem_of_lookup. by exists i.
Qed.

Lemma get_book_run book_id db :
  run_request (get_book book_id) db =
  mkOutcome
    (match book db !! book_id with
     | Some b => Returned (book_view db (book_id, b))
     | None => Failed (http_error 404 "Book not found")
     end) db [].
Proof.
  unfold run_request, get_book. unfold mbind at 1, M_bind at 1.
  unfold query_book at 1. cbn [working]. by destruct (book db !! book_id).
Qed.

Lemma map_M_book_response rows s :
  map_M book_response rows s = (inl (book_view (working s) <$> rows), s).
Proof.
  induction rows as [|row rows IH]; [done|].
  cbn [map_M]. unfold mbind at 1, M_bind at 1.
  unfold book_response at 1, mbind at 1, M_bind at 1, select_linked at 1.
  unfold mbind at 1, M_bind at 1, select_linked at 1. unfold mret at 1, M_ret at 1.
  unfold mbind at 1, M_bind at 1. by rewrite IH.
Qed.

Lemma get_paginated_book_run skip limit detailed db :
  run_request (get_paginated_book skip limit detailed) db =
  mkOutcome
    (Returned (mkPage (size (book db)) skip limit
                 (let rows := offset_limit skip limit (table_rows (book db)) in
                  if detailed then Detailed (book_view db <$> rows) else Flat rows)))
    db [].
Proof.
  unfold run_request, get_paginated_book.
  unfold mbind at 1, M_bind at 1, query_count_book at 1.
  unfold mbind at 1, M_bind at 1, query_page_book at 1. cbn [working].
  destruct detailed; [|done]. cbn [negb].
  unfold mbind at 1, M_bind at 1. by rewrite map_M_book_response.
Qed.

Lemma length_offset_limit {A} skip limit (l : list A) :
  0 ≤ limit → (length (offset_limit skip limit l) ≤ Z.to_nat limit)%nat.
Proof.
  intros H. unfold offset_limit. rewrite bool_decide_eq_false_2 by lia.
  rewrite length_take. lia.
Qed.

Lemma offset_limit_past_end {A} skip limit (l : list A) :
  Z.of_nat (length l) ≤ skip → offset_limit skip limit l = [].
Proof.
  intros H. unfold offset_limit. rewrite drop_ge by lia.
  destruct (bool_decide _); [done|]. by rewrite take_nil.
Qed.

Lemma offset_limit_next {A} skip l1 l2 (l : list A) :
  0 ≤ skip → 0 ≤ l1 → 0 ≤ l2 →
  offset_limit skip l1 l ++ offset_limit (skip + l1) l2 l = offset_limit skip (l1 + l2) l.
Proof.
  intros Hs H1 H2. unfold offset_limit.
  rewrite !bool_decide_eq_false_2 by lia.
  rewrite Z2Nat.inj_add by lia. rewrite <- drop_drop.
  rewrite Z2Nat.inj_add by lia. apply take_take_drop.
Qed.

Lemma page_rows_book_view db rows : page_rows (Detailed (book_view db <$> rows)) = rows.
Proof.
  cbn [page_rows]. rewrite <- list_fmap_compose.
  induction rows as [|row rows IH]; [done|]. rewrite fmap_cons. by rewrite IH.
Qed.

Lemma get_paginated_book_rows skip limit detailed db :
  ∃ page,
    run_request (get_paginated_book skip limit detailed) db
      = mkOutcome (Returned page) db [] ∧
    total page = size (book db) ∧
    page_rows (data page) = offset_limit skip limit (table_rows (book db)).
Proof.
  set (rows := offset_limit skip limit (table_rows (book db))).
  exists (mkPage (size (book db)) skip limit
            (if detailed then Detailed (book_view db <$> rows) else Flat rows)).
  rewrite get_paginated_book_run. split; [done|]. cbn [total data]. split; [done|].
  destruct detailed; [apply page_rows_book_view|done].
Qed.

(** X5. A page of Books: the request always answers, reads only, and
    reports the size of the whole table as [total] whatever [skip] and
    [limit] are.  The page is cut, by [skip] and [limit], from the listing
    of the table, which holds exactly the stored rows by strictly
    ascending id; with a non-negative [limit] the page has at most [limit]
    rows; a [skip] at or past the end of the table gives an empty page, not
    an error; the detailed page has the same rows as the flat one, and
    every row of a page is a stored row. *)
Theorem get_paginated_book_page skip limit detailed db :
  ∃ page,
    run_request (get_paginated_book skip limit detailed) db
      = mkOutcome (Returned page) db [] ∧
    total page = size (book db) ∧
    page_rows (data page) = offset_limit skip limit (table_rows (book db)) ∧
    (∀ row, row ∈ table_rows (book db) ↔ book db !! row.1 = Some row.2) ∧
    StronglySorted (λ x y, x.1 < y.1) (table_rows (book db)) ∧
    (0 ≤ limit → Z.of_nat (length (page_rows (data page))) ≤ limit) ∧
    (Z.of_nat (size (book db)) ≤ skip → page_rows (data page) = []) ∧
    (∀ row, row ∈ page_rows (data page) → book db !! row.1 = Some row.2).
Proof.
  destruct (get_paginated_book_rows skip limit detailed db) as (page & Hrun & Htotal & Hrows).
  exists page. rewrite Hrows. split_and!; try done.
  - intros [id b]. apply elem_of_table_rows.
  - apply table_rows_ascending.
  - intros H. pose proof (length_offset_limit skip limit (table_rows (book db)) H). lia.
  - intros H. apply offset_limit_past_end. by rewrite length_table_rows.
  - intros [id b] Hin%elem_of_offset_limit. by apply elem_of_table_rows.
Qed.

(** X6. Pages tile the listing: with non-negative [skip] and limits, the
    rows of the page at [skip] with limit [l1] followed by the rows of the
    page at [skip + l1] with limit [l2] are the rows of the page at [skip]
    with limit [l1 + l2]. *)
Theorem get_paginated_book_next skip l1 l2 detailed db :
  0 ≤ skip → 0 ≤ l1 → 0 ≤ l2 →
  ∃ p1 p2 p,
    response (run_request (get_paginated_book skip l1 detailed) db) = Returned p1 ∧
    response (run_request (get_paginated_book (skip + l1) l2 detailed) db) = Returned p2 ∧
    response (run_request (get_paginated_book skip (l1 + l2) detailed) db) = Returned p ∧
    page_rows (data p1) ++ page_rows (data p2) = page_rows (data p).
Proof.
  intros Hs H1 H2.
  destruct (get_paginated_book_rows skip l1 detailed db) as (p1 & Hr1 & _ & Hp1).
  destruct (get_paginated_book_rows (skip + l1) l2 detailed db) as (p2 & Hr2 & _ & Hp2).
  destruct (get_paginated_book_rows skip (l1 + l2) detailed db) as (p & Hr & _ & Hp).
  exists p1, p2, p. rewrite Hr1, Hr2, Hr, Hp1, Hp2, Hp. split_and!; try done.
  by apply offset_limit_next.
Qed.

Lemma get_paginated_book_next_witness :
  ∃ p1 p2 p,
    response (run_request (get_paginated_book 0 1 true) sample_db) = Returned p1 ∧
    response (run_request (get_paginated_book (0 + 1) 1 true) sample_db) = Returned p2 ∧
    response (run_request (get_paginated_book 0 (1 + 1) true) sample_db) = Returned p ∧
    page_rows (data p1) ++ page_rows (data p2) = page_rows (data p).
Proof. apply (get_paginated_book_next 0 1 1 true sample_db); lia. Defined.

(** X7. The items of a detailed page are the answers of [get_book]: for
    every item of the page, [get_book] on the item's id returns that item. *)
Theorem get_paginated_book_detailed skip limit db :
  ∃ items total,
    response (run_request (get_paginated_book skip limit true) db)
      = Returned (mkPage total skip limit (Detailed items)) ∧
    ∀ item, item ∈ items →
      run_request (get_book (BookResponse.book item).1) db
        = mkOutcome (Returned item) db [].
Proof.
  eexists _, _. rewrite get_paginated_book_run. split; [done|].
  intros item (row & -> & Hin)%list_elem_of_fmap. rewrite get_book_run.
  apply elem_of_offset_limit in Hin as Hrow.
  destruct row as [id b]. apply elem_of_table_rows in Hrow.
  cbn [BookResponse.book book_view fst]. by rewrite Hrow.
Qed.

(** ** Creation, in general *)

Lemma link_rows_nil r o db : link_rows r o [] db = db.
Proof. unfold link_rows. cbn [fmap list_fmap]. by rewrite app_nil_r, set_rows_id. Qed.

Lemma link_rows_cons r o id ids db :
  link_rows r o ids (link_rows r o [id] db) = link_rows r o (id :: ids) db.
Proof.
  unfold link_rows. rewrite rows_set_rows, set_rows_set_rows.
  by rewrite <- app_assoc.
Qed.

Lemma link_all_spec r o ids db st :
  match link_all r o ids (mkSession db db st) with
  | (inl _, s') =>
      s' = mkSession (link_rows r o ids db) (link_rows r o ids db)
             (st ++ ((StInsert (secondary r) ∘ mk_row r o) <$> ids)) ∧
      NoDup ids ∧
      (∀ id, id ∈ ids →
         (mk_row r o id ∉ rows (secondary r) db) ∧ has_row (target r) id db = true)
  | (inr e, s') =>
      ∃ pre x post, ids = pre ++ x :: post ∧ committed s' = link_rows r o pre db
  end.
Proof.
  unfold link_all. revert db st. induction ids as [|id ids IH]; intros db st.
  - simpl. rewrite link_rows_nil, app_nil_r. split_and!; [done|constructor|].
    by intros id ?%elem_of_nil.
  - cbn [for_each]. unfold mbind at 1, M_bind at 1.
    unfold mbind at 1, M_bind at 1. unfold query_exists at 1. cbn [working].
    destruct (has_row (target r) id db) eqn:Hrow; cbn [negb].
    2:{ exists [], id, ids. split; [done|]. by rewrite link_rows_nil. }
    unfold mbind at 1, M_bind at 1. unfold execute_insert at 1. cbn [working committed executed].
    destruct (bool_decide (mk_row r o id ∈ rows (secondary r) db)) eqn:Hin.
    { exists [], id, ids. split; [done|]. by rewrite link_rows_nil. }
    apply bool_decide_eq_false in Hin.
    unfold commit at 1. cbn [working committed executed].
    fold (link_rows r o [id] db).
    change (set_rows (secondary r) (rows (secondary r) db ++ [mk_row r o id]) db)
      with (link_rows r o [id] db).
    specialize (IH (link_rows r o [id] db) (st ++ [StInsert (secondary r) (mk_row r o id)])).
    destruct (for_each ids _ _) as [[[]|e] s'].
    + destruct IH as (-> & Hnd & Hids). rewrite link_rows_cons, <- app_assoc.
      split; [done|]. split.
      * apply NoDup_cons. split; [|done]. intros Hid. destruct (Hids id Hid) as [Hno _].
        apply Hno. unfold link_rows. rewrite rows_set_rows. cbn [fmap list_fmap].
        rewrite elem_of_app, list_elem_of_singleton. by right.
      * intros x [->|Hx]%elem_of_cons; [done|]. destruct (Hids x Hx) as [Hno Hyes].
        split.
        { intros Hin'. apply Hno. unfold link_rows.
          rewrite rows_set_rows, elem_of_app. by left. }
        unfold link_rows in Hyes. by rewrite has_row_set_rows in Hyes.
    + destruct IH as (pre & x & post & -> & Hc).
      exists (id :: pre), x, post. split; [done|]. by rewrite Hc, link_rows_cons.
Qed.

Lemma create_book_session d db :
  let id := next_id (book db) in
  match create_book d (mkSession db db []) with
  | (inl resp, s') =>
      forallb (λ a, has_row EAuthor a db) (BookCreate.authors d) = true ∧
      forallb (λ l, has_row ELibrary l db) (BookCreate.library d) = true ∧
      NoDup (BookCreate.authors d) ∧ NoDup (BookCreate.library d) ∧
      (∀ a, a ∈ BookCreate.authors d → (a, id) ∉ books_1 db) ∧
      (∀ l, l ∈ BookCreate.library d → (id, l) ∉ books db) ∧
      committed s' = created_book d db ∧
      resp = book_view (created_book d db) (id, Book_of d)
  | (inr e, s') =>
      (committed s' = db ∧ executed s' = [] ∧
       ((∃ a, a ∈ BookCreate.authors d ∧ has_row EAuthor a db = false ∧
              e = not_found "Author" a) ∨
        (forallb (λ a, has_row EAuthor a db) (BookCreate.authors d) = true ∧
         ∃ l, l ∈ BookCreate.library d ∧ has_row ELibrary l db = false ∧
              e = not_found "Library" l))) ∨
      (forallb (λ a, has_row EAuthor a db) (BookCreate.authors d) = true ∧
       forallb (λ l, has_row ELibrary l db) (BookCreate.library d) = true ∧
       book (committed s') !! id = Some (Book_of d))
  end.
Proof.
  intros nid. unfold create_book.
  set (s0 := mkSession db db []).
  unfold mbind at 1, M_bind at 1.
  pose proof (require_all_spec EAuthor "Author" (BookCreate.authors d) s0) as H1.
  destruct (require_all EAuthor _ _ s0) as [[[]|e] s'].
  2:{ destruct H1 as (x & Hin & Hno & -> & ->). left. split_and!; try done.
      left. by exists x. }
  destruct H1 as [Ha ->]. cbn [working s0] in Ha.
  unfold mbind at 1, M_bind at 1.
  pose proof (require_all_spec ELibrary "Library" (BookCreate.library d) s0) as H2.
  destruct (require_all ELibrary _ _ s0) as [[[]|e] s'].
  2:{ destruct H2 as (x & Hin & Hno & -> & ->). left. split_and!; try done.
      right. split; [done|]. by exists x. }
  destruct H2 as [Hl ->]. cbn [working s0] in Hl.
  unfold mbind at 1, M_bind at 1. unfold add_book at 1. cbn [working committed executed s0].
  fold nid. fold (store_book nid (Book_of d) db).
  unfold mbind at 1, M_bind at 1. unfold commit at 1. cbn [working committed executed].
  unfold mbind at 1, M_bind at 1. unfold refresh_book at 1. cbn [working].
  replace (book (store_book nid (Book_of d) db) !! nid) with (Some (Book_of d))
    by (symmetry; apply lookup_insert_eq).
  cbn [fst].
  unfold mbind at 1, M_bind at 1.
  pose proof (link_all_spec Book_authors nid (BookCreate.authors d)
                (store_book nid (Book_of d) db) []) as L1.
  destruct (link_all Book_authors _ _ _) as [[[]|e] s1].
  2:{ destruct L1 as (pre & x & post & _ & Hc). right. split_and!; try done.
      rewrite Hc. apply lookup_insert_eq. }
  destruct L1 as (-> & Hnda & Hfa).
  unfold mbind at 1, M_bind at 1.
  pose proof (link_all_spec Book_library nid (BookCreate.library d)
                (link_rows Book_authors nid (BookCreate.authors d)
                   (store_book nid (Book_of d) db))
                ([] ++ ((StInsert (secondary Book_authors) ∘ mk_row Book_authors nid)
                          <$> BookCreate.authors d))) as L2.
  destruct (link_all Book_library _ _ _) as [[[]|e] s2].
  2:{ destruct L2 as (pre & x & post & _ & Hc). right. split_and!; try done.
      rewrite Hc. apply lookup_insert_eq. }
  destruct L2 as (-> & Hndl & Hfl).
  unfold book_response, mbind, M_bind, select_linked, mret, M_ret.
  cbn [working committed fst].
  split_and!; try done.
  - intros a Hin. by destruct (Hfa a Hin).
  - intros l Hin. by destruct (Hfl l Hin).
Qed.

(** X8. [create_book] checks every referenced id before it stores
    anything, authors before libraries: when an author id is not stored
    the answer is the 404 "Author with ID <id> not found" for such an id,
    when all authors are stored but a library id is not, the 404 "Library
    with ID <id> not found"; in both cases no statement is executed and the
    database, the book table included, is as before. *)
Theorem create_book_missing_reference d db :
  let out := run_request (create_book d) db in
  (forallb (λ a, has_row EAuthor a db) (BookCreate.authors d) = false →
     ∃ a, a ∈ BookCreate.authors d ∧ has_row EAuthor a db = false ∧
          out = mkOutcome (Failed (exception_handler (not_found "Author" a))) db []) ∧
  (forallb (λ a, has_row EAuthor a db) (BookCreate.authors d) = true →
   forallb (λ l, has_row ELibrary l db) (BookCreate.library d) = false →
     ∃ l, l ∈ BookCreate.library d ∧ has_row ELibrary l db = false ∧
          out = mkOutcome (Failed (exception_handler (not_found "Library" l))) db []).
Proof.
  intros out. subst out. pose proof (create_book_session d db) as H. cbn zeta in H.
  unfold run_request. destruct (create_book d _) as [[resp|e] s']; split.
  - intros Hbad. destruct H as (Ha & _). congruence.
  - intros _ Hbad. destruct H as (_ & Hl & _). congruence.
  - intros Hbad. destruct H as [(Hc & Hx & [(a & Hin & Hno & ->)|(Ha & _)])|(Ha & _)];
      [|congruence..].
    exists a. by rewrite Hc, Hx.
  - intros Ha Hbad.
    destruct H as [(Hc & Hx & [(a & Hin & Hno & ->)|(_ & l & Hin & Hno & ->)])|(_ & Hl & _)].
    + rewrite forallb_forall in Ha. apply list_elem_of_In, Ha in Hin. congruence.
    + exists l. by rewrite Hc, Hx.
    + congruence.
Qed.

Lemma create_book_missing_reference_witness :
  ∃ l, l ∈ [1; 8] ∧ has_row ELibrary l sample_db = false ∧
       run_request (create_book (sample_payload 20 [1] [1; 8])) sample_db
       = mkOutcome (Failed (exception_handler (not_found "Library" l))) sample_db [].
Proof.
  apply (proj2 (create_book_missing_reference (sample_payload 20 [1] [1; 8]) sample_db));
    reflexivity.
Defined.

Lemma post_book_valid d db :
  BookCreate.pages d > 10 → post_book d db = run_request (create_book d) db.
Proof.
  intros H. unfold post_book, with_body, body_model.
  by rewrite model_validate_accepts.
Qed.

(** X9. In a database whose association rows name stored rows only, a
    Book payload posted to [create_book] is accepted exactly when it
    passes validation (pages > 10), every listed author and library id is
    stored and no id is listed twice.  The response then has a new id,
    which was not in use, the submitted fields, and lists exactly the
    submitted author ids and library ids, each once, in the order the
    store returns them. *)
Theorem create_book_accepted_iff d db :
  fk_ok db = true →
  ((∃ resp, response (post_book d db) = Returned resp) ↔
   BookCreate.pages d > 10 ∧
   forallb (λ a, has_row EAuthor a db) (BookCreate.authors d) = true ∧
   forallb (λ l, has_row ELibrary l db) (BookCreate.library d) = true ∧
   NoDup (BookCreate.authors d) ∧ NoDup (BookCreate.library d)) ∧
  (∀ resp, response (post_book d db) = Returned resp →
     BookResponse.book resp = (next_id (book db), Book_of d) ∧
     BookResponse.author_ids resp ≡ₚ BookCreate.authors d ∧
     BookResponse.library_ids resp ≡ₚ BookCreate.library d ∧
     book db !! next_id (book db) = None).
Proof.
  intros Hfk.
  assert (Hacc : ∀ resp, response (post_book d db) = Returned resp →
            BookCreate.pages d > 10 ∧
            forallb (λ a, has_row EAuthor a db) (BookCreate.authors d) = true ∧
            forallb (λ l, has_row ELibrary l db) (BookCreate.library d) = true ∧
            NoDup (BookCreate.authors d) ∧ NoDup (BookCreate.library d)).
  { intros resp Hresp.
    destruct (decide (BookCreate.pages d > 10)) as [Hp|Hp].
    - split; [done|]. rewrite post_book_valid in Hresp by done.
      pose proof (create_book_session d db) as H. cbn zeta in H.
      revert Hresp. unfold run_request.
      destruct (create_book d _) as [[r|e] s']; [|done]. intros _. tauto.
    - unfold post_book, with_body, body_model in Hresp.
      rewrite model_validate_rejects in Hresp by lia. done. }
  split.
  - split.
    + intros [resp Hresp]. by eapply Hacc.
    + intros (Hp & Ha & Hl & Hnda & Hndl).
      rewrite post_book_valid, create_book_run by done. by eexists.
  - intros resp Hresp. destruct (Hacc resp Hresp) as (Hp & Ha & Hl & Hnda & Hndl).
    rewrite post_book_valid, create_book_run in Hresp by done.
    cbn [response] in Hresp. injection Hresp as <-.
    cbn [BookResponse.book BookResponse.author_ids BookResponse.library_ids].
    split_and!; [done|done|apply merge_sort_Permutation|apply next_id_fresh].
Qed.

Lemma create_book_accepted_iff_witness :
  fk_ok sample_db = true ∧
  ¬ (∃ resp, response (post_book (sample_payload 20 [3; 3] [1]) sample_db) = Returned resp).
Proof.
  split; [reflexivity|]. intros H.
  apply (proj1 (create_book_accepted_iff (sample_payload 20 [3; 3] [1]) sample_db eq_refl)) in H.
  destruct H as (_ & _ & _ & Hnd & _). apply NoDup_cons in Hnd as [Hnd _].
  apply Hnd. left.
Defined.

(** X10. Create, then read: when [create_book] is accepted, [get_book] on
    the id of the response, run on the resulting database, returns the
    same response. *)
Theorem create_book_then_get d db resp :
  response (run_request (create_book d) db) = Returned resp →
  run_request (get_book (BookResponse.book resp).1)
    (database (run_request (create_book d) db))
  = mkOutcome (Returned resp) (database (run_request (create_book d) db)) [].
Proof.
  pose proof (create_book_session d db) as H. cbn zeta in H.
  unfold run_request at 1 3 4.
  destruct (create_book d _) as [[r|e] s']; [|done].
  destruct H as (_ & _ & _ & _ & _ & _ & Hc & ->).
  cbn [response database]. intros [= <-]. rewrite Hc, get_book_run.
  cbn [BookResponse.book book_view fst].
  replace (book (created_book d db) !! next_id (book db)) with (Some (Book_of d)); [done|].
  symmetry. apply lookup_insert_eq.
Qed.

Lemma create_book_then_get_witness :
  response
    (run_request (get_book 2)
       (database (run_request (create_book (sample_payload 20 [1; 3] [1])) sample_db)))
  = Returned (BookResponse.mk (2, Book_of (sample_payload 20 [1; 3] [1])) [1; 3] [1]).
Proof.
  pose proof (create_book_then_get (sample_payload 20 [1; 3] [1]) sample_db
                (BookResponse.mk (2, Book_of (sample_payload 20 [1; 3] [1])) [1; 3] [1])
                eq_refl) as H.
  cbn [BookResponse.book fst] in H. rewrite H. reflexivity.
Defined.

Lemma create_author_session d db :
  let id := next_id (author db) in
  match create_author d (mkSession db db []) with
  | (inl resp, s') =>
      AuthorCreate.books d ≠ [] ∧
      forallb (λ b, has_row EBook b db) (AuthorCreate.books d) = true ∧
      NoDup (AuthorCreate.books d) ∧
      committed s' = created_author d db ∧
      resp = AuthorResponse.mk (id, Author.mk (AuthorCreate.name d))
               (linked Author_books id (created_author d db))
  | (inr e, s') =>
      AuthorCreate.books d = [] ∨
      forallb (λ b, has_row EBook b db) (AuthorCreate.books d) = false ∨
      (¬ NoDup (AuthorCreate.books d)) ∨
      (∃ b, (id, b) ∈ books_1 db)
  end.
Proof.
  intros nid. unfold create_author.
  destruct (AuthorCreate.books d) as [|b0 bs] eqn:Hbooks; [by left|].
  rewrite bool_decide_eq_false_2 by done.
  rewrite bool_decide_eq_false_2 by (simpl; lia).
  cbn [orb]. rewrite <- Hbooks.
  set (s0 := mkSession db db []).
  unfold mbind at 1, M_bind at 1.
  pose proof (require_all_spec EBook "Book" (AuthorCreate.books d) s0) as H1.
  destruct (require_all EBook _ _ s0) as [[[]|e] s'].
  2:{ destruct H1 as (x & Hin & Hno & _). right. left.
      apply not_true_is_false. rewrite forallb_forall. intros Hall.
      apply list_elem_of_In, Hall in Hin. cbn [working s0] in Hno. congruence. }
  destruct H1 as [Ha ->]. cbn [working s0] in Ha.
  unfold mbind at 1, M_bind at 1. unfold add_author at 1. cbn [working committed executed s0].
  fold nid. fold (store_author nid (Author.mk (AuthorCreate.name d)) db).
  unfold mbind at 1, M_bind at 1. unfold commit at 1. cbn [working committed executed].
  unfold mbind at 1, M_bind at 1. unfold refresh_author at 1. cbn [working].
  replace (author (store_author nid (Author.mk (AuthorCreate.name d)) db) !! nid)
    with (Some (Author.mk (AuthorCreate.name d))) by (symmetry; apply lookup_insert_eq).
  cbn [fst].
  unfold mbind at 1, M_bind at 1.
  destruct (decide (NoDup (AuthorCreate.books d))) as [Hnd|Hnd]; [|
    destruct (link_all _ _ _ _) as [[[]|e] s1] eqn:Hl; [|tauto];
    pose proof (link_all_spec Author_books nid (AuthorCreate.books d)
                  (store_author nid (Author.mk (AuthorCreate.name d)) db) []) as L;
    rewrite Hl in L; tauto].
  destruct (decide (Exists (λ b, (nid, b) ∈ books_1 db) (AuthorCreate.books d)))
    as [(b & Hb & Hin)%Exists_exists|Hfresh].
  { destruct (link_all _ _ _ _) as [[[]|e] s1] eqn:Hl; [|right; right; right; by exists b].
    pose proof (link_all_spec Author_books nid (AuthorCreate.books d)
                  (store_author nid (Author.mk (AuthorCreate.name d)) db) []) as L.
    rewrite Hl in L. destruct L as (_ & _ & Hf). by destruct (Hf b Hb). }
  rewrite link_all_ok; [|done|by rewrite <- Ha|].
  2:{ intros b Hb Hin. apply Hfresh, Exists_exists. by exists b. }
  unfold author_response, mbind, M_bind, select_linked, mret, M_ret.
  cbn [working committed fst]. split_and!; try done. by rewrite Hbooks.
Qed.

Lemma create_library_session d db :
  let id := next_id (library db) in
  match create_library d (mkSession db db []) with
  | (inl resp, s') =>
      forallb (λ b, has_row EBook b db) (LibraryCreate.books d) = true ∧
      NoDup (LibraryCreate.books d) ∧
      committed s' = created_library d db ∧
      resp = LibraryResponse.mk (id, Library.mk (LibraryCreate.name d))
               (linked Library_books id (created_library d db))
  | (inr e, s') =>
      forallb (λ b, has_row EBook b db) (LibraryCreate.books d) = false ∨
      (¬ NoDup (LibraryCreate.books d)) ∨
      (∃ b, (b, id) ∈ books db)
  end.
Proof.
  intros nid. unfold create_library.
  set (s0 := mkSession db db []).
  unfold mbind at 1, M_bind at 1.
  pose proof (require_all_spec EBook "Book" (LibraryCreate.books d) s0) as H1.
  destruct (require_all EBook _ _ s0) as [[[]|e] s'].
  2:{ destruct H1 as (x & Hin & Hno & _). left.
      apply not_true_is_false. rewrite forallb_forall. intros Hall.
      apply list_elem_of_In, Hall in Hin. cbn [working s0] in Hno. congruence. }
  destruct H1 as [Ha ->]. cbn [working s0] in Ha.
  unfold mbind at 1, M_bind at 1. unfold add_library at 1. cbn [working committed executed s0].
  fold nid. fold (store_library nid (Library.mk (LibraryCreate.name d)) db).
  unfold mbind at 1, M_bind at 1. unfold commit at 1. cbn [working committed executed].
  unfold mbind at 1, M_bind at 1. unfold refresh_library at 1. cbn [working].
  replace (library (store_library nid (Library.mk (LibraryCreate.name d)) db) !! nid)
    with (Some (Library.mk (LibraryCreate.name d))) by (symmetry; apply lookup_insert_eq).
  cbn [fst].
  unfold mbind at 1, M_bind at 1.
  destruct (decide (NoDup (LibraryCreate.books d))) as [Hnd|Hnd]; [|
    destruct (link_all _ _ _ _) as [[[]|e] s1] eqn:Hl; [|tauto];
    pose proof (link_all_spec Library_books nid (LibraryCreate.books d)
                  (store_library nid (Library.mk (LibraryCreate.name d)) db) []) as L;
    rewrite Hl in L; tauto].
  destruct (decide (Exists (λ b, (b, nid) ∈ books db) (LibraryCreate.books d)))
    as [(b & Hb & Hin)%Exists_exists|Hfresh].
  { destruct (link_all _ _ _ _) as [[[]|e] s1] eqn:Hl; [|right; right; by exists b].
    pose proof (link_all_spec Library_books nid (LibraryCreate.books d)
                  (store_library nid (Library.mk (LibraryCreate.name d)) db) []) as L.
    rewrite Hl in L. destruct L as (_ & _ & Hf). by destruct (Hf b Hb). }
  rewrite link_all_ok; [|done|by rewrite <- Ha|].
  2:{ intros b Hb Hin. apply Hfresh, Exists_exists. by exists b. }
  unfold library_response, mbind, M_bind, select_linked, mret, M_ret.
  cbn [working committed fst]. split_and!; done.
Qed.

Lemma linked_created_author d db :
  fk_ok db = true →
  linked Author_books (next_id (author db)) (created_author d db)
  = merge_sort Z.le (AuthorCreate.books d).
Proof.
  intros Hfk. unfold created_author.
  apply (linked_link_rows Author_books (next_id (author db)) (AuthorCreate.books d)).
  apply (linked_in_missing db EAuthor); [done| |].
  - simpl. left.
  - apply bool_decide_eq_false. rewrite next_id_fresh. by intros [? ?].
Qed.

Lemma linked_created_library d db :
  fk_ok db = true →
  linked Library_books (next_id (library db)) (created_library d db) = LibraryCreate.books d.
Proof.
  intros Hfk. unfold created_library.
  apply (linked_link_rows Library_books (next_id (library db)) (LibraryCreate.books d)).
  apply (linked_in_missing db ELibrary); [done| |].
  - simpl. left.
  - apply bool_decide_eq_false. rewrite next_id_fresh. by intros [? ?].
Qed.

(** X11. In a database whose association rows name stored rows only,
    [create_author] is accepted exactly when the [books] list is not
    empty, every listed Book is stored and no id is listed twice; the
    response then has a new id and the submitted name, lists exactly the
    submitted book ids, each once, in the order the store returns them,
    and the Author row is stored. *)
Theorem create_author_accepted_iff d db :
  fk_ok db = true →
  let out := run_request (create_author d) db in
  ((∃ resp, response out = Returned resp) ↔
   AuthorCreate.books d ≠ [] ∧
   forallb (λ b, has_row EBook b db) (AuthorCreate.books d) = true ∧
   NoDup (AuthorCreate.books d)) ∧
  (∀ resp, response out = Returned resp →
     AuthorResponse.author resp = (next_id (author db), Author.mk (AuthorCreate.name d)) ∧
     AuthorResponse.book_ids resp ≡ₚ AuthorCreate.books d ∧
     author db !! next_id (author db) = None ∧
     author (database out) !! next_id (author db) = Some (Author.mk (AuthorCreate.name d))).
Proof.
  intros Hfk out. subst out.
  pose proof (create_author_session d db) as H. cbn zeta in H.
  assert (Hnew : has_row EAuthor (next_id (author db)) db = false).
  { apply bool_decide_eq_false. rewrite next_id_fresh. by intros [? ?]. }
  unfold run_request. destruct (create_author d _) as [[r|e] s'].
  - destruct H as (Hne & Ha & Hnd & Hc & ->). cbn [response database]. split.
    + split; [done|]. intros _. by eexists.
    + intros resp [= <-]. rewrite linked_created_author by done.
      cbn [AuthorResponse.author AuthorResponse.book_ids].
      split; [done|]. split; [apply merge_sort_Permutation|].
      split; [apply next_id_fresh|].
      rewrite Hc. apply lookup_insert_eq.
  - cbn [response]. split; [|done]. split; [by intros [? ?]|].
    intros (Hne & Ha & Hnd). exfalso.
    destruct H as [H|[H|[H|[b Hb]]]]; [done|congruence|done|].
    eapply (no_rows_of_missing db EAuthor Author_books); [done| |done|exact Hb].
    simpl. left.
Qed.

Lemma create_author_accepted_iff_witness :
  fk_ok sample_db = true ∧
  ∃ resp, response (run_request (create_author (AuthorCreate.mk "N" [1])) sample_db)
          = Returned resp.
Proof.
  split; [reflexivity|].
  apply (proj1 (create_author_accepted_iff (AuthorCreate.mk "N" [1]) sample_db eq_refl)).
  split; [discriminate|]. split; [reflexivity|].
  refine (bool_decide_unpack _ _). vm_compute. exact I.
Defined.

(** X12. In a database whose association rows name stored rows only,
    [create_library] is accepted exactly when every listed Book is stored
    and no id is listed twice; unlike [create_author] it makes no
    at-least-one check, so an empty [books] list is always accepted.  The
    response has a new id, the submitted name and exactly the submitted
    book ids. *)
Theorem create_library_accepted_iff d db :
  fk_ok db = true →
  let out := run_request (create_library d) db in
  ((∃ resp, response out = Returned resp) ↔
   forallb (λ b, has_row EBook b db) (LibraryCreate.books d) = true ∧
   NoDup (LibraryCreate.books d)) ∧
  (LibraryCreate.books d = [] → ∃ resp, response out = Returned resp) ∧
  (∀ resp, response out = Returned resp →
     resp = LibraryResponse.mk (next_id (library db), Library.mk (LibraryCreate.name d))
              (LibraryCreate.books d) ∧
     library db !! next_id (library db) = None ∧
     library (database out) !! next_id (library db)
       = Some (Library.mk (LibraryCreate.name d))).
Proof.
  intros Hfk out. subst out.
  pose proof (create_library_session d db) as H. cbn zeta in H.
  unfold run_request. destruct (create_library d _) as [[r|e] s'].
  - destruct H as (Ha & Hnd & Hc & ->). cbn [response database]. split_and!.
    + split; [done|]. intros _. by eexists.
    + intros _. by eexists.
    + intros resp [= <-]. rewrite linked_created_library by done.
      split; [done|]. split; [apply next_id_fresh|].
      rewrite Hc. apply lookup_insert_eq.
  - cbn [response].
    assert (Hno : ¬ (forallb (λ b, has_row EBook b db) (LibraryCreate.books d) = true ∧
                     NoDup (LibraryCreate.books d))).
    { intros (Ha & Hnd). destruct H as [H|[H|[b Hb]]]; [congruence|done|].
      eapply (no_rows_of_missing db ELibrary Library_books); [done| | |exact Hb].
      - simpl. left.
      - apply bool_decide_eq_false. rewrite next_id_fresh. by intros [? ?]. }
    split_and!.
    + split; [by intros [? ?]|]. intros ?. by exfalso.
    + intros Hnil. exfalso. apply Hno. rewrite Hnil. split; [done|constructor].
    + done.
Qed.

Lemma create_library_accepted_iff_witness :
  fk_ok sample_db = true ∧
  ∃ resp, response (run_request (create_library (LibraryCreate.mk "M" [])) sample_db)
          = Returned resp.
Proof.
  split; [reflexivity|].
  apply (proj1 (proj2 (create_library_accepted_iff (LibraryCreate.mk "M" []) sample_db
                         eq_refl))).
  reflexivity.
Defined.

(** ** Updates, in general *)

(** X13. An update of a Book applies fully or not at all.  For an id with
    no Book row the answer is the 404 "Book not found".  When a target id
    is neither linked nor stored the answer is a 404 "... with ID <id> not
    found" and the database is as before: the scalar fields already
    assigned and the links already deleted are rolled back.  When the
    update is accepted the Book row is replaced by the submitted fields,
    and the other Book rows, the Author table and the Library table are as
    before. *)
Theorem update_book_all_or_nothing book_id d db :
  let out := run_request (update_book book_id d) db in
  (has_row EBook book_id db = false →
     out = mkOutcome (Failed (http_error 404 "Book not found")) db []) ∧
  (has_row EBook book_id db = true →
   targets_ok Book_authors book_id (BookCreate.authors d) db = false ∨
   targets_ok Book_library book_id (BookCreate.library d) db = false →
     database out = db ∧
     ∃ name id, response out = Failed (exception_handler (not_found name id))) ∧
  (∀ resp, response out = Returned resp →
     book (database out) = <[book_id := Book_of d]> (book db) ∧
     author (database out) = author db ∧ library (database out) = library db).
Proof.
  intros out. subst out. split_and!.
  - intros Hno. apply bool_decide_eq_false in Hno.
    unfold run_request, update_book. unfold mbind at 1, M_bind at 1.
    unfold query_book at 1. cbn [working].
    destruct (book db !! book_id) eqn:Hb; [|done]. exfalso. apply Hno. by eexists.
  - intros Hb Hbad. apply bool_decide_eq_true in Hb as [b Hb].
    pose proof (update_book_session book_id d db b Hb) as H.
    unfold run_request. destruct (update_book book_id d _) as [[resp|e] s'].
    + destruct H as (? & ? & _). destruct Hbad; congruence.
    + destruct H as (_ & (name & id & ->) & Hc). split; [done|]. by exists name, id.
  - intros resp Hresp. apply update_book_returned in Hresp as [_ Hrun].
    by rewrite Hrun.
Qed.

Lemma update_book_all_or_nothing_witness :
  has_row EBook 1 sample_db = true ∧
  database (run_request (update_book 1 (sample_payload 20 [2; 9] [])) sample_db) = sample_db.
Proof.
  split; [reflexivity|].
  apply (proj1 (proj2 (update_book_all_or_nothing 1 (sample_payload 20 [2; 9] []) sample_db))).
  - reflexivity.
  - left. reflexivity.
Defined.

(** X14. Update, then read: when [update_book] is accepted, [get_book] on
    the same id, run on the resulting database, returns the response of
    the update; its id lists hold exactly the submitted target ids. *)
Theorem update_book_then_get book_id d db resp :
  response (run_request (update_book book_id d) db) = Returned resp →
  let db1 := database (run_request (update_book book_id d) db) in
  run_request (get_book book_id) db1 = mkOutcome (Returned resp) db1 [] ∧
  (∀ a, a ∈ BookResponse.author_ids resp ↔ a ∈ BookCreate.authors d) ∧
  (∀ l, l ∈ BookResponse.library_ids resp ↔ l ∈ BookCreate.library d).
Proof.
  intros Hresp db1. subst db1.
  apply update_book_returned in Hresp as [-> Hrun]. rewrite Hrun.
  cbn [database BookResponse.author_ids BookResponse.library_ids]. split_and!.
  - rewrite get_book_run.
    replace (book (updated_book book_id d db) !! book_id) with (Some (Book_of d)); [done|].
    symmetry. apply lookup_insert_eq.
  - intros a. rewrite elem_of_linked_rows.
    apply (linked_in_reconcile_rows Book_authors book_id _ (books_1 db)).
  - intros l. rewrite elem_of_linked_rows.
    apply (linked_in_reconcile_rows Book_library book_id _ (books db)).
Qed.

Lemma update_book_then_get_witness :
  response
    (run_request (get_book 1)
       (database (run_request (update_book 1 (sample_payload 20 [2; 3] [])) sample_db)))
  = Returned (BookResponse.mk (1, Book_of (sample_payload 20 [2; 3] [])) [2; 3] []).
Proof.
  rewrite (proj1 (update_book_then_get 1 (sample_payload 20 [2; 3] []) sample_db
                    (BookResponse.mk (1, Book_of (sample_payload 20 [2; 3] [])) [2; 3] [])
                    eq_refl)).
  reflexivity.
Defined.

(** X15. An accepted update of an Author executes exactly the minimal
    delta on books_1: one DELETE per linked book that is not a target, one
    INSERT per target that is not linked, each once; afterwards the author
    is linked to exactly the target books, and the rows of other authors
    and the whole books table are as before. *)
Theorem update_author_minimal_delta author_id d db resp :
  response (run_request (update_author author_id d) db) = Returned resp →
  let out := run_request (update_author author_id d) db in
  NoDup (statements out) ∧
  (∀ st, st ∈ statements out ↔
     (∃ b, st = StDelete Books_1 (author_id, b) ∧
           (author_id, b) ∈ books_1 db ∧ b ∉ AuthorCreate.books d) ∨
     (∃ b, st = StInsert Books_1 (author_id, b) ∧
           b ∈ AuthorCreate.books d ∧ (author_id, b) ∉ books_1 db)) ∧
  (∀ a b, (a, b) ∈ books_1 (database out) ↔
     (a ≠ author_id ∧ (a, b) ∈ books_1 db) ∨
     (a = author_id ∧ b ∈ AuthorCreate.books d)) ∧
  books (database out) = books db ∧
  author (database out) = <[author_id := Author.mk (AuthorCreate.name d)]> (author db).
Proof.
  intros Hresp out. subst out.
  apply update_author_returned in Hresp as [_ Hrun]. rewrite Hrun.
  cbn [statements database]. split_and!; try done.
  - apply NoDup_reconcile_stmts.
  - intros st. rewrite elem_of_reconcile_stmts. cbn. tauto.
  - intros a b.
    change (books_1 (updated_author author_id d db)) with
      (reconcile_rows Author_books author_id (AuthorCreate.books d) (books_1 db)).
    by rewrite elem_of_reconcile_rows.
Qed.

Lemma update_author_minimal_delta_witness :
  response (run_request (update_author 1 (AuthorCreate.mk "A" [])) sample_db)
    = Returned (AuthorResponse.mk (1, Author.mk "A") []) ∧
  books (database (run_request (update_author 1 (AuthorCreate.mk "A" [])) sample_db))
    = books sample_db.
Proof.
  split; [reflexivity|].
  apply (update_author_minimal_delta 1 (AuthorCreate.mk "A" []) sample_db
           (AuthorResponse.mk (1, Author.mk "A") [])).
  reflexivity.
Defined.

(** X16. An accepted update of a Library executes exactly the minimal
    delta on books: one DELETE per linked book that is not a target, one
    INSERT per target that is not linked, each once; afterwards the library
    is linked to exactly the target books, and the rows of other libraries
    and the whole books_1 table are as before. *)
Theorem update_library_minimal_delta library_id d db resp :
  response (run_request (update_library library_id d) db) = Returned resp →
  let out := run_request (update_library library_id d) db in
  NoDup (statements out) ∧
  (∀ st, st ∈ statements out ↔
     (∃ b, st = StDelete Books (b, library_id) ∧
           (b, library_id) ∈ books db ∧ b ∉ LibraryCreate.books d) ∨
     (∃ b, st = StInsert Books (b, library_id) ∧
           b ∈ LibraryCreate.books d ∧ (b, library_id) ∉ books db)) ∧
  (∀ b l, (b, l) ∈ books (database out) ↔
     (l ≠ library_id ∧ (b, l) ∈ books db) ∨
     (l = library_id ∧ b ∈ LibraryCreate.books d)) ∧
  books_1 (database out) = books_1 db ∧
  library (database out) = <[library_id := Library.mk (LibraryCreate.name d)]> (library db).
Proof.
  intros Hresp out. subst out.
  apply update_library_returned in Hresp as [_ Hrun]. rewrite Hrun.
  cbn [statements database]. split_and!; try done.
  - apply NoDup_reconcile_stmts.
  - intros st. rewrite elem_of_reconcile_stmts. cbn. tauto.
  - intros b l.
    change (books (updated_library library_id d db)) with
      (reconcile_rows Library_books library_id (LibraryCreate.books d) (books db)).
    by rewrite elem_of_reconcile_rows.
Qed.

Lemma update_library_minimal_delta_witness :
  response (run_request (update_library 1 (LibraryCreate.mk "L" [])) sample_db)
    = Returned (LibraryResponse.mk (1, Library.mk "L") []) ∧
  books_1 (database (run_request (update_library 1 (LibraryCreate.mk "L" [])) sample_db))
    = books_1 sample_db.
Proof.
  split; [reflexivity|].
  apply (update_library_minimal_delta 1 (LibraryCreate.mk "L" []) sample_db
           (LibraryResponse.mk (1, Library.mk "L") [])).
  reflexivity.
Defined.

(** ** Bulk deletion *)

Lemma bulk_delete_loop_run e ids c nf marked s :
  bulk_delete_loop e ids c nf marked s =
  (inl ((c + length (filter (λ id, has_row e id (working s) = true) ids))%nat,
        nf ++ filter (λ id, has_row e id (working s) = false) ids,
        marked ++ filter (λ id, has_row e id (working s) = true) ids), s).
Proof.
  revert c nf marked. induction ids as [|id ids IH]; intros c nf marked.
  - simpl. unfold mret, M_ret. by rewrite !app_nil_r, Nat.add_0_r.
  - cbn [bulk_delete_loop]. unfold mbind at 1, M_bind at 1.
    unfold query_exists at 1.
    destruct (has_row e id (working s)) eqn:Hrow.
    + rewrite IH. rewrite filter_cons_True by done.
      rewrite (filter_cons_False (λ id, has_row e id (working s) = false)) by congruence.
      rewrite <- app_assoc. cbn [length app]. by rewrite Nat.add_succ_r.
    + rewrite IH. rewrite filter_cons_False by congruence.
      rewrite (filter_cons_True (λ id, has_row e id (working s) = false)) by done.
      by rewrite <- app_assoc.
Qed.

Lemma for_each_session_delete e ids s :
  for_each ids (session_delete e) s =
  (inl tt, mkSession (committed s) (deleted_all e ids (working s)) (executed s)).
Proof.
  revert s. induction ids as [|id ids IH]; intros s; [by destruct s|].
  cbn [for_each]. unfold mbind at 1, M_bind at 1. unfold session_delete at 1.
  by rewrite IH.
Qed.

Lemma bulk_delete_run e name ids db :
  run_request (bulk_delete e name ids) db =
  let found := filter (λ id, has_row e id db = true) ids in
  mkOutcome
    (Returned (mkBulkDeleteResponse (length found)
                 (filter (λ id, has_row e id db = false) ids)
                 ("Successfully deleted " +:+ pretty (length found)
                    +:+ " " +:+ name +:+ " entities")))
    (deleted_all e found db) [].
Proof.
  unfold run_request, bulk_delete. unfold mbind at 1, M_bind at 1.
  rewrite bulk_delete_loop_run. cbn [working app Nat.add].
  unfold mbind at 1, M_bind at 1. rewrite for_each_session_delete.
  done.
Qed.

Lemma has_row_unlink_deleted e r x id db :
  has_row e id (unlink_deleted r x db) = has_row e id db.
Proof. unfold unlink_deleted. apply has_row_set_rows. Qed.

Lemma has_row_deleted e e' x id db :
  has_row e' id (deleted e x db) = true ↔
  has_row e' id db = true ∧ ¬ (e' = e ∧ id = x).
Proof.
  unfold deleted.
  assert (Hfold : ∀ rs db0, has_row e' id (foldl (λ db r, unlink_deleted r x db) db0 rs)
                            = has_row e' id db0).
  { induction rs as [|r rs IH]; intros db0; [done|]. simpl.
    by rewrite IH, has_row_unlink_deleted. }
  set (db1 := foldl _ db (relationships e)).
  assert (H1 : has_row e' id db1 = has_row e' id db) by apply Hfold.
  rewrite <- H1. clearbody db1. clear H1 Hfold.
  destruct e, e'; cbn [delete_row has_row book author library];
    rewrite ?bool_decide_eq_true;
    try (split; [intros H; split; [done|intros [[=] _]] | by intros [? _]]).
  - destruct (decide (x = id)) as [->|Hne].
    + rewrite lookup_delete_eq. split; [by intros [? ?]|]. intros [_ Hn]. by destruct Hn.
    + rewrite lookup_delete_ne by done. split; [|by intros [? _]].
      intros H. split; [done|]. intros [_ ->]. done.
  - destruct (decide (x = id)) as [->|Hne].
    + rewrite lookup_delete_eq. split; [by intros [? ?]|]. intros [_ Hn]. by destruct Hn.
    + rewrite lookup_delete_ne by done. split; [|by intros [? _]].
      intros H. split; [done|]. intros [_ ->]. done.
  - destruct (decide (x = id)) as [->|Hne].
    + rewrite lookup_delete_eq. split; [by intros [? ?]|]. intros [_ Hn]. by destruct Hn.
    + rewrite lookup_delete_ne by done. split; [|by intros [? _]].
      intros H. split; [done|]. intros [_ ->]. done.
Qed.

Lemma rows_unlink_deleted_subseteq t r x db row :
  row ∈ rows t (unlink_deleted r x db) → row ∈ rows t db.
Proof.
  unfold unlink_deleted.
  assert (t = secondary r ∨ t ≠ secondary r) as [->|Hne]
    by (destruct t, (secondary r); auto).
  - rewrite rows_set_rows. by intros [_ ?]%list_elem_of_filter.
  - by rewrite rows_set_rows_ne.
Qed.

Lemma rows_deleted_subseteq t e x db row :
  row ∈ rows t (deleted e x db) → row ∈ rows t db.
Proof.
  unfold deleted.
  assert (Hrows : ∀ db0, rows t (delete_row e x db0) = rows t db0) by (by destruct e, t).
  rewrite Hrows.
  generalize (relationships e). intros rs. revert db.
  induction rs as [|r rs IH]; intros db; [done|]. simpl.
  intros H. apply IH in H. by apply rows_unlink_deleted_subseteq in H.
Qed.

Lemma has_row_deleted_all e e' ids id db :
  has_row e' id (deleted_all e ids db) = true ↔
  has_row e' id db = true ∧ ¬ (e' = e ∧ id ∈ ids).
Proof.
  unfold deleted_all. revert db. induction ids as [|x ids IH]; intros db.
  - simpl. split; [|by intros [? _]]. intros H. split; [done|].
    by intros [_ ?%elem_of_nil].
  - simpl. rewrite IH, has_row_deleted, elem_of_cons. intuition congruence.
Qed.

Lemma rows_deleted_all_subseteq t e ids db row :
  row ∈ rows t (deleted_all e ids db) → row ∈ rows t db.
Proof.
  unfold deleted_all. revert db. induction ids as [|x ids IH]; intros db; [done|].
  simpl. intros H. apply IH in H. by apply rows_deleted_subseteq in H.
Qed.

(** X17. Bulk deletion is best effort and never fails: the ids without a
    row are returned in [not_found], in their order of submission;
    [deleted_count] counts the submitted ids that have a row (an id listed
    twice is counted twice), so the two add up to the number of submitted
    ids.  Afterwards exactly the rows of this entity whose id was
    submitted are gone, the rows of the other entities are as before, and
    no association row has been added. *)
Theorem bulk_delete_best_effort e name ids db :
  let out := run_request (bulk_delete e name ids) db in
  ∃ resp,
    response out = Returned resp ∧ statements out = [] ∧
    not_found_ids resp = filter (λ id, has_row e id db = false) ids ∧
    deleted_count resp = length (filter (λ id, has_row e id db = true) ids) ∧
    (deleted_count resp + length (not_found_ids resp) = length ids)%nat ∧
    (∀ e' id, has_row e' id (database out) = true ↔
       has_row e' id db = true ∧ ¬ (e' = e ∧ id ∈ ids)) ∧
    (∀ t row, row ∈ rows t (database out) → row ∈ rows t db).
Proof.
  intros out. subst out. rewrite bulk_delete_run. cbn zeta.
  eexists. split; [done|]. cbn [statements not_found_ids deleted_count database].
  split_and!; try done.
  - induction ids as [|id ids IH]; [done|].
    destruct (has_row e id db) eqn:Hrow.
    + rewrite filter_cons_True by done.
      rewrite (filter_cons_False (λ id, has_row e id db = false)) by congruence.
      cbn [length]. lia.
    + rewrite filter_cons_False by congruence.
      rewrite (filter_cons_True (λ id, has_row e id db = false)) by done.
      cbn [length]. lia.
  - intros e' id. rewrite has_row_deleted_all, list_elem_of_filter. split.
    + intros [Hrow Hn]. split; [done|]. intros [-> Hin]. by apply Hn.
    + intros [Hrow Hn]. split; [done|]. intros (-> & _ & Hin). by apply Hn.
  - intros t row. apply rows_deleted_all_subseteq.
Qed.

(** ** decrease_stock, composed *)

Lemma decrease_stock_missing book_id qty db :
  book db !! book_id = None →
  run_request (execute_book_decrease_stock book_id qty) db =
  mkOutcome (Failed (http_error 404 "Book not found")) db [].
Proof.
  intros Hb. unfold run_request, execute_book_decrease_stock.
  unfold mbind at 1, M_bind at 1. unfold query_book at 1. cbn [working]. by rewrite Hb.
Qed.

(** X18. Stock decrements compose and are monotone.  For a stored Book,
    two accepted decrements by q1 and then q2 (both positive, q1 + q2 at
    most the stock) end in the database of one decrement by q1 + q2.
    Whatever [qty] is, the request changes nothing but the [stock] field
    of this Book, the new stock is never above the old one, and a
    non-negative stock stays non-negative.  For an id with no Book row the
    answer is the 404 "Book not found". *)
Theorem decrease_stock_compose book_id db :
  (∀ b q1 q2,
     book db !! book_id = Some b →
     0 < q1 → 0 < q2 → q1 + q2 ≤ Book.stock b →
     database (run_request (execute_book_decrease_stock book_id q2)
                 (database (run_request (execute_book_decrease_stock book_id q1) db)))
     = database (run_request (execute_book_decrease_stock book_id (q1 + q2)) db)) ∧
  (∀ b qty,
     book db !! book_id = Some b →
     let db1 := database (run_request (execute_book_decrease_stock book_id qty) db) in
     ∃ v, db1 = store_book book_id (with_stock b v) db ∧
          v ≤ Book.stock b ∧ (0 ≤ Book.stock b → 0 ≤ v)) ∧
  (∀ qty,
     book db !! book_id = None →
     run_request (execute_book_decrease_stock book_id qty) db =
     mkOutcome (Failed (http_error 404 "Book not found")) db []).
Proof.
  split_and!.
  - intros b q1 q2 Hb H1 H2 Hle.
    rewrite (decrease_stock_run book_id q1 db b Hb).
    rewrite (decrease_stock_run book_id (q1 + q2) db b Hb).
    rewrite !bool_decide_eq_false_2 by lia. cbn [database].
    rewrite (decrease_stock_run book_id q2 _ (with_stock b (Book.stock b - q1)))
      by apply lookup_insert_eq.
    cbn [with_stock Book.stock].
    rewrite !bool_decide_eq_false_2 by lia. cbn [database].
    unfold store_book. cbn [book author library books_1 books].
    rewrite insert_insert_eq. do 2 f_equal.
    cbn [Book.title Book.pages Book.price Book.release Book.time]. f_equal. lia.
  - intros b qty Hb db1. subst db1. rewrite (decrease_stock_run book_id qty db b Hb).
    assert (Hsame : db = store_book book_id (with_stock b (Book.stock b)) db).
    { unfold store_book. destruct db as [bk au li b1 b2]. cbn in *. f_equal.
      symmetry. apply insert_id. rewrite Hb. by destruct b. }
    destruct (bool_decide (qty ≤ 0)) eqn:H0.
    + exists (Book.stock b). cbn [database]. split; [done|]. lia.
    + apply bool_decide_eq_false in H0.
      destruct (bool_decide (qty > Book.stock b)) eqn:H1.
      * exists (Book.stock b). cbn [database]. split; [done|]. lia.
      * apply bool_decide_eq_false in H1.
        exists (Book.stock b - qty). cbn [database]. split; [done|]. lia.
  - intros qty Hb. by apply decrease_stock_missing.
Qed.

Lemma decrease_stock_compose_witness :
  database (run_request (execute_book_decrease_stock 1 3)
              (database (run_request (execute_book_decrease_stock 1 2) sample_db)))
  = database (run_request (execute_book_decrease_stock 1 (2 + 3)) sample_db).
Proof.
  apply (proj1 (decrease_stock_compose 1 sample_db) sample_book 2 3); reflexivity.
Defined.

(** ** Listing the authors of a book *)

Lemma get_authors_of_book_run book_id db :
  run_request (get_authors_of_book book_id) db =
  mkOutcome
    (if has_row EBook book_id db then
       let author_list :=
         filter (λ row : Z * Author.t, row.1 ∈ linked Book_authors book_id db)
           (table_rows (author db)) in
       Returned (mkAuthorsOfBook book_id (length author_list) author_list)
     else Failed (http_error 404 "Book not found"))
    db [].
Proof.
  unfold run_request, get_authors_of_book.
  unfold mbind at 1, M_bind at 1. unfold query_exists at 1. cbn [working].
  by destruct (has_row EBook book_id db).
Qed.

(** X19. [get_authors_of_book] reads only.  For an id with no Book row
    the answer is the 404 "Book not found"; otherwise it lists, each once,
    exactly the stored Authors that have a books_1 row with this book, and
    [authors_count] is the length of that list (a row that names an author
    that is not stored contributes nothing). *)
Theorem get_authors_of_book_spec book_id db :
  let out := run_request (get_authors_of_book book_id) db in
  database out = db ∧ statements out = [] ∧
  (has_row EBook book_id db = false →
     response out = Failed (http_error 404 "Book not found")) ∧
  (has_row EBook book_id db = true →
     ∃ resp,
       response out = Returned resp ∧ of_book_id resp = book_id ∧
       authors_count resp = length (authors_of_book resp) ∧
       NoDup (authors_of_book resp) ∧
       (∀ a row, (a, row) ∈ authors_of_book resp ↔
          author db !! a = Some row ∧ (a, book_id) ∈ books_1 db)).
Proof.
  intros out. subst out. rewrite get_authors_of_book_run.
  cbn [database statements response]. split_and!; try done.
  - by intros ->.
  - intros ->. eexists. split; [done|].
    cbn [of_book_id authors_count authors_of_book]. split_and!; try done.
    + apply NoDup_filter, NoDup_table_rows.
    + intros a row. rewrite list_elem_of_filter, elem_of_table_rows. cbn [fst].
      rewrite (elem_of_linked Book_authors book_id db a). cbn. tauto.
Qed.

Lemma get_authors_of_book_spec_witness :
  has_row EBook 1 sample_db = true ∧
  ∃ resp,
    response (run_request (get_authors_of_book 1) sample_db) = Returned resp ∧
    authors_count resp = 2%nat.
Proof.
  split; [reflexivity|].
  destruct (proj2 (proj2 (proj2 (get_authors_of_book_spec 1 sample_db))) eq_refl)
    as (resp & Hresp & _).
  exists resp. split; [exact Hresp|].
  vm_compute in Hresp. injection Hresp as <-. reflexivity.
Defined.

(** ** The integrity of the association tables is an invariant *)

Lemma fk_ok_iff db :
  fk_ok db = true ↔ ∀ t row, row ∈ rows t db → refs_ok t row db.
Proof.
  unfold fk_ok. rewrite andb_true_iff, !forallb_forall. split.
  - intros [H1 H2] t row Hin. apply list_elem_of_In in Hin.
    destruct t; cbn [rows refs_ok] in *.
    + by apply H1, andb_true_iff in Hin.
    + by apply H2, andb_true_iff in Hin.
  - intros H. split; intros row Hin%list_elem_of_In; apply andb_true_iff.
    + apply (H Books_1 row Hin).
    + apply (H Books row Hin).
Qed.

Lemma good_iff db :
  good db ↔ ∀ t, NoDup (rows t db) ∧ ∀ row, row ∈ rows t db → refs_ok t row db.
Proof.
  unfold good. rewrite fk_ok_iff. split.
  - intros (H1 & H2 & H3) t. split; [by destruct t|]. intros row. apply H3.
  - intros H. split_and!.
    + apply (H Books_1).
    + apply (H Books).
    + intros t. apply H.
Qed.

Lemma refs_ok_mono t row db db' :
  (∀ e id, has_row e id db = true → has_row e id db' = true) →
  refs_ok t row db → refs_ok t row db'.
Proof. intros Hm. destruct t; cbn [refs_ok]; intros [? ?]; split; by apply Hm. Qed.

(** A database that has every row [db] has, and whose association rows
    are without duplicates and are rows of [db] or name stored rows. *)
Lemma good_grow db db' :
  good db →
  (∀ e id, has_row e id db = true → has_row e id db' = true) →
  (∀ t, NoDup (rows t db') ∧
        ∀ row, row ∈ rows t db' → row ∈ rows t db ∨ refs_ok t row db') →
  good db'.
Proof.
  intros Hg Hm H. apply good_iff. intros t. destruct (H t) as [Hnd Hrows].
  split; [done|]. intros row Hin. destruct (Hrows row Hin) as [Hold|Hnew]; [|done].
  eapply refs_ok_mono; [done|]. by apply (proj1 (good_iff db) Hg).
Qed.

Lemma refs_ok_mk_row r o x db :
  r ∈ relationships (owner r) →
  has_row (owner r) o db = true → has_row (target r) x db = true →
  refs_ok (secondary r) (mk_row r o x) db.
Proof.
  destruct r as [t c ow tg]. cbn [owner target secondary]. destruct ow; simpl.
  - intros [[= -> -> ->]|[[= -> -> ->]|[]%elem_of_nil]%elem_of_cons]%elem_of_cons;
      cbn; tauto.
  - intros [[= -> -> ->]|[]%elem_of_nil]%elem_of_cons; cbn; tauto.
  - intros [[= -> -> ->]|[]%elem_of_nil]%elem_of_cons; cbn; tauto.
Qed.

Lemma good_set_rows_filter t (P : Z * Z → Prop) `{!∀ x, Decision (P x)} db :
  good db → good (set_rows t (filter P (rows t db)) db).
Proof.
  intros Hg. apply (good_grow db); [done| |].
  - intros e id. by rewrite has_row_set_rows.
  - intros t'. assert (t' = t ∨ t' ≠ t) as [->|Hne] by (destruct t, t'; auto).
    + rewrite rows_set_rows. split.
      * apply NoDup_filter. apply (proj1 (good_iff db) Hg).
      * intros row [_ ?]%list_elem_of_filter. by left.
    + rewrite rows_set_rows_ne by done. split; [|by left].
      apply (proj1 (good_iff db) Hg).
Qed.

Lemma good_link_rows r o ids db :
  good db → r ∈ relationships (owner r) →
  has_row (owner r) o db = true →
  NoDup ids →
  (∀ x, x ∈ ids → has_row (target r) x db = true ∧ mk_row r o x ∉ rows (secondary r) db) →
  good (link_rows r o ids db).
Proof.
  intros Hg Hr Ho Hnd Hids. apply (good_grow db); [done| |].
  - intros e id. unfold link_rows. by rewrite has_row_set_rows.
  - intros t. unfold link_rows.
    assert (t = secondary r ∨ t ≠ secondary r) as [->|Hne]
      by (destruct t, (secondary r); auto).
    + rewrite rows_set_rows. split.
      * apply NoDup_app. split_and!.
        { apply (proj1 (good_iff db) Hg). }
        { intros row Hin (x & -> & Hx)%list_elem_of_fmap. by destruct (Hids x Hx). }
        { apply NoDup_fmap_2; [|done]. intros x y. apply mk_row_inj. }
      * intros row [Hin|(x & -> & Hx)%list_elem_of_fmap]%elem_of_app; [by left|].
        right. apply refs_ok_mk_row; [done|by rewrite has_row_set_rows..|].
        rewrite has_row_set_rows. by destruct (Hids x Hx).
    + rewrite rows_set_rows_ne by done. split; [|by left].
      apply (proj1 (good_iff db) Hg).
Qed.

Lemma good_store_book id b db : good db → good (store_book id b db).
Proof.
  intros Hg. apply (good_grow db); [done| |].
  - intros e x. destruct e; cbn; [|done..]. rewrite !bool_decide_eq_true.
    intros [v Hv]. destruct (decide (id = x)) as [->|Hne].
    + rewrite lookup_insert_eq. by eexists.
    + rewrite lookup_insert_ne by done. by eexists.
  - intros t. destruct (proj1 (good_iff db) Hg t) as [Hnd _].
    split; [by destruct t|]. intros row Hin. left. by destruct t.
Qed.

Lemma good_store_author id a db : good db → good (store_author id a db).
Proof.
  intros Hg. apply (good_grow db); [done| |].
  - intros e x. destruct e; cbn; [done| |done]. rewrite !bool_decide_eq_true.
    intros [v Hv]. destruct (decide (id = x)) as [->|Hne].
    + rewrite lookup_insert_eq. by eexists.
    + rewrite lookup_insert_ne by done. by eexists.
  - intros t. destruct (proj1 (good_iff db) Hg t) as [Hnd _].
    split; [by destruct t|]. intros row Hin. left. by destruct t.
Qed.

Lemma good_store_library id l db : good db → good (store_library id l db).
Proof.
  intros Hg. apply (good_grow db); [done| |].
  - intros e x. destruct e; cbn; [done..|]. rewrite !bool_decide_eq_true.
    intros [v Hv]. destruct (decide (id = x)) as [->|Hne].
    + rewrite lookup_insert_eq. by eexists.
    + rewrite lookup_insert_ne by done. by eexists.
  - intros t. destruct (proj1 (good_iff db) Hg t) as [Hnd _].
    split; [by destruct t|]. intros row Hin. left. by destruct t.
Qed.

Lemma good_reconcile r o ids db :
  good db → r ∈ relationships (owner r) →
  has_row (owner r) o db = true →
  targets_ok r o ids db = true →
  good (set_rows (secondary r) (reconcile_rows r o ids (rows (secondary r) db)) db).
Proof.
  intros Hg Hr Ho Hok. apply (good_grow db); [done| |].
  - intros e id. by rewrite has_row_set_rows.
  - intros t.
    assert (t = secondary r ∨ t ≠ secondary r) as [->|Hne]
      by (destruct t, (secondary r); auto).
    + rewrite rows_set_rows. split.
      * apply NoDup_reconcile_rows. apply (proj1 (good_iff db) Hg).
      * intros row. unfold reconcile_rows. rewrite elem_of_app, elem_of_delete_rows.
        intros [[_ Hin]|(x & -> & Hx)%list_elem_of_fmap]; [by left|]. right.
        apply refs_ok_mk_row; [done|by rewrite has_row_set_rows|].
        rewrite has_row_set_rows.
        apply targets_ok_to_add in Hok. rewrite forallb_forall in Hok.
        apply Hok, list_elem_of_In. by rewrite ids_to_add_linked.
    + rewrite rows_set_rows_ne by done. split; [|by left].
      apply (proj1 (good_iff db) Hg).
Qed.

Lemma good_updated_book book_id d db :
  good db →
  targets_ok Book_authors book_id (BookCreate.authors d) db = true →
  targets_ok Book_library book_id (BookCreate.library d) db = true →
  good (updated_book book_id d db).
Proof.
  intros Hg Ha Hl. unfold updated_book.
  set (db1 := store_book book_id (Book_of d) db).
  assert (Hb : has_row EBook book_id db1 = true).
  { apply bool_decide_eq_true. unfold db1. cbn. rewrite lookup_insert_eq. by eexists. }
  assert (Hg1 : good db1) by by apply good_store_book.
  pose proof (good_reconcile Book_authors book_id (BookCreate.authors d) db1 Hg1) as H1.
  cbn [secondary owner Book_authors relationships] in H1.
  specialize (H1 ltac:(left) Hb Ha).
  set (db2 := set_rows Books_1 _ db1) in *.
  pose proof (good_reconcile Book_library book_id (BookCreate.library d) db2 H1) as H2.
  cbn [secondary owner Book_library relationships] in H2.
  apply H2; [right; left|done|done].
Qed.

Lemma good_updated_author author_id d db :
  good db →
  targets_ok Author_books author_id (AuthorCreate.books d) db = true →
  good (updated_author author_id d db).
Proof.
  intros Hg Ha. unfold updated_author.
  set (db1 := store_author author_id (Author.mk (AuthorCreate.name d)) db).
  assert (Hb : has_row EAuthor author_id db1 = true).
  { apply bool_decide_eq_true. unfold db1. cbn. rewrite lookup_insert_eq. by eexists. }
  assert (Hg1 : good db1) by by apply good_store_author.
  pose proof (good_reconcile Author_books author_id (AuthorCreate.books d) db1 Hg1) as H1.
  cbn [secondary owner Author_books relationships] in H1.
  apply H1; [left|done|done].
Qed.

Lemma good_updated_library library_id d db :
  good db →
  targets_ok Library_books library_id (LibraryCreate.books d) db = true →
  good (updated_library library_id d db).
Proof.
  intros Hg Ha. unfold updated_library.
  set (db1 := store_library library_id (Library.mk (LibraryCreate.name d)) db).
  assert (Hb : has_row ELibrary library_id db1 = true).
  { apply bool_decide_eq_true. unfold db1. cbn. rewrite lookup_insert_eq. by eexists. }
  assert (Hg1 : good db1) by by apply good_store_library.
  pose proof (good_reconcile Library_books library_id (LibraryCreate.books d) db1 Hg1) as H1.
  cbn [secondary owner Library_books relationships] in H1.
  apply H1; [left|done|done].
Qed.

(** Deleting an entity through the session keeps the integrity: the
    rows that name it are unlinked first. *)
Lemma good_deleted e x db : good db → good (deleted e x db).
Proof.
  intros Hg. apply good_iff. intros t.
  pose proof (proj1 (good_iff db) Hg) as Hdb.
  assert (Hsub : ∀ row, row ∈ rows t (deleted e x db) → row ∈ rows t db)
    by (intros row; apply rows_deleted_subseteq).
  split.
  - destruct (Hdb t) as [Hnd _].
    destruct e, t; cbn; try done; try (apply NoDup_filter; exact Hnd).
  - intros row Hin. pose proof (Hsub row Hin) as Hold.
    destruct (Hdb t) as [_ Hrefs]. specialize (Hrefs row Hold).
    destruct e, t; cbn [refs_ok] in *; destruct Hrefs as [H1 H2].
    + apply (elem_of_unlinked (λ r, r.2 = x) (λ r, has_row EAuthor r.1 db) (books_1 db) row)
        in Hin as [_ Hn].
      split; apply has_row_deleted; (split; [done|]); intros [Heq Hx]; [done|].
      by apply Hn.
    + apply (elem_of_unlinked (λ r, r.1 = x) (λ r, has_row ELibrary r.2 db) (books db) row)
        in Hin as [_ Hn].
      split; apply has_row_deleted; (split; [done|]); intros [Heq Hx]; [|done].
      by apply Hn.
    + apply (elem_of_unlinked (λ r, r.1 = x) (λ r, has_row EBook r.2 db) (books_1 db) row)
        in Hin as [_ Hn].
      split; apply has_row_deleted; (split; [done|]); intros [Heq Hx]; [|done].
      by apply Hn.
    + split; apply has_row_deleted; (split; [done|]); by intros [Heq Hx].
    + split; apply has_row_deleted; (split; [done|]); by intros [Heq Hx].
    + apply (elem_of_unlinked (λ r, r.2 = x) (λ r, has_row EBook r.1 db) (books db) row)
        in Hin as [_ Hn].
      split; apply has_row_deleted; (split; [done|]); intros [Heq Hx]; [done|].
      by apply Hn.
Qed.

Lemma good_deleted_all e ids db : good db → good (deleted_all e ids db).
Proof.
  unfold deleted_all. revert db. induction ids as [|x ids IH]; intros db Hg; [done|].
  simpl. by apply IH, good_deleted.
Qed.

Lemma link_all_good r o ids db st :
  good db → r ∈ relationships (owner r) → has_row (owner r) o db = true →
  good (committed (link_all r o ids (mkSession db db st)).2).
Proof.
  unfold link_all. revert db st. induction ids as [|id ids IH]; intros db st Hg Hr Ho.
  - done.
  - cbn [for_each]. unfold mbind at 1, M_bind at 1.
    unfold mbind at 1, M_bind at 1. unfold query_exists at 1. cbn [working].
    destruct (has_row (target r) id db) eqn:Hrow; cbn [negb]; [|done].
    unfold mbind at 1, M_bind at 1. unfold execute_insert at 1. cbn [working committed executed].
    destruct (bool_decide (mk_row r o id ∈ rows (secondary r) db)) eqn:Hin; [done|].
    apply bool_decide_eq_false in Hin.
    unfold commit at 1. cbn [working committed executed].
    change (set_rows (secondary r) (rows (secondary r) db ++ [mk_row r o id]) db)
      with (link_rows r o [id] db).
    apply IH; [|done|].
    + apply good_link_rows; [done..| |].
      * apply NoDup_singleton.
      * by intros x ->%list_elem_of_singleton.
    + unfold link_rows. by rewrite has_row_set_rows.
Qed.

Lemma run_request_database {A} (m : M A) db :
  database (run_request m db) = committed (m (mkSession db db [])).2.
Proof. unfold run_request. by destruct (m _) as [[a|e] s]. Qed.

Lemma create_book_good d db : good db → good (database (run_request (create_book d) db)).
Proof.
  intros Hg. rewrite run_request_database. unfold create_book.
  set (s0 := mkSession db db []).
  unfold mbind at 1, M_bind at 1.
  pose proof (require_all_spec EAuthor "Author" (BookCreate.authors d) s0) as H1.
  destruct (require_all EAuthor _ _ s0) as [[[]|e] s'];
    [destruct H1 as [_ ->]|by destruct H1 as (x & _ & _ & _ & ->)].
  unfold mbind at 1, M_bind at 1.
  pose proof (require_all_spec ELibrary "Library" (BookCreate.library d) s0) as H2.
  destruct (require_all ELibrary _ _ s0) as [[[]|e] s'];
    [destruct H2 as [_ ->]|by destruct H2 as (x & _ & _ & _ & ->)].
  unfold mbind at 1, M_bind at 1. unfold add_book at 1. cbn [working committed executed s0].
  fold (store_book (next_id (book db)) (Book_of d) db).
  set (nid := next_id (book db)).
  unfold mbind at 1, M_bind at 1. unfold commit at 1. cbn [working committed executed].
  unfold mbind at 1, M_bind at 1. unfold refresh_book at 1. cbn [working].
  replace (book (store_book nid (Book_of d) db) !! nid) with (Some (Book_of d))
    by (symmetry; apply lookup_insert_eq).
  cbn [fst].
  set (db1 := store_book nid (Book_of d) db).
  assert (Hg1 : good db1) by by apply good_store_book.
  assert (Hb1 : has_row EBook nid db1 = true).
  { apply bool_decide_eq_true. unfold db1. cbn. rewrite lookup_insert_eq. by eexists. }
  unfold mbind at 1, M_bind at 1.
  pose proof (link_all_good Book_authors nid (BookCreate.authors d) db1 [] Hg1) as G1.
  pose proof (link_all_spec Book_authors nid (BookCreate.authors d) db1 []) as L1.
  destruct (link_all Book_authors _ _ _) as [[[]|e] s1].
  2:{ apply G1; [left|done]. }
  destruct L1 as (-> & _). cbn [snd committed] in G1.
  specialize (G1 ltac:(left) Hb1).
  set (db2 := link_rows Book_authors nid (BookCreate.authors d) db1) in *.
  unfold mbind at 1, M_bind at 1.
  pose proof (link_all_good Book_library nid (BookCreate.library d) db2
                ([] ++ ((StInsert (secondary Book_authors) ∘ mk_row Book_authors nid)
                          <$> BookCreate.authors d)) G1) as G2.
  specialize (G2 ltac:(right; left) Hb1).
  destruct (link_all Book_library _ _ _) as [[[]|e] s2]; [|done].
  unfold book_response, mbind, M_bind, select_linked, mret, M_ret. done.
Qed.

Lemma create_author_good d db : good db → good (database (run_request (create_author d) db)).
Proof.
  intros Hg. rewrite run_request_database. unfold create_author.
  destruct (_ || _); [done|].
  set (s0 := mkSession db db []).
  unfold mbind at 1, M_bind at 1.
  pose proof (require_all_spec EBook "Book" (AuthorCreate.books d) s0) as H1.
  destruct (require_all EBook _ _ s0) as [[[]|e] s'];
    [destruct H1 as [_ ->]|by destruct H1 as (x & _ & _ & _ & ->)].
  unfold mbind at 1, M_bind at 1. unfold add_author at 1. cbn [working committed executed s0].
  fold (store_author (next_id (author db)) (Author.mk (AuthorCreate.name d)) db).
  set (nid := next_id (author db)).
  unfold mbind at 1, M_bind at 1. unfold commit at 1. cbn [working committed executed].
  unfold mbind at 1, M_bind at 1. unfold refresh_author at 1. cbn [working].
  replace (author (store_author nid (Author.mk (AuthorCreate.name d)) db) !! nid)
    with (Some (Author.mk (AuthorCreate.name d))) by (symmetry; apply lookup_insert_eq).
  cbn [fst].
  set (db1 := store_author nid (Author.mk (AuthorCreate.name d)) db).
  assert (Hg1 : good db1) by by apply good_store_author.
  assert (Hb1 : has_row EAuthor nid db1 = true).
  { apply bool_decide_eq_true. unfold db1. cbn. rewrite lookup_insert_eq. by eexists. }
  unfold mbind at 1, M_bind at 1.
  pose proof (link_all_good Author_books nid (AuthorCreate.books d) db1 [] Hg1) as G1.
  specialize (G1 ltac:(left) Hb1).
  destruct (link_all Author_books _ _ _) as [[[]|e] s1]; [|done].
  unfold author_response, mbind, M_bind, select_linked, mret, M_ret. done.
Qed.

Lemma create_library_good d db :
  good db → good (database (run_request (create_library d) db)).
Proof.
  intros Hg. rewrite run_request_database. unfold create_library.
  set (s0 := mkSession db db []).
  unfold mbind at 1, M_bind at 1.
  pose proof (require_all_spec EBook "Book" (LibraryCreate.books d) s0) as H1.
  destruct (require_all EBook _ _ s0) as [[[]|e] s'];
    [destruct H1 as [_ ->]|by destruct H1 as (x & _ & _ & _ & ->)].
  unfold mbind at 1, M_bind at 1. unfold add_library at 1. cbn [working committed executed s0].
  fold (store_library (next_id (library db)) (Library.mk (LibraryCreate.name d)) db).
  set (nid := next_id (library db)).
  unfold mbind at 1, M_bind at 1. unfold commit at 1. cbn [working committed executed].
  unfold mbind at 1, M_bind at 1. unfold refresh_library at 1. cbn [working].
  replace (library (store_library nid (Library.mk (LibraryCreate.name d)) db) !! nid)
    with (Some (Library.mk (LibraryCreate.name d))) by (symmetry; apply lookup_insert_eq).
  cbn [fst].
  set (db1 := store_library nid (Library.mk (LibraryCreate.name d)) db).
  assert (Hg1 : good db1) by by apply good_store_library.
  assert (Hb1 : has_row ELibrary nid db1 = true).
  { apply bool_decide_eq_true. unfold db1. cbn. rewrite lookup_insert_eq. by eexists. }
  unfold mbind at 1, M_bind at 1.
  pose proof (link_all_good Library_books nid (LibraryCreate.books d) db1 [] Hg1) as G1.
  specialize (G1 ltac:(left) Hb1).
  destruct (link_all Library_books _ _ _) as [[[]|e] s1]; [|done].
  unfold library_response, mbind, M_bind, select_linked, mret, M_ret. done.
Qed.

Lemma update_book_good book_id d db :
  good db → good (database (run_request (update_book book_id d) db)).
Proof.
  intros Hg. rewrite run_request_database.
  destruct (book db !! book_id) as [b|] eqn:Hb.
  - pose proof (update_book_session book_id d db b Hb) as H.
    destruct (update_book book_id d _) as [[resp|e] s']; cbn [snd].
    + destruct H as (Ha & Hl & _ & ->). by apply good_updated_book.
    + destruct H as (_ & _ & ->). done.
  - unfold update_book. unfold mbind at 1, M_bind at 1. unfold query_book at 1.
    cbn [working]. by rewrite Hb.
Qed.

Lemma update_author_good author_id d db :
  good db → good (database (run_request (update_author author_id d) db)).
Proof.
  intros Hg. rewrite run_request_database.
  destruct (author db !! author_id) as [b|] eqn:Hb.
  - pose proof (update_author_session author_id d db b Hb) as H.
    destruct (update_author author_id d _) as [[resp|e] s']; cbn [snd].
    + destruct H as (Ha & _ & ->). by apply good_updated_author.
    + destruct H as (_ & _ & ->). done.
  - unfold update_author. unfold mbind at 1, M_bind at 1. unfold query_author at 1.
    cbn [working]. by rewrite Hb.
Qed.

Lemma update_library_good library_id d db :
  good db → good (database (run_request (update_library library_id d) db)).
Proof.
  intros Hg. rewrite run_request_database.
  destruct (library db !! library_id) as [b|] eqn:Hb.
  - pose proof (update_library_session library_id d db b Hb) as H.
    destruct (update_library library_id d _) as [[resp|e] s']; cbn [snd].
    + destruct H as (Ha & _ & ->). by apply good_updated_library.
    + destruct H as (_ & _ & ->). done.
  - unfold update_library. unfold mbind at 1, M_bind at 1. unfold query_library at 1.
    cbn [working]. by rewrite Hb.
Qed.

Lemma add_link_good r owner_name other_name relation o x db :
  r ∈ relationships (owner r) → good db →
  good (database (run_request (add_link r owner_name other_name relation o x) db)).
Proof.
  intros Hr Hg. rewrite add_link_run.
  destruct (has_row (owner r) o db) eqn:Ho; [|done]. cbn [negb].
  destruct (has_row (target r) x db) eqn:Hx; [|done]. cbn [negb].
  destruct (bool_decide _) eqn:Hin; [done|]. apply bool_decide_eq_false in Hin.
  cbn [database]. apply good_link_rows; [done..| |].
  - apply NoDup_singleton.
  - by intros y ->%list_elem_of_singleton.
Qed.

Lemma remove_link_good r owner_name other_name relation o x db :
  good db →
  good (database (run_request (remove_link r owner_name other_name relation o x) db)).
Proof.
  intros Hg. rewrite remove_link_run.
  destruct (has_row (owner r) o db); [|done]. cbn [negb].
  destruct (bool_decide _); [|done]. cbn [negb database].
  by apply good_set_rows_filter.
Qed.

Lemma delete_entity_good e name id db :
  good db → good (database (run_request (delete_entity e name id) db)).
Proof.
  intros Hg. rewrite delete_entity_run.
  destruct (has_row e id db); [|done]. cbn [negb database]. by apply good_deleted.
Qed.

Lemma bulk_delete_good e name ids db :
  good db → good (database (run_request (bulk_delete e name ids) db)).
Proof. intros Hg. rewrite bulk_delete_run. cbn. by apply good_deleted_all. Qed.

Lemma decrease_stock_good book_id qty db :
  good db → good (database (run_request (execute_book_decrease_stock book_id qty) db)).
Proof.
  intros Hg. destruct (book db !! book_id) as [b|] eqn:Hb.
  - rewrite (decrease_stock_run book_id qty db b Hb).
    destruct (bool_decide (qty ≤ 0)); [done|].
    destruct (bool_decide (qty > Book.stock b)); [done|].
    cbn [database]. by apply good_store_book.
  - by rewrite decrease_stock_missing.
Qed.

Lemma bulk_loop_good {Item} raised (add : Item → M Z) :
  (∀ item s, good (working s) →
     ∃ id s', add item s = (inl id, s') ∧ committed s' = committed s ∧ good (working s')) →
  ∀ items idx created errors s,
    good (working s) →
    ∃ r s',
      bulk_loop raised add idx items created errors s = (inl r, s') ∧
      committed s' = committed s ∧ good (working s').
Proof.
  intros Hadd. induction items as [|item items IH]; intros idx created errors s Hg.
  - by eexists _, s.
  - cbn [bulk_loop]. unfold mbind at 1, M_bind at 1. unfold try_except at 1.
    unfold mbind at 1, M_bind at 1. unfold flush at 1.
    destruct (raised idx) as [ex|].
    + unfold mret at 1, M_ret at 1. by apply IH.
    + destruct (Hadd item s Hg) as (id & s1 & Hrun & Hc & Hg1).
      unfold mbind at 1, M_bind at 1. rewrite Hrun. unfold mret at 1, M_ret at 1.
      destruct (IH (S idx) (created ++ [id]) errors s1 Hg1) as (r & s' & Hr & Hc' & Hg').
      exists r, s'. by rewrite Hr, Hc', Hc.
Qed.

Lemma bulk_create_good {Item} raised (add : Item → M Z) name (items : list Item) db :
  (∀ item s, good (working s) →
     ∃ id s', add item s = (inl id, s') ∧ committed s' = committed s ∧ good (working s')) →
  good db → good (database (run_request (bulk_create raised add name items) db)).
Proof.
  intros Hadd Hg. rewrite run_request_database. unfold bulk_create.
  destruct (bulk_loop_good raised add Hadd items 0%nat [] [] (mkSession db db []) Hg)
    as ([c errs] & s' & Hrun & Hc & Hg').
  unfold mbind at 1, M_bind at 1. rewrite Hrun.
  destruct errs as [|err errs].
  - unfold mbind, M_bind, commit, mret, M_ret. done.
  - unfold mbind, M_bind, rollback, raise. cbn [snd committed]. by rewrite Hc.
Qed.

Lemma add_book_good {Item} (f : Item → Book.t) item s :
  good (working s) →
  ∃ id s', add_book (f item) s = (inl id, s') ∧ committed s' = committed s ∧
           good (working s').
Proof.
  intros Hg. eexists _, _. split; [reflexivity|]. split; [done|].
  by apply (good_store_book (next_id (book (working s))) (f item) (working s)).
Qed.

Lemma add_author_good {Item} (f : Item → Author.t) item s :
  good (working s) →
  ∃ id s', add_author (f item) s = (inl id, s') ∧ committed s' = committed s ∧
           good (working s').
Proof.
  intros Hg. eexists _, _. split; [reflexivity|]. split; [done|].
  by apply (good_store_author (next_id (author (working s))) (f item) (working s)).
Qed.

Lemma add_library_good {Item} (f : Item → Library.t) item s :
  good (working s) →
  ∃ id s', add_library (f item) s = (inl id, s') ∧ committed s' = committed s ∧
           good (working s').
Proof.
  intros Hg. eexists _, _. split; [reflexivity|]. split; [done|].
  by apply (good_store_library (next_id (library (working s))) (f item) (working s)).
Qed.

Lemma with_body_good {Raw T A} (validate : Raw → T + list (list LocItem * Exn))
    (endpoint : T → M A) raw db :
  good db →
  (∀ v, good (database (run_request (endpoint v) db))) →
  good (database (with_body validate endpoint raw db)).
Proof. intros Hg H. unfold with_body. by destruct (validate raw). Qed.

Lemma good_empty_db : good empty_db.
Proof. split_and!; [constructor..|done]. Qed.

(** X20. The integrity of the association tables is an invariant of the
    API.  Every request keeps it: when no association row is stored twice
    and every association row names a stored Book and a stored Author or
    Library, the same holds for the database the request leaves behind,
    whether it is accepted, refused, or fails half way (as [create_book]
    can).  So it holds after any sequence of requests that starts from the
    empty database. *)
Theorem integrity_invariant :
  (∀ req db, good db → good (serve req db)) ∧
  (∀ reqs, good (foldl (λ db req, serve req db) empty_db reqs)).
Proof.
  assert (Hstep : ∀ req db, good db → good (serve req db)).
  { intros req db.
    intros Hg. destruct req; cbn [serve].
    - apply with_body_good; [done|]. intros v. by apply create_book_good.
    - apply with_body_good; [done|]. intros v. unfold bulk_create_book.
      apply bulk_create_good; [|done]. intros item s. apply (add_book_good Book_of).
    - apply with_body_good; [done|]. intros v. by apply update_book_good.
    - by apply delete_entity_good.
    - by apply bulk_delete_good.
    - apply add_link_good; [left|done].
    - by apply remove_link_good.
    - apply add_link_good; [right; left|done].
    - by apply remove_link_good.
    - by apply decrease_stock_good.
    - rewrite get_book_run. done.
    - rewrite get_paginated_book_run. done.
    - rewrite get_authors_of_book_run. done.
    - apply with_body_good; [done|]. intros v. by apply create_author_good.
    - apply with_body_good; [done|]. intros v. unfold bulk_create_author.
      apply bulk_create_good; [|done]. intros item s.
      apply (add_author_good (λ i, Author.mk (AuthorCreate.name i))).
    - apply with_body_good; [done|]. intros v. by apply update_author_good.
    - by apply delete_entity_good.
    - by apply bulk_delete_good.
    - apply add_link_good; [left|done].
    - by apply remove_link_good.
    - apply with_body_good; [done|]. intros v. by apply create_library_good.
    - apply with_body_good; [done|]. intros v. unfold bulk_create_library.
      apply bulk_create_good; [|done]. intros item s.
      apply (add_library_good (λ i, Library.mk (LibraryCreate.name i))).
    - apply with_body_good; [done|]. intros v. by apply update_library_good.
    - by apply delete_entity_good.
    - by apply bulk_delete_good.
    - apply add_link_good; [left|done].
    - by apply remove_link_good. }
  split; [exact Hstep|].
  intros reqs. generalize good_empty_db. generalize empty_db.
  induction reqs as [|req reqs IH]; intros db Hg; [done|].
  simpl. by apply IH, Hstep.
Qed.

Lemma integrity_invariant_witness :
  good sample_db ∧ good (serve (PostBook (sample_payload 20 [3; 3] [1])) sample_db).
Proof.
  assert (Hg : good sample_db).
  { split_and!; [refine (bool_decide_unpack _ _); vm_compute; exact I..|reflexivity]. }
  split; [exact Hg|].
  apply (proj1 integrity_invariant (PostBook (sample_payload 20 [3; 3] [1])) sample_db Hg).
Defined.


(** ** Links and deletions, as reads see them *)

(** X21. A link is visible to [get_book] exactly while it is stored: after
    an accepted [add_authors_to_book b a], [get_book b] lists [a] among
    its author ids, and after an accepted [remove_authors_from_book b a]
    it does not. *)
Theorem link_visible_to_get_book b a db :
  (∀ msg,
     response (run_request (add_authors_to_book b a) db) = Returned msg →
     ∃ resp,
       response (run_request (get_book b)
                   (database (run_request (add_authors_to_book b a) db)))
         = Returned resp ∧
       a ∈ BookResponse.author_ids resp) ∧
  (∀ msg,
     response (run_request (remove_authors_from_book b a) db) = Returned msg →
     ∃ resp,
       response (run_request (get_book b)
                   (database (run_request (remove_authors_from_book b a) db)))
         = Returned resp ∧
       a ∉ BookResponse.author_ids resp).
Proof.
  split; intros msg.
  - unfold add_authors_to_book. rewrite add_link_run.
    cbn [owner target secondary Book_authors].
    destruct (has_row EBook b db) eqn:Hb; [|done]. cbn [negb].
    destruct (has_row EAuthor a db); [|done]. cbn [negb].
    destruct (bool_decide _); [done|]. intros _. cbn [database].
    rewrite get_book_run. apply bool_decide_eq_true in Hb as [row Hb].
    change (book (link_rows Book_authors b [a] db)) with (book db). rewrite Hb.
    eexists. split; [done|]. cbn [book_view BookResponse.author_ids fst].
    rewrite (elem_of_linked Book_authors b _ a). unfold link_rows.
    rewrite rows_set_rows, elem_of_app. right. cbn [fmap list_fmap]. left.
  - unfold remove_authors_from_book. rewrite remove_link_run.
    cbn [owner target secondary Book_authors].
    destruct (has_row EBook b db) eqn:Hb; [|done]. cbn [negb].
    destruct (bool_decide _); [|done]. cbn [negb]. intros _. cbn [database].
    rewrite get_book_run. apply bool_decide_eq_true in Hb as [row Hb].
    change (book (set_rows Books_1 _ db)) with (book db). rewrite Hb.
    eexists. split; [done|]. cbn [book_view BookResponse.author_ids fst].
    rewrite (elem_of_linked Book_authors b _ a), rows_set_rows, list_elem_of_filter.
    tauto.
Qed.

Lemma link_visible_to_get_book_witness :
  ∃ resp,
    response (run_request (get_book 1)
                (database (run_request (add_authors_to_book 1 3) sample_db)))
      = Returned resp ∧
    3 ∈ BookResponse.author_ids resp.
Proof.
  apply (proj1 (link_visible_to_get_book 1 3 sample_db)
           "Author added to authors successfully").
  reflexivity.
Defined.

(** X22. Deleting is final: after an accepted [delete_book], [get_book],
    [update_book], [execute_book_decrease_stock] and a second
    [delete_book] on the same id are all answered with the 404 "Book not
    found" and change nothing. *)
Theorem delete_book_final book_id db :
  has_row EBook book_id db = true →
  let db1 := database (run_request (delete_book book_id) db) in
  run_request (get_book book_id) db1
    = mkOutcome (Failed (http_error 404 "Book not found")) db1 [] ∧
  run_request (delete_book book_id) db1
    = mkOutcome (Failed (http_error 404 "Book not found")) db1 [] ∧
  (∀ d, run_request (update_book book_id d) db1
        = mkOutcome (Failed (http_error 404 "Book not found")) db1 []) ∧
  (∀ qty, run_request (execute_book_decrease_stock book_id qty) db1
          = mkOutcome (Failed (http_error 404 "Book not found")) db1 []).
Proof.
  intros Hb db1.
  assert (Hdb1 : db1 = deleted EBook book_id db).
  { subst db1. unfold delete_book. by rewrite delete_entity_run, Hb. }
  clearbody db1. subst db1.
  assert (Hgone : book (deleted EBook book_id db) !! book_id = None)
    by apply lookup_delete_eq.
  split_and!.
  - by rewrite get_book_run, Hgone.
  - unfold delete_book. rewrite delete_entity_run.
    replace (has_row EBook book_id (deleted EBook book_id db)) with false; [done|].
    symmetry. apply bool_decide_eq_false. rewrite Hgone. by intros [? ?].
  - intros d. unfold run_request, update_book. unfold mbind at 1, M_bind at 1.
    unfold query_book at 1. cbn [working]. by rewrite Hgone.
  - intros qty. by apply decrease_stock_missing.
Qed.

Lemma delete_book_final_witness :
  run_request (get_book 1) (database (run_request (delete_book 1) sample_db))
  = mkOutcome (Failed (http_error 404 "Book not found"))
      (database (run_request (delete_book 1) sample_db)) [].
Proof. apply (delete_book_final 1 sample_db). reflexivity. Defined.

(** ** What a bulk creation stores *)

Lemma bulk_loop_book_stored raised items :
  ∀ idx created errors s,
  (∀ i, (i < length items)%nat → raised (idx + i)%nat = None) →
  ∃ ids s',
    bulk_loop raised (λ item_data, add_book (Book_of item_data)) idx items created errors s
      = (inl (created ++ ids, errors), s') ∧
    committed s' = committed s ∧ executed s' = executed s ∧
    author (working s') = author (working s) ∧
    library (working s') = library (working s) ∧
    Forall2 (λ id item, book (working s') !! id = Some (Book_of item)) ids items ∧
    NoDup ids ∧
    (∀ id, id ∈ ids → book (working s) !! id = None) ∧
    (∀ id b, book (working s) !! id = Some b → book (working s') !! id = Some b) ∧
    (∀ id, is_Some (book (working s') !! id) → is_Some (book (working s) !! id) ∨ id ∈ ids).
Proof.
  induction items as [|item items IH]; intros idx created errors s Hnone.
  - exists [], s. simpl. rewrite app_nil_r. split_and!; try done.
    + constructor.
    + by intros id ?%elem_of_nil.
    + intros id ?. by left.
  - cbn [bulk_loop]. unfold mbind at 1, M_bind at 1. unfold try_except at 1.
    unfold mbind at 1, M_bind at 1. unfold flush at 1.
    pose proof (Hnone 0%nat ltac:(simpl; lia)) as H0. rewrite Nat.add_0_r in H0.
    rewrite H0. unfold mbind at 1, M_bind at 1. unfold add_book at 1.
    unfold mret at 1, M_ret at 1.
    set (nid := next_id (book (working s))).
    set (s1 := mkSession _ _ _).
    destruct (IH (S idx) (created ++ [nid]) errors s1)
      as (ids & s' & Hrun & Hc & Hx & Ha & Hl & Hall & Hnd & Hfresh & Hkeep & Hdom).
    { intros i Hi. replace (S idx + i)%nat with (idx + S i)%nat by lia.
      apply Hnone. simpl. lia. }
    exists (nid :: ids), s'. rewrite Hrun, <- app_assoc.
    assert (Hnew : book (working s1) !! nid = Some (Book_of item))
      by apply lookup_insert_eq.
    assert (Hnotin : nid ∉ ids).
    { intros Hin. apply Hfresh in Hin. congruence. }
    split_and!; try done.
    + constructor; [|done]. by apply Hkeep.
    + by apply NoDup_cons.
    + intros id [->|Hin]%elem_of_cons; [apply next_id_fresh|].
      apply Hfresh in Hin. unfold s1 in Hin. cbn [working book] in Hin.
      destruct (decide (nid = id)) as [->|Hne]; [by rewrite lookup_insert_eq in Hin|].
      by rewrite lookup_insert_ne in Hin.
    + intros id b Hb. apply Hkeep. unfold s1. cbn [working book].
      rewrite lookup_insert_ne; [done|]. intros <-. unfold nid in Hb.
      by rewrite next_id_fresh in Hb.
    + intros id Hid. apply Hdom in Hid as [Hid|Hid]; [|right; by right].
      unfold s1 in Hid. cbn [working book] in Hid.
      destruct (decide (nid = id)) as [->|Hne]; [right; by left|].
      rewrite lookup_insert_ne in Hid by done. by left.
Qed.

(** X23. When no [try] body raises, [bulk_create_book] is accepted and
    stores every item: [created_ids] has one id per item, in the order of
    submission and without repetition, no returned id was in use, each
    item's fields are stored under its id, the rows stored before are
    unchanged, and the book table holds nothing else. *)
Theorem bulk_create_book_stores raised items db :
  (∀ i, (i < length items)%nat → raised i = None) →
  let out := run_request (bulk_create_book raised items) db in
  ∃ resp,
    response out = Returned resp ∧
    created_count resp = length items ∧
    Forall2 (λ id item, book (database out) !! id = Some (Book_of item))
      (created_ids resp) items ∧
    NoDup (created_ids resp) ∧
    (∀ id, id ∈ created_ids resp → book db !! id = None) ∧
    (∀ id b, book db !! id = Some b → book (database out) !! id = Some b) ∧
    (∀ id, is_Some (book (database out) !! id) →
       is_Some (book db !! id) ∨ id ∈ created_ids resp) ∧
    author (database out) = author db ∧ library (database out) = library db.
Proof.
  intros Hnone out. subst out.
  destruct (bulk_loop_book_stored raised items 0%nat [] [] (mkSession db db []) Hnone)
    as (ids & s' & Hrun & Hc & Hx & Ha & Hl & Hall & Hnd & Hfresh & Hkeep & Hdom).
  cbn [working app] in *.
  assert (Hout : run_request (bulk_create_book raised items) db =
                 mkOutcome
                   (Returned (mkBulkResponse (length ids) ids
                                ("Successfully created " +:+ pretty (length ids)
                                   +:+ " Book entities")))
                   (working s') (executed s')).
  { unfold run_request, bulk_create_book, bulk_create.
    unfold mbind at 1, M_bind at 1. rewrite Hrun.
    unfold mbind, M_bind, commit, mret, M_ret. done. }
  rewrite Hout. cbn [response database]. eexists. split; [done|].
  cbn [created_count created_ids]. split_and!; try done.
  by eapply Forall2_length.
Qed.

Lemma bulk_create_book_stores_witness :
  ∃ resp,
    response (run_request
                (bulk_create_book (λ _, None)
                   [sample_payload 20 [] []; sample_payload 30 [7] []])
                sample_db)
      = Returned resp ∧
    created_count resp = 2%nat.
Proof.
  destruct (bulk_create_book_stores (λ _, None)
              [sample_payload 20 [] []; sample_payload 30 [7] []] sample_db)
    as (resp & Hresp & Hcount & _).
  - reflexivity.
  - exists resp. split; [exact Hresp|exact Hcount].
Defined.
